(** * atest command line translator: reference classification, test lookup
      and the flattening of resolved tests

    Shallow embedding of [atest/cli_translator.py].  Python byte strings are
    [string]s, frozensets are [gset]s, [None] is [option]'s [None]; code that
    talks to the file system, to a subprocess or to the terminal runs in a
    small monad that records every such call. *)

From Stdlib Require Import Ascii String.
From stdpp Require Import base decidable option list sets gmap strings
  sorting pretty.

Local Open Scope string_scope.
Local Open Scope list_scope.

(** ** Python string primitives *)

Module PyStr.

(** [s.startswith(p)] *)
Fixpoint startswith (p s : string) : bool :=
  match p, s with
  | EmptyString, _ => true
  | String a p', String b s' => if decide (a = b) then startswith p' s' else false
  | String _ _, EmptyString => false
  end.

(** [sub in s] *)
Fixpoint contains (sub s : string) : bool :=
  startswith sub s ||
  match s with
  | EmptyString => false
  | String _ s' => contains sub s'
  end.

(** [s.endswith(p)] *)
Fixpoint endswith (p s : string) : bool :=
  if decide (s = p) then true
  else match s with
       | EmptyString => false
       | String _ s' => endswith p s'
       end.

(** [s.split(c)] for a separator of one character. *)
Fixpoint split (c : ascii) (s : string) : list string :=
  match s with
  | EmptyString => [EmptyString]
  | String a s' =>
      if decide (a = c) then EmptyString :: split c s'
      else match split c s' with
           | h :: t => String a h :: t
           | [] => [String a EmptyString]
           end
  end.

(** [s.lstrip(c)], [s.rstrip(c)] and [s.strip(c)] for one character. *)
Fixpoint lstrip (c : ascii) (s : string) : string :=
  match s with
  | String a s' => if decide (a = c) then lstrip c s' else s
  | EmptyString => EmptyString
  end.

Fixpoint rstrip (c : ascii) (s : string) : string :=
  match s with
  | EmptyString => EmptyString
  | String a s' =>
      match rstrip c s' with
      | EmptyString => if decide (a = c) then EmptyString else String a EmptyString
      | r => String a r
      end
  end.

Definition strip (c : ascii) (s : string) : string := rstrip c (lstrip c s).

(** [sep.join(l)] *)
Fixpoint join (sep : string) (l : list string) : string :=
  match l with
  | [] => EmptyString
  | [x] => x
  | x :: l' => x +:+ sep +:+ join sep l'
  end.

(** [s.replace(a, b)] for single characters. *)
Fixpoint replace (a b : ascii) (s : string) : string :=
  match s with
  | EmptyString => EmptyString
  | String c s' => String (if decide (c = a) then b else c) (replace a b s')
  end.

(** Truth value of a string: the empty string is false. *)
Definition truthy (s : string) : bool :=
  match s with EmptyString => false | _ => true end.

(** Number of occurrences of a character, [s.count(c)]. *)
Fixpoint count (c : ascii) (s : string) : nat :=
  match s with
  | EmptyString => 0
  | String a s' => (if decide (a = c) then 1 else 0) + count c s'
  end.

End PyStr.

(** ** Reference types *)

(** The [REFERENCE_TYPE] enumeration. *)
Inductive REFERENCE_TYPE :=
| MODULE | CLASS | QUALIFIED_CLASS | MODULE_CLASS | PACKAGE
| MODULE_PACKAGE | FILE_PATH | INTEGRATION | SUITE.

Global Instance REFERENCE_TYPE_eq_dec : EqDecision REFERENCE_TYPE.
Proof. solve_decision. Defined.

(** [CLITranslator._get_test_reference_types] *)
Definition _get_test_reference_types (ref : string) : list REFERENCE_TYPE :=
  if PyStr.startswith "." ref || PyStr.contains ".." ref then [FILE_PATH]
  else if PyStr.contains "/" ref then
    if PyStr.startswith "/" ref then [FILE_PATH]
    else [FILE_PATH; INTEGRATION]
  else if PyStr.contains ":" ref then
    if PyStr.contains "." ref then [MODULE_CLASS; MODULE_PACKAGE; INTEGRATION]
    else [MODULE_CLASS; INTEGRATION]
  else if PyStr.contains "." ref then [FILE_PATH; QUALIFIED_CLASS; PACKAGE]
  else [INTEGRATION; MODULE; CLASS].

(** The lexical features of section 4.1, stated on the text itself. *)
Definition starts_with (p s : string) : Prop := ∃ t, s = p +:+ t.
Definition has_substring (sub s : string) : Prop := ∃ a b, s = a +:+ sub +:+ b.

(** ** Test filters and test infos *)

(** [TestFilter]: a class name and a frozenset of method names. *)
Record TestFilter := mkTestFilter {
  class_name : string;
  methods : gset string
}.

Global Instance TestFilter_eq_dec : EqDecision TestFilter.
Proof. solve_decision. Defined.

Global Instance TestFilter_countable : Countable TestFilter.
Proof.
  apply (inj_countable' (λ f, (class_name f, methods f))
                        (λ p, mkTestFilter p.1 p.2)).
  by intros [].
Defined.

(** [TestInfo]; a field that may hold [None] in Python is an [option]. *)
Record TestInfo := mkTestInfo {
  rel_config : option string;
  module_name : option string;
  integrated_name : option string;
  filters : gset TestFilter
}.

Global Instance TestInfo_eq_dec : EqDecision TestInfo.
Proof. solve_decision. Defined.

Global Instance TestInfo_countable : Countable TestInfo.
Proof.
  apply (inj_countable'
           (λ t, (rel_config t, module_name t, integrated_name t, filters t))
           (λ p, mkTestInfo p.1.1.1 p.1.1.2 p.1.2 p.2)).
  by intros [].
Defined.

(** [TestFilter.to_set_of_tf_strings] *)
Definition to_set_of_tf_strings (f : TestFilter) : gset string :=
  if decide (methods f = ∅) then {[ class_name f ]}
  else set_map (λ m, class_name f +:+ "#" +:+ m) (methods f).

(** The dict returned by [TestInfo.to_tf_dict]: its ['test'] and ['filters']
    entries.  ['filters'] is [list(filters)] of a Python set, so it lists
    the set in the set's own iteration order, here [elements]. *)
Record tf_dict := mk_tf_dict {
  tf_test : option string;
  tf_filters : list string
}.

(** [a or b] on values that are a string or [None]. *)
Definition py_or (a b : option string) : option string :=
  match a with
  | Some s => if PyStr.truthy s then a else b
  | None => b
  end.

(** [TestInfo.to_tf_dict] *)
Definition to_tf_dict (t : TestInfo) : tf_dict :=
  let filters := foldl (λ acc f, acc ∪ to_set_of_tf_strings f) ∅
                       (elements (filters t)) in
  mk_tf_dict (py_or (integrated_name t) (module_name t)) (elements filters).

(** ** Sorting and grouping *)

(** Python 2 orders [None] before every string and strings by their bytes. *)
Definition key_le (a b : option string) : Prop :=
  match a, b with
  | None, _ => True
  | Some _, None => False
  | Some x, Some y => String.le x y
  end.

Global Instance key_le_dec : RelDecision key_le.
Proof. intros [x|] [y|]; simpl; apply _. Defined.

Section sort_and_group.
Context {A K : Type} `{EqDecision K}.
Context (le : relation K) `{!RelDecision le}.
Context (key : A → K).

(** [sorted(iterable, key=key)]: Python's sort is stable, elements with
    equal keys keep the order of the input. *)
Fixpoint insert_sorted (x : A) (l : list A) : list A :=
  match l with
  | [] => [x]
  | y :: l' =>
      if decide (le (key x) (key y)) then x :: l
      else y :: insert_sorted x l'
  end.

Definition sorted (l : list A) : list A := foldr insert_sorted [] l.

(** [itertools.groupby(l, key=key)]: the maximal runs of consecutive
    elements with the same key, each with its key. *)
Fixpoint groupby (l : list A) : list (K * list A) :=
  match l with
  | [] => []
  | x :: l' =>
      match groupby l' with
      | (k, g) :: gs =>
          if decide (key x = k) then (k, x :: g) :: gs
          else (key x, [x]) :: (k, g) :: gs
      | [] => [(key x, [x])]
      end
  end.

(** [CLITranslator._sort_and_group] *)
Definition _sort_and_group (iterable : list A) : list (K * list A) :=
  groupby (sorted iterable).
End sort_and_group.

(** ** The filter merger

    A Python set is handed to these functions as the list of its elements
    in the order in which the set is iterated; that order is arbitrary, and
    the properties below hold for each one. *)

(** The inner loop of [_flatten_test_filters] over one group, [acc] being
    the set [methods] accumulated so far; a filter without methods empties
    the set and leaves the loop. *)
Fixpoint flatten_filter_group (acc : gset string) (group : list TestFilter)
  : gset string :=
  match group with
  | [] => acc
  | test_filter :: group' =>
      if decide (methods test_filter = ∅) then ∅
      else flatten_filter_group (acc ∪ methods test_filter) group'
  end.

(** [CLITranslator._flatten_test_filters] *)
Definition _flatten_test_filters (filters : list TestFilter) : gset TestFilter :=
  foldl (λ results '(cls, group),
           results ∪ {[ mkTestFilter cls (flatten_filter_group ∅ group) ]})
        ∅ (_sort_and_group String.le class_name filters).

(** The inner loop of [_flatten_test_infos] over one group: [rc] is
    [rel_config], the config of the last descriptor seen, and [acc] the set
    [filters]; a descriptor without filters empties the set and leaves the
    loop. *)
Fixpoint flatten_info_group (rc : option string) (acc : gset TestFilter)
    (group : list TestInfo) : option string * gset TestFilter :=
  match group with
  | [] => (rc, acc)
  | test_info :: group' =>
      let rc := rel_config test_info in
      if decide (filters test_info = ∅) then (rc, ∅)
      else flatten_info_group rc (acc ∪ filters test_info) group'
  end.

(** [CLITranslator._flatten_test_infos].  The filters collected for a
    module are a set again; it is handed to [_flatten_test_filters] in the
    order of [elements], and [_flatten_test_filters_perm] below shows that
    no other order gives another result. *)
Definition _flatten_test_infos (test_infos : list TestInfo) : gset TestInfo :=
  foldl (λ results '(module, group),
           match module with
           | None => results ∪ list_to_set group
           | Some _ =>
               let '(rc, fs) := flatten_info_group None ∅ group in
               results ∪
                 {[ mkTestInfo rc module None
                      (_flatten_test_filters (elements fs)) ]}
           end)
        ∅ (_sort_and_group key_le module_name test_infos).

(** ** Library functions the translator calls *)

Module PyLib.

(** Blank characters, [\s] of the [re] module on byte strings. *)
Fixpoint lstrip_space (s : string) : string :=
  match s with
  | String a s' => if Ascii.is_space a then lstrip_space s' else s
  | EmptyString => EmptyString
  end.

Fixpoint rstrip_space (s : string) : string :=
  match s with
  | EmptyString => EmptyString
  | String a s' =>
      match rstrip_space s' with
      | EmptyString => if Ascii.is_space a then EmptyString else String a EmptyString
      | r => String a r
      end
  end.

(** The last character of a string. *)
Fixpoint last_char (s : string) : option ascii :=
  match s with
  | EmptyString => None
  | String a EmptyString => Some a
  | String _ s' => last_char s'
  end.

(** A string without its last [n] characters, [s[:-n]] for [n <= len(s)]. *)
Definition drop_last (n : nat) (s : string) : string :=
  String.substring 0 (String.length s - n) s.

(** The text before the first [c], when [c] occurs. *)
Fixpoint before_first (c : ascii) (s : string) : option string :=
  match s with
  | EmptyString => None
  | String a s' =>
      if decide (a = c) then Some EmptyString
      else String a <$> before_first c s'
  end.

(** The value of a run of decimal digits. *)
Fixpoint digits_value (acc : N) (s : string) : option N :=
  match s with
  | EmptyString => Some acc
  | String a s' =>
      match Ascii.is_nat a with
      | Some d => digits_value (acc * 10 + N.of_nat d) s'
      | None => None
      end
  end.

(** [int(s)]: blanks around an optional sign and decimal digits; [None]
    stands for the [ValueError] of a text that is no such number. *)
Definition int (s : string) : option Z :=
  match rstrip_space (lstrip_space s) with
  | EmptyString => None
  | String "-" EmptyString | String "+" EmptyString => None
  | String "-" d => (λ n, - Z.of_N n)%Z <$> digits_value 0 d
  | String "+" d => Z.of_N <$> digits_value 0 d
  | d => Z.of_N <$> digits_value 0 d
  end.

(** [l[i]] with Python's negative indices; [None] is an [IndexError]. *)
Definition index {A} (l : list A) (i : Z) : option A :=
  if decide (0 ≤ i)%Z then l !! Z.to_nat i
  else if decide (- Z.of_nat (length l) ≤ i)%Z
       then l !! Z.to_nat (Z.of_nat (length l) + i)
       else None.

(** [enumerate(l)], counting from [n]. *)
Fixpoint enumerate {A} (n : nat) (l : list A) : list (nat * A) :=
  match l with
  | [] => []
  | x :: l' => (n, x) :: enumerate (S n) l'
  end.

(** *** [os.path] on POSIX *)

(** [p[:i]] and [p[i:]] for [i = p.rfind('/') + 1]. *)
Fixpoint head_to_slash (p : string) : string :=
  match p with
  | EmptyString => EmptyString
  | String a p' =>
      if PyStr.contains "/" p' then String a (head_to_slash p')
      else if decide (a = "/"%char) then "/" else EmptyString
  end.

Fixpoint tail_after_slash (p : string) : string :=
  match p with
  | EmptyString => EmptyString
  | String a p' =>
      if PyStr.contains "/" p' then tail_after_slash p'
      else if decide (a = "/"%char) then p' else p
  end.

Fixpoint all_slashes (s : string) : bool :=
  match s with
  | EmptyString => true
  | String a s' => bool_decide (a = "/"%char) && all_slashes s'
  end.

(** [os.path.split] *)
Definition path_split (p : string) : string * string :=
  let head := head_to_slash p in
  let tail := tail_after_slash p in
  (if PyStr.truthy head && negb (all_slashes head)
   then PyStr.rstrip "/" head else head, tail).

(** [os.path.dirname] *)
Definition dirname (p : string) : string := (path_split p).1.

(** [os.path.join] of two components. *)
Definition path_join (a b : string) : string :=
  if PyStr.startswith "/" b then b
  else if bool_decide (a = EmptyString) || PyStr.endswith "/" a then a +:+ b
  else a +:+ "/" +:+ b.

(** The text before the last ['.'] of a name that has one. *)
Fixpoint before_last_dot (t : string) : string :=
  match t with
  | EmptyString => EmptyString
  | String a t' =>
      if PyStr.contains "." t' then String a (before_last_dot t')
      else EmptyString
  end.

Fixpoint all_dots (s : string) : bool :=
  match s with
  | EmptyString => true
  | String a s' => bool_decide (a = "."%char) && all_dots s'
  end.

(** [os.path.splitext(p)[0]]: the extension starts at the last dot of the
    last component, unless only dots precede it there. *)
Definition splitext_root (p : string) : string :=
  let tail := tail_after_slash p in
  if PyStr.contains "." tail then
    let r := before_last_dot tail in
    if all_dots r then p else head_to_slash p +:+ r
  else p.

(** [os.path.commonprefix] of two strings. *)
Fixpoint commonprefix (a b : string) : string :=
  match a, b with
  | String x a', String y b' =>
      if decide (x = y) then String x (commonprefix a' b') else EmptyString
  | _, _ => EmptyString
  end.

End PyLib.

(** ** Constants and regular expressions of the module *)

Definition MODULE_CONFIG : string := "AndroidTest.xml".

(** The double quote character of the find commands. *)
Definition dquote : string := String (ascii_of_nat 34) EmptyString.

(** [FIND_CMDS[...] % (dir, name)]; the raw Python strings keep the
    backslash in front of each double quote. *)
Definition find_prune (dir : string) : string :=
  "find " +:+ dir +:+ " -type d -name \" +:+ dquote +:+ ".*\" +:+ dquote
  +:+ " -prune -o ".

Definition FIND_CMD_CLASS (dir name : string) : string :=
  find_prune dir +:+ "-type f -name '" +:+ name +:+ ".java' -print".

Definition FIND_CMD_QUALIFIED_CLASS (dir name : string) : string :=
  find_prune dir +:+ "-wholename '*" +:+ name +:+ ".java' -print".

Definition FIND_CMD_INTEGRATION (dir name : string) : string :=
  find_prune dir +:+ "-wholename '*" +:+ name +:+ ".xml' -print".

Definition newline : ascii := ascii_of_nat 10.

(** ASCII lower case, for a pattern compiled with [re.I]. *)
Definition lower (a : ascii) : ascii :=
  let n := nat_of_ascii a in
  if ((65 <=? n) && (n <=? 90))%nat then ascii_of_nat (n + 32) else a.

Fixpoint strip_prefix_ci (p s : string) : option string :=
  match p, s with
  | EmptyString, _ => Some s
  | String a p', String b s' =>
      if decide (lower a = lower b) then strip_prefix_ci p' s' else None
  | String _ _, EmptyString => None
  end.

(** [PACKAGE_RE.match(line)] and its group [package]; the pattern is
    compiled with [re.I] and reads: blanks, the word package, one blank or
    more, the group (one character or more, none of them a semicolon),
    blanks, a semicolon.  After the leading blanks and the word, the text up
    to the first semicolon must start with a blank.  The greedy run of
    blanks takes all blanks there and the group takes the rest; only when
    nothing is left does the run give back its last blank, which then is
    the group. *)
Definition PACKAGE_RE_match (line : string) : option string :=
  r ← strip_prefix_ci "package" (PyLib.lstrip_space line);
  t ← PyLib.before_first ";" r;
  let body := PyLib.lstrip_space t in
  if decide (body = t) then None
  else if PyStr.truthy body then Some body
  else if decide (2 ≤ String.length t)%nat
       then (λ a, String a EmptyString) <$> PyLib.last_char t
       else None.

(** What follows [/res/config/] in [INT_NAME_RE]: the group [int_name],
    one more character and [xml] at the end, where a character is anything
    but a newline and the end also matches in front of a newline that ends
    the text. *)
Definition INT_NAME_RE_tail (r : string) : option string :=
  let r' := if PyStr.endswith (String newline EmptyString) r
            then PyLib.drop_last 1 r else r in
  if negb (PyStr.contains (String newline EmptyString) r')
     && bool_decide (4 ≤ String.length r')%nat
     && PyStr.endswith "xml" r'
  then Some (PyLib.drop_last 4 r') else None.

(** [INT_NAME_RE.match(s)] and its group [int_name].  The pattern starts
    with a greedy run of characters in front of [/res/config/], so the last
    [/res/config/] of the first line after which the rest matches is the
    one taken. *)
Fixpoint INT_NAME_RE_match (s : string) : option string :=
  match s with
  | EmptyString => None
  | String a s' =>
      match (if decide (a = newline) then None else INT_NAME_RE_match s') with
      | Some n => Some n
      | None =>
          if PyStr.startswith "/res/config/" s
          then INT_NAME_RE_tail (String.substring 12 (String.length s - 12) s)
          else None
      end
  end.

(** ** Effects: exceptions, the outside world and the record of calls *)

(** The exceptions a translation can end with. *)
Inductive exn :=
| TooManyMethodsError | MissingPackageNameError | TestWithNoModuleError
| UnregisteredModuleError | NoTestFoundError
| ValueError | KeyError | IndexError | EOFError | IOError
| CalledProcessError.

Global Instance exn_eq_dec : EqDecision exn.
Proof. solve_decision. Defined.

(** Every call that leaves the program: subprocesses, the terminal and the
    file system. *)
Inductive event :=
| ev_check_output (cmd : string)
| ev_print (msg : string)
| ev_raw_input (prompt : string)
| ev_open (path : string)
| ev_realpath (path : string)
| ev_exists (path : string)
| ev_isfile (path : string)
| ev_isdir (path : string).

(** What the outside world answers.  [check_output] is [None] when the
    command exits with a status other than zero, [file_lines] is [None]
    when the file cannot be opened. *)
Record World := mkWorld {
  check_output : string → option string;
  file_lines : string → option (list string);
  realpath : string → string;
  path_exists : string → bool;
  isfile : string → bool;
  isdir : string → bool;
  relpath : string → string → string
}.

(** The calls made so far, oldest first, and the lines still to be typed
    at the terminal. *)
Record State := mkState {
  trace : list event;
  stdin : list string
}.

(** How a computation ends; [Diverge] is a loop that never ends. *)
Inductive outcome (A : Type) :=
| Return (a : A)
| Raise (e : exn)
| Diverge.
Arguments Return {A} a.
Arguments Raise {A} e.
Arguments Diverge {A}.

Definition M (A : Type) : Type := State → outcome A * State.

Global Instance M_ret : MRet M := λ A a st, (Return a, st).

Global Instance M_bind : MBind M := λ A B f m st,
  match m st with
  | (Return a, st') => f a st'
  | (Raise e, st') => (Raise e, st')
  | (Diverge, st') => (Diverge, st')
  end.

Definition raise {A} (e : exn) : M A := λ st, (Raise e, st).
Definition diverge {A} : M A := λ st, (Diverge, st).

(** [try: m except e: handler] *)
Definition try_except {A} (m : M A) (e : exn) (handler : M A) : M A := λ st,
  match m st with
  | (Raise e', st') => if decide (e' = e) then handler st' else (Raise e', st')
  | r => r
  end.

Definition log (ev : event) : M unit := λ st,
  (Return (), mkState (trace st ++ [ev]) (stdin st)).

(** A value that is there, or the exception of its absence. *)
Definition or_raise {A} (o : option A) (e : exn) : M A :=
  match o with Some a => mret a | None => raise e end.

Section world.
Context (w : World).

(** [subprocess.check_output(cmd, shell=True)] *)
Definition os_check_output (cmd : string) : M string :=
  log (ev_check_output cmd);; or_raise (check_output w cmd) CalledProcessError.

(** The [print] statement. *)
Definition py_print (msg : string) : M unit := log (ev_print msg).

(** [raw_input(prompt)]: the next line typed, [EOFError] when there is none. *)
Definition raw_input (prompt : string) : M string := λ st,
  let st' := mkState (trace st ++ [ev_raw_input prompt]) (tail (stdin st)) in
  match stdin st with
  | line :: _ => (Return line, st')
  | [] => (Raise EOFError, st')
  end.

(** [open(path)] read line by line. *)
Definition os_read_lines (path : string) : M (list string) :=
  log (ev_open path);; or_raise (file_lines w path) IOError.

Definition os_realpath (path : string) : M string :=
  log (ev_realpath path);; mret (realpath w path).

Definition os_exists (path : string) : M bool :=
  log (ev_exists path);; mret (path_exists w path).

Definition os_isfile (path : string) : M bool :=
  log (ev_isfile path);; mret (isfile w path).

Definition os_isdir (path : string) : M bool :=
  log (ev_isdir path);; mret (isdir w path).

End world.

(** ** The translator *)

(** One entry of module-info.json: its [path] and [installed] lists, each
    of which may be missing. *)
Record ModuleInfoEntry := mkModuleInfoEntry {
  info_path : option (list string);
  info_installed : option (list string)
}.

(** The attributes of a [CLITranslator] that test lookup reads.
    [module_info] is the loaded dict as the list of its items, in the order
    in which the dict is iterated. *)
Record CLITranslator := mkCLITranslator {
  root_dir : string;
  module_info : list (string * ModuleInfoEntry);
  integration_dirs : list string
}.

(** [d.get(k)] *)
Fixpoint dict_get {V} (d : list (string * V)) (k : string) : option V :=
  match d with
  | [] => None
  | (k', v) :: d' => if decide (k' = k) then Some v else dict_get d' k
  end.

(** Truth value of [info.get('installed')]. *)
Definition installed_truthy (info : ModuleInfoEntry) : bool :=
  match info_installed info with
  | Some (_ :: _) => true
  | _ => false
  end.

(** Truth value of a string or [None]. *)
Definition opt_truthy (o : option string) : bool :=
  match o with Some s => PyStr.truthy s | None => false end.

Definition NL : string := String newline EmptyString.

Section translator.
Context (w : World) (self : CLITranslator).

(** [CLITranslator._split_methods] *)
Definition _split_methods (user_input : string) : M (string * gset string) :=
  match PyStr.split "#" user_input with
  | [ref] => mret (ref, ∅)
  | [ref; ms] => mret (ref, list_to_set (PyStr.split "," ms))
  | _ => raise TooManyMethodsError
  end.

(** [CLITranslator._find_test_by_module_name] *)
Definition _find_test_by_module_name (name : string) : M (option TestInfo) :=
  match dict_get (module_info self) name with
  | Some info =>
      if installed_truthy info then
        path ← or_raise (info_path info) KeyError;
        dir ← or_raise (head path) IndexError;
        let rel_config := PyLib.path_join dir MODULE_CONFIG in
        mret (Some (mkTestInfo (Some rel_config) (Some name) None ∅))
      else mret None
  | None => mret None
  end.

(** [CLITranslator._extract_test_path] *)
Definition _extract_test_path (output : string) : M (option string) :=
  if negb (PyStr.truthy output) then mret None
  else
    let tests := PyStr.split newline (PyStr.strip newline output) in
    let count := length tests in
    test_index ←
      (if decide (1 < count)%nat then
         let numbered_list :=
           (λ '(i, t), pretty i +:+ ": " +:+ t) <$> PyLib.enumerate 0 tests in
         py_print ("Multiple tests found:" +:+ NL +:+ PyStr.join NL numbered_list);;
         answer ← raw_input "Please enter number of test to use:";
         or_raise (PyLib.int answer) ValueError
       else mret 0%Z);
    test ← or_raise (PyLib.index tests test_index) IndexError;
    mret (Some test).

(** [CLITranslator._find_class_file] *)
Definition _find_class_file (class_name search_dir : string) : M (option string) :=
  let find_cmd :=
    if PyStr.contains "." class_name
    then FIND_CMD_QUALIFIED_CLASS search_dir (PyStr.replace "." "/" class_name)
    else FIND_CMD_CLASS search_dir class_name in
  out ← os_check_output w find_cmd;
  _extract_test_path out.

(** [CLITranslator._get_fully_qualified_class_name] *)
Definition _get_fully_qualified_class_name (test_path : string) : M string :=
  lines ← os_read_lines w test_path;
  match head (omap PACKAGE_RE_match lines) with
  | Some package =>
      let cls := PyLib.splitext_root (PyLib.path_split test_path).2 in
      mret (package +:+ "." +:+ cls)
  | None => raise MissingPackageNameError
  end.

(** [CLITranslator._is_equal_or_sub_dir] *)
Definition _is_equal_or_sub_dir (sub_dir parent_dir : string) : M bool :=
  parent_dir ← os_realpath w parent_dir;
  sub_dir ← os_realpath w sub_dir;
  sub_is_dir ← os_isdir w sub_dir;
  if negb sub_is_dir then mret false
  else
    parent_is_dir ← os_isdir w parent_dir;
    if negb parent_is_dir then mret false
    else mret (bool_decide (PyLib.commonprefix sub_dir parent_dir = parent_dir)).

(** The [while] loop of [_find_parent_module_dir].  Each round shortens
    [current_dir] or leaves it as it is; with as much fuel as the start has
    characters, fuel runs out only on a directory that [dirname] no longer
    changes, where the loop goes on forever
    ([find_parent_module_dir_loop_fuel] below). *)
Fixpoint find_parent_module_dir_loop (fuel : nat) (current_dir : string) : M string :=
  if decide (current_dir = root_dir self) then raise TestWithNoModuleError
  else
    found ← os_isfile w (PyLib.path_join current_dir MODULE_CONFIG);
    if (found : bool) then mret (relpath w current_dir (root_dir self))
    else match fuel with
         | O => diverge
         | S fuel' => find_parent_module_dir_loop fuel' (PyLib.dirname current_dir)
         end.

(** [CLITranslator._find_parent_module_dir] *)
Definition _find_parent_module_dir (start_dir : string) : M string :=
  inside ← _is_equal_or_sub_dir start_dir (root_dir self);
  if negb inside then raise ValueError
  else find_parent_module_dir_loop (String.length start_dir) start_dir.

(** The loop of [_get_module_name] over the items of [module_info]. *)
Fixpoint get_module_name_loop (items : list (string * ModuleInfoEntry))
    (rel_module_path : string) : M string :=
  match items with
  | [] => raise UnregisteredModuleError
  | (name, info) :: items' =>
      dir ← or_raise (head (default [] (info_path info))) IndexError;
      if bool_decide (rel_module_path = dir) && installed_truthy info
      then mret name
      else get_module_name_loop items' rel_module_path
  end.

(** [CLITranslator._get_module_name] *)
Definition _get_module_name (rel_module_path : string) : M string :=
  get_module_name_loop (module_info self) rel_module_path.

(** [CLITranslator._find_test_by_class_name]; [module_name] and
    [rel_config] are the optional arguments, [None] by default. *)
Definition _find_test_by_class_name (class_name : string)
    (module_name rel_config : option string) : M (option TestInfo) :=
  '(class_name, methods) ← _split_methods class_name;
  let search_dir :=
    match rel_config with
    | Some rc => if PyStr.truthy rc
                 then PyLib.path_join (root_dir self) (PyLib.dirname rc)
                 else root_dir self
    | None => root_dir self
    end in
  test_path ← _find_class_file class_name search_dir;
  if negb (opt_truthy test_path) then mret None
  else
    let test_path := default EmptyString test_path in
    full_class_name ← _get_fully_qualified_class_name test_path;
    let test_filter := mkTestFilter full_class_name methods in
    rel_config ←
      (if negb (opt_truthy rel_config) then
         let test_dir := PyLib.dirname test_path in
         rel_module_dir ← _find_parent_module_dir test_dir;
         mret (PyLib.path_join rel_module_dir MODULE_CONFIG)
       else mret (default EmptyString rel_config));
    module_name ←
      (if negb (opt_truthy module_name)
       then _get_module_name (PyLib.dirname rel_config)
       else mret (default EmptyString module_name));
    mret (Some (mkTestInfo (Some rel_config) (Some module_name) None
                           {[ test_filter ]})).

(** [CLITranslator._find_test_by_module_and_class]; unpacking the result
    of [split] into two names raises [ValueError] unless there are two. *)
Definition _find_test_by_module_and_class (module_class : string)
  : M (option TestInfo) :=
  match PyStr.split ":" module_class with
  | [name; class_name] =>
      found ← _find_test_by_module_name name;
      match found with
      | None => mret None
      | Some info =>
          _find_test_by_class_name class_name (module_name info) (rel_config info)
      end
  | _ => raise ValueError
  end.

(** The first part of [_find_test_by_integration_name]: the name without
    its class and the filters; [None] is the [return None] of a class that
    is not found. *)
Definition integration_name_and_filters (name : string)
  : M (option (string * gset TestFilter)) :=
  if PyStr.contains ":" name then
    match PyStr.split ":" name with
    | [name; class_name] =>
        '(class_name, methods) ← _split_methods class_name;
        if negb (PyStr.contains "." class_name) then
          path ← _find_class_file class_name (root_dir self);
          if negb (opt_truthy path) then mret None
          else
            class_name ← _get_fully_qualified_class_name (default EmptyString path);
            mret (Some (name, {[ mkTestFilter class_name methods ]}))
        else mret (Some (name, {[ mkTestFilter class_name methods ]}))
    | _ => raise ValueError
    end
  else mret (Some (name, ∅)).

(** The loop of [_find_test_by_integration_name] over the integration
    directories. *)
Fixpoint integration_dirs_loop (dirs : list string) (name : string)
    (filters : gset TestFilter) : M (option TestInfo) :=
  match dirs with
  | [] => mret None
  | integration_dir :: dirs' =>
      let abs_path := PyLib.path_join (root_dir self) integration_dir in
      let find_cmd := FIND_CMD_INTEGRATION abs_path name in
      out ← os_check_output w find_cmd;
      test_file ← _extract_test_path out;
      if opt_truthy test_file then
        let test_file := default EmptyString test_file in
        match INT_NAME_RE_match test_file with
        | None => mret None
        | Some int_name =>
            if decide (int_name ≠ name) then mret None
            else
              let rel_config := relpath w test_file (root_dir self) in
              mret (Some (mkTestInfo (Some rel_config) None (Some name) filters))
        end
      else integration_dirs_loop dirs' name filters
  end.

(** [CLITranslator._find_test_by_integration_name] *)
Definition _find_test_by_integration_name (name : string) : M (option TestInfo) :=
  parsed ← integration_name_and_filters name;
  match parsed with
  | None => mret None
  | Some (name, filters) =>
      integration_dirs_loop (integration_dirs self) name filters
  end.

(** The loop of [_find_test_by_path] that looks for the integration
    directory holding [dir_path]. *)
Fixpoint find_int_dir (dirs : list string) (dir_path : string) : M (option string) :=
  match dirs with
  | [] => mret None
  | possible_dir :: dirs' =>
      let abs_int_dir := PyLib.path_join (root_dir self) possible_dir in
      inside ← _is_equal_or_sub_dir dir_path abs_int_dir;
      if (inside : bool) then mret (Some abs_int_dir)
      else find_int_dir dirs' dir_path
  end.

(** [CLITranslator._find_test_by_path] *)
Definition _find_test_by_path (path : string) : M (option TestInfo) :=
  '(path, methods) ← _split_methods path;
  path ← os_realpath w path;
  present ← os_exists w path;
  if negb present then mret None
  else
    is_file ← os_isfile w path;
    let '(dir_path, file_name) :=
      if (is_file : bool)
      then ((PyLib.path_split path).1, Some (PyLib.path_split path).2)
      else (path, None) in
    int_dir ← find_int_dir (integration_dirs self) dir_path;
    if opt_truthy int_dir then
      if negb (opt_truthy file_name) then mret None
      else
        let rel_config := relpath w path (root_dir self) in
        match INT_NAME_RE_match rel_config with
        | None => mret None
        | Some int_name =>
            mret (Some (mkTestInfo (Some rel_config) None (Some int_name) ∅))
        end
    else
      rel_module_dir ← _find_parent_module_dir dir_path;
      if negb (PyStr.truthy rel_module_dir) then mret None
      else
        name ← _get_module_name rel_module_dir;
        let rel_config := PyLib.path_join rel_module_dir MODULE_CONFIG in
        if opt_truthy file_name
           && PyStr.endswith ".java" (default EmptyString file_name)
        then
          full_class_name ← _get_fully_qualified_class_name path;
          mret (Some (mkTestInfo (Some rel_config) (Some name) None
                                 {[ mkTestFilter full_class_name methods ]}))
        else mret (Some (mkTestInfo (Some rel_config) (Some name) None ∅)).

(** [self.ref_type_to_func_map]; a reference type without an entry is a
    [KeyError] of the lookup.  A class name is looked up without the two
    optional arguments. *)
Definition ref_type_to_func_map (ref_type : REFERENCE_TYPE)
  : option (string → M (option TestInfo)) :=
  match ref_type with
  | MODULE => Some _find_test_by_module_name
  | CLASS => Some (λ name, _find_test_by_class_name name None None)
  | MODULE_CLASS => Some _find_test_by_module_and_class
  | QUALIFIED_CLASS => Some (λ name, _find_test_by_class_name name None None)
  | FILE_PATH => Some _find_test_by_path
  | INTEGRATION => Some _find_test_by_integration_name
  | PACKAGE | MODULE_PACKAGE | SUITE => None
  end.

(** [CLITranslator._get_test_info]; a [KeyError], of the lookup in the map
    or raised by the function it finds, is caught and the next reference
    type is tried. *)
Fixpoint _get_test_info (test_name : string) (reference_types : list REFERENCE_TYPE)
  : M (option TestInfo) :=
  match reference_types with
  | [] => mret None
  | ref_type :: reference_types' =>
      test_info ←
        try_except
          (func ← or_raise (ref_type_to_func_map ref_type) KeyError;
           func test_name)
          KeyError (mret None);
      match test_info with
      | Some found => mret (Some found)
      | None => _get_test_info test_name reference_types'
      end
  end.

(** The body of the loop of [translate] over the given tests: the test
    info of one test string, or [NoTestFoundError]. *)
Definition translate_test (test : string) : M TestInfo :=
  let possible_reference_types := _get_test_reference_types test in
  test_info ← _get_test_info test possible_reference_types;
  or_raise test_info NoTestFoundError.

(** [translate] for a list of tests that is not empty, up to the flattened
    test infos from which build targets and run commands are generated:
    the loop that collects the test infos in a set, and the flattening of
    that set, iterated in the order of [elements]. *)
Fixpoint translate_loop (tests : list string) (test_infos : gset TestInfo)
  : M (gset TestInfo) :=
  match tests with
  | [] => mret test_infos
  | test :: tests' =>
      test_info ← translate_test test;
      translate_loop tests' (test_infos ∪ {[ test_info ]})
  end.

Definition translate_test_infos (tests : list string) : M (gset TestInfo) :=
  test_infos ← translate_loop tests ∅;
  mret (_flatten_test_infos (elements test_infos)).

End translator.

(** ** A small source tree for the examples *)

(** A translator rooted at [/src] with one installed module and a single
    integration directory. *)
Definition example_translator : CLITranslator :=
  mkCLITranslator "/src"
    [("Foo", mkModuleInfoEntry (Some ["pkg/foo"]) (Some ["out/Foo.apk"]))]
    ["tools/tradefederation/core"].

(** A world in which every find prints nothing and no path exists. *)
Definition empty_world : World :=
  mkWorld (λ _, Some EmptyString) (λ _, None) (λ p, p)
          (λ _, false) (λ _, false) (λ _, false) (λ p _, p).

(** The same translator with a second integration directory. *)
Definition two_roots_translator : CLITranslator :=
  mkCLITranslator "/src"
    [("Foo", mkModuleInfoEntry (Some ["pkg/foo"]) (Some ["out/Foo.apk"]))]
    ["tools/tradefederation/core"; "vendor/tradefed"].

(** A world whose two integration directories each hold a config named
    [Foo]; a find for [config/Foo] lists the one of the first directory
    too, since its path ends that way. *)
Definition integration_world : World :=
  mkWorld
    (λ cmd,
       if decide (cmd = FIND_CMD_INTEGRATION "/src/tools/tradefederation/core" "Foo")
       then Some ("/src/tools/tradefederation/core/res/config/Foo.xml" +:+ NL)
       else if decide (cmd = FIND_CMD_INTEGRATION "/src/tools/tradefederation/core"
                                                  "config/Foo")
       then Some ("/src/tools/tradefederation/core/res/config/Foo.xml" +:+ NL)
       else if decide (cmd = FIND_CMD_INTEGRATION "/src/vendor/tradefed" "Foo")
       then Some ("/src/vendor/tradefed/res/config/Foo.xml" +:+ NL)
       else Some EmptyString)
    (λ _, None) (λ p, p) (λ _, false) (λ _, false) (λ _, false)
    (λ p _, String.substring 5 (String.length p - 5) p).

(** A world in which module [Foo] holds the class file [FooTest.java] of
    package [com.example]. *)
Definition class_world : World :=
  mkWorld
    (λ cmd,
       if decide (cmd = FIND_CMD_CLASS "/src/pkg/foo" "FooTest")
       then Some ("/src/pkg/foo/src/com/example/FooTest.java" +:+ NL)
       else Some EmptyString)
    (λ path,
       if decide (path = "/src/pkg/foo/src/com/example/FooTest.java")
       then Some ["// a test" +:+ NL; "package com.example;" +:+ NL;
                  "public class FooTest {}" +:+ NL]
       else None)
    (λ p, p) (λ _, false) (λ _, false) (λ _, false) (λ p _, p).

(** Nothing has been called yet and nothing will be typed. *)
Definition initial_state : State := mkState [] [].

(** ** Notions used to state the properties *)

(** The paths listed by the output of a find command, [tests] in
    [_extract_test_path]. *)
Definition candidates (output : string) : list string :=
  PyStr.split newline (PyStr.strip newline output).

(** The numbered candidates that are printed, and the whole message. *)
Definition numbered_list (tests : list string) : list string :=
  (λ '(i, t), pretty i +:+ ": " +:+ t) <$> PyLib.enumerate 0 tests.

Definition ambiguity_message (tests : list string) : string :=
  "Multiple tests found:" +:+ NL +:+ PyStr.join NL (numbered_list tests).

Definition selection_prompt : string := "Please enter number of test to use:".

(** The find commands of the integration strategy, one per directory. *)
Definition integration_probes (self : CLITranslator) (dirs : list string)
    (name : string) : list event :=
  (λ d, ev_check_output
          (FIND_CMD_INTEGRATION (PyLib.path_join (root_dir self) d) name))
    <$> dirs.

(** The finds of all directories print nothing. *)
Definition no_integration_config (w : World) (self : CLITranslator)
    (dirs : list string) (name : string) : Prop :=
  ∀ d, d ∈ dirs →
    check_output w (FIND_CMD_INTEGRATION (PyLib.path_join (root_dir self) d) name)
      = Some EmptyString.

(** The filters of [l] that name class [c]. *)
Definition class_group (c : string) (l : list TestFilter) : list TestFilter :=
  filter (λ f, class_name f = c) l.

(** The descriptors of [l] that belong to module key [k]. *)
Definition module_group (k : option string) (l : list TestInfo) : list TestInfo :=
  filter (λ t, module_name t = k) l.

(** The merged descriptor of one module group. *)
Definition merged_info (m : string) (group : list TestInfo) : TestInfo :=
  let '(rc, fs) := flatten_info_group None ∅ group in
  mkTestInfo rc (Some m) None (_flatten_test_filters (elements fs)).

(** The reference types that [ref_type_to_func_map] has a function for. *)
Definition supported (ref_type : REFERENCE_TYPE) : Prop :=
  ref_type ≠ PACKAGE ∧ ref_type ≠ MODULE_PACKAGE ∧ ref_type ≠ SUITE.

Global Instance supported_dec ref_type : Decision (supported ref_type).
Proof. unfold supported. apply _. Defined.

(** The directory [k] levels above [dir]. *)
Definition ancestor (k : nat) (dir : string) : string :=
  Nat.iter k PyLib.dirname dir.

(** A world in which [/src/pkg/foo] is a module directory below the
    directory [/src]. *)
Definition module_world : World :=
  mkWorld (λ _, Some EmptyString) (λ _, None) (λ p, p) (λ _, true)
          (λ p, bool_decide (p = "/src/pkg/foo/AndroidTest.xml"))
          (λ p, bool_decide (p = "/src" ∨ p = "/src/pkg/foo/src"))
          (λ p _, String.substring 5 (String.length p - 5) p).

(** The calls of [_is_equal_or_sub_dir], in the order in which they are
    made; the parent is not looked at when the sub directory is none. *)
Definition is_equal_or_sub_dir_calls (w : World) (sub_dir parent_dir : string)
  : list event :=
  [ev_realpath parent_dir; ev_realpath sub_dir; ev_isdir (realpath w sub_dir)]
  ++ (if isdir w (realpath w sub_dir)
      then [ev_isdir (realpath w parent_dir)] else []).

(** The answer of [_is_equal_or_sub_dir], read off the world. *)
Definition inside_dir (w : World) (sub_dir parent_dir : string) : bool :=
  isdir w (realpath w sub_dir) && isdir w (realpath w parent_dir)
  && PyStr.startswith (realpath w parent_dir) (realpath w sub_dir).

(** None of the first [k] directories on the way up from [dir] is the root
    or holds a module config. *)
Definition walk_clear (w : World) (self : CLITranslator) (k : nat)
    (dir : string) : Prop :=
  ∀ j, (j < k)%nat →
    ancestor j dir ≠ root_dir self ∧
    isfile w (PyLib.path_join (ancestor j dir) MODULE_CONFIG) = false.

(** The first integration directory that holds [dir_path], as an absolute
    path. *)
Definition int_dir_of (w : World) (self : CLITranslator) (dir_path : string)
  : option string :=
  PyLib.path_join (root_dir self) <$>
    head (filter (λ d, inside_dir w dir_path (PyLib.path_join (root_dir self) d)
                       = true)
                 (integration_dirs self)).

(** A world in which the integration directory of the example tree holds
    the config file [res/config/Foo.xml]. *)
Definition config_world : World :=
  mkWorld (λ _, Some EmptyString) (λ _, None) (λ p, p)
          (λ p, bool_decide
                  (p = "/src/tools/tradefederation/core/res/config/Foo.xml"))
          (λ p, bool_decide
                  (p = "/src/tools/tradefederation/core/res/config/Foo.xml"))
          (λ p, bool_decide
                  (p = "/src/tools/tradefederation/core" ∨
                   p = "/src/tools/tradefederation/core/res/config"))
          (λ p _, String.substring 5 (String.length p - 5) p).

(** The find command of [_find_class_file]. *)
Definition class_find_cmd (search_dir class_name : string) : string :=
  if PyStr.contains "." class_name
  then FIND_CMD_QUALIFIED_CLASS search_dir (PyStr.replace "." "/" class_name)
  else FIND_CMD_CLASS search_dir class_name.

(** A world in which the class file found for [FooTest] declares no
    package. *)
Definition no_package_world : World :=
  mkWorld
    (λ cmd,
       if decide (cmd = FIND_CMD_CLASS "/src" "FooTest")
       then Some ("/src/pkg/foo/FooTest.java" +:+ NL)
       else Some EmptyString)
    (λ path,
       if decide (path = "/src/pkg/foo/FooTest.java")
       then Some ["import org.junit.Test;" +:+ NL;
                  "public class FooTest {}" +:+ NL]
       else None)
    (λ p, p) (λ _, false) (λ _, false) (λ _, false) (λ p _, p).

(** ** Build targets named by a test config *)

Definition TEST_MODULE_NAME : string := "test-module-name".
Definition PERF_SETUP_LABEL : string := "perf-setup.sh".

(** [s.strip()]: blanks taken off both ends. *)
Definition strip_blanks (s : string) : string :=
  PyLib.rstrip_space (PyLib.lstrip_space s).

Fixpoint lower_string (s : string) : string :=
  match s with
  | EmptyString => EmptyString
  | String a s' => String (lower a) (lower_string s')
  end.

(** [APK_RE.match(value)]; the pattern is compiled with [re.I] and reads:
    one character or more, none of them a slash, then [.apk] at the end,
    where the end also matches in front of a newline that ends the text. *)
Definition APK_RE_match (value : string) : bool :=
  let v := if PyStr.endswith NL value then PyLib.drop_last 1 value else value in
  bool_decide (5 ≤ String.length v)%nat
  && negb (PyStr.contains "/" v)
  && bool_decide
       (lower_string (String.substring (String.length v - 4) 4 v) = ".apk").

(** One [option] tag of a config, with its [name] and [value] attributes
    where it has them. *)
Record option_tag := mk_option_tag {
  attr_name : option string;
  attr_value : option string
}.

(** The build target that the [if] and [elif]s of the loop of
    [_get_targets_from_xml] read off the stripped attributes of one tag. *)
Definition target_of_option (name value : string) : option string :=
  if APK_RE_match value then Some (PyLib.drop_last 4 value)
  else if decide (name = TEST_MODULE_NAME) then Some value
  else if PyStr.contains PERF_SETUP_LABEL value then Some PERF_SETUP_LABEL
  else None.

(** [key in d] *)
Definition dict_has {V} (d : list (string * V)) (k : string) : bool :=
  bool_decide (is_Some (dict_get d k)).

(** The loop of [_get_targets_from_xml] over the option tags.  A tag that
    names no target leaves [target_to_add] as it was, and so does a target
    that is not in the index. *)
Fixpoint get_targets_loop (self : CLITranslator) (option_tags : list option_tag)
    (target_to_add : option string) (targets : gset string) : M (gset string) :=
  match option_tags with
  | [] => mret targets
  | tag :: option_tags' =>
      name ← or_raise (attr_name tag) KeyError;
      value ← or_raise (attr_value tag) KeyError;
      let name := strip_blanks name in
      let value := strip_blanks value in
      let target_to_add :=
        match target_of_option name value with
        | Some target => Some target
        | None => target_to_add
        end in
      if opt_truthy target_to_add
         && dict_has (module_info self) (default EmptyString target_to_add)
      then get_targets_loop self option_tags' None
             (targets ∪ {[ default EmptyString target_to_add ]})
      else get_targets_loop self option_tags' target_to_add targets
  end.

(** [CLITranslator._get_targets_from_xml], given the [option] tags that
    the XML library finds in the file. *)
Definition _get_targets_from_xml (self : CLITranslator)
    (option_tags : list option_tag) : M (gset string) :=
  get_targets_loop self option_tags None ∅.

(** A tag with both attributes that names target [t], a target of the
    index. *)
Definition names_target (self : CLITranslator) (tag : option_tag) (t : string)
  : Prop :=
  ∃ name value,
    attr_name tag = Some name ∧ attr_value tag = Some value ∧
    target_of_option (strip_blanks name) (strip_blanks value) = Some t ∧
    t ≠ EmptyString ∧ is_Some (dict_get (module_info self) t).

(** ** The module info cache of module_info.py *)

Module ModuleInfo.

(** What module-info.json holds for the keys of a module: lists of strings,
    and the string that is stored as the module name. *)
Inductive value := VList (l : list string) | VStr (s : string).

Definition _MODULE_NAME : string := "module_name".
Definition _MODULE_PATH : string := "path".

(** Truth value of what [d.get(k)] returns. *)
Definition truthy (v : option value) : bool :=
  match v with
  | Some (VList (_ :: _)) => true
  | Some (VStr s) => PyStr.truthy s
  | _ => false
  end.

(** What a [for] loop over a value runs through: the elements of a list,
    the characters of a string. *)
Definition items_of (v : value) : list string :=
  match v with
  | VList l => l
  | VStr s => (λ a, String a EmptyString) <$> list_ascii_of_string s
  end.

(** [mod_info.get(_MODULE_PATH, [])] *)
Definition get_path (mod_info : gmap string value) : value :=
  default (VList []) (mod_info !! _MODULE_PATH).

(** The inner loop of [_get_path_to_module_info]: the dict of a module is
    appended to the list of each of its paths. *)
Fixpoint add_paths (mod_info : gmap string value) (paths : list string)
    (path_to_module_info : gmap string (list (gmap string value)))
  : gmap string (list (gmap string value)) :=
  match paths with
  | [] => path_to_module_info
  | path :: paths' =>
      add_paths mod_info paths'
        match path_to_module_info !! path with
        | Some mods => <[path := mods ++ [mod_info]]> path_to_module_info
        | None => <[path := [mod_info]]> path_to_module_info
        end
  end.

(** The dict of a module after the inner loop: each round stores the
    module name in it, so it has one as soon as there is a path. *)
Definition named (mod_name : string) (mod_info : gmap string value)
  : gmap string value :=
  match items_of (get_path mod_info) with
  | [] => mod_info
  | _ :: _ => <[_MODULE_NAME := VStr mod_name]> mod_info
  end.

(** The outer loop of [_get_path_to_module_info] over the items of
    [name_to_module_info].  The dicts of the modules are changed in place
    and the lists hold these very dicts, so the loop hands back both: the
    items with the dicts as they are afterwards, and [path_to_module_info]. *)
Fixpoint get_path_to_module_info_loop
    (items : list (string * gmap string value))
    (path_to_module_info : gmap string (list (gmap string value)))
  : list (string * gmap string value) * gmap string (list (gmap string value)) :=
  match items with
  | [] => ([], path_to_module_info)
  | (mod_name, mod_info) :: items' =>
      let mod_info' := named mod_name mod_info in
      let '(rest, result) :=
        get_path_to_module_info_loop items'
          (add_paths mod_info' (items_of (get_path mod_info)) path_to_module_info) in
      ((mod_name, mod_info') :: rest, result)
  end.

(** [ModuleInfo._get_path_to_module_info] *)
Definition _get_path_to_module_info (name_to_module_info : list (string * gmap string value))
  : list (string * gmap string value) * gmap string (list (gmap string value)) :=
  get_path_to_module_info_loop name_to_module_info ∅.

(** The attributes of a [ModuleInfo] that its lookups read. *)
Record t := mk {
  name_to_module_info : list (string * gmap string value);
  path_to_module_info : gmap string (list (gmap string value))
}.

(** [ModuleInfo.__init__], from the dict that was loaded from the file. *)
Definition init (loaded : list (string * gmap string value)) : t :=
  let '(name_to_module_info, path_to_module_info) :=
    _get_path_to_module_info loaded in
  mk name_to_module_info path_to_module_info.

(** [ModuleInfo.is_module] *)
Definition is_module (self : t) (name : string) : bool :=
  dict_has (name_to_module_info self) name.

(** [ModuleInfo.get_paths] *)
Definition get_paths (self : t) (name : string) : value :=
  match dict_get (name_to_module_info self) name with
  | Some info => if decide (info = ∅) then VList [] else get_path info
  | None => VList []
  end.

(** The loop of [get_module_name]: the name of the first module that has
    something installed. *)
Fixpoint first_installed (mods : list (gmap string value)) : option value :=
  match mods with
  | [] => None
  | module :: mods' =>
      if truthy (module !! "installed") then module !! _MODULE_NAME
      else first_installed mods'
  end.

(** [ModuleInfo.get_module_name] *)
Definition get_module_name (self : t) (rel_module_path : string) : option value :=
  first_installed (default [] (path_to_module_info self !! rel_module_path)).

(** [ModuleInfo.get_module_info] *)
Definition get_module_info (self : t) (mod_name : string)
  : option (gmap string value) :=
  dict_get (name_to_module_info self) mod_name.

(** The modules of [items] that list [path], once for each time they list
    it, with their dicts as they are after the loop. *)
Definition mods_at (path : string) (items : list (string * gmap string value))
  : list (gmap string value) :=
  items ≫= λ '(mod_name, mod_info),
    (λ _, named mod_name mod_info)
      <$> filter (λ p, p = path) (items_of (get_path mod_info)).

End ModuleInfo.

(** * Properties *)

Lemma append_String a s t : String a s +:+ t = String a (s +:+ t).
Proof. reflexivity. Qed.

Lemma append_empty_l t : "" +:+ t = t.
Proof. reflexivity. Qed.

Lemma startswith_spec p s : PyStr.startswith p s = true ↔ starts_with p s.
Proof.
  revert s; induction p as [|a p IH]; intros s; simpl.
  - split; [intros _; by exists s | done].
  - destruct s as [|b s].
    + split; [done | intros [t Ht]; discriminate].
    + case_decide as Hab.
      * subst b. rewrite IH. split; intros [t Ht]; exists t;
          rewrite ?append_String in *; congruence.
      * split; [done | intros [t Ht]; rewrite append_String in Ht; congruence].
Qed.

Lemma contains_spec sub s : PyStr.contains sub s = true ↔ has_substring sub s.
Proof.
  induction s as [|c s IH]; simpl.
  - rewrite orb_false_r, startswith_spec. split.
    + intros [t Ht]. exists "", t. done.
    + intros [a [b Hab]]. destruct a; [by exists b | discriminate].
  - rewrite orb_true_iff, startswith_spec, IH. split.
    + intros [[t Ht] | [a [b Hab]]].
      * exists "", t. done.
      * exists (String c a), b. rewrite append_String. by rewrite Hab.
    + intros [a [b Hab]]. destruct a as [|c' a].
      * left. by exists b.
      * right. exists a, b. rewrite append_String in Hab. congruence.
Qed.

(** ** Sorting and grouping: each group is the sub-list of one key *)

Section sort_and_group_facts.
Context {A K : Type} `{EqDecision K}.
Context (le : relation K) `{!RelDecision le} `{!PartialOrder le} `{!Total le}.
Context (key : A → K).

Let key_is (k : K) : A → Prop := λ x, key x = k.
Let le_key : relation A := λ x y, le (key x) (key y).

Local Instance key_is_dec k : ∀ x, Decision (key_is k x).
Proof. intros x. unfold key_is. apply _. Defined.

Lemma insert_sorted_filter k x l :
  filter (key_is k) (insert_sorted le key x l) = filter (key_is k) (x :: l).
Proof.
  induction l as [|y l IH]; simpl; [done|].
  case_decide as Hle; [done|].
  assert (key x ≠ key y) as Hne by (intros E; apply Hle; rewrite E; done).
  rewrite (filter_cons _ y), IH, !filter_cons. unfold key_is.
  repeat case_decide; congruence.
Qed.

(** The sort is stable. *)
Lemma sorted_filter k l :
  filter (key_is k) (sorted le key l) = filter (key_is k) l.
Proof.
  induction l as [|x l IH]; simpl; [done|].
  rewrite insert_sorted_filter, !filter_cons, IH. done.
Qed.

Lemma insert_sorted_elem x y l : y ∈ insert_sorted le key x l ↔ y = x ∨ y ∈ l.
Proof.
  induction l as [|z l IH]; simpl.
  - rewrite list_elem_of_singleton, elem_of_nil. tauto.
  - case_decide; [by rewrite !elem_of_cons|]. rewrite !elem_of_cons, IH. tauto.
Qed.

Lemma sorted_elem y l : y ∈ sorted le key l ↔ y ∈ l.
Proof.
  induction l as [|x l IH]; simpl; [done|].
  rewrite insert_sorted_elem, elem_of_cons, IH. done.
Qed.

Lemma insert_sorted_StronglySorted x l :
  StronglySorted le_key l → StronglySorted le_key (insert_sorted le key x l).
Proof.
  induction 1 as [|y l Hs IH Hall]; simpl.
  - repeat constructor.
  - case_decide as Hle.
    + constructor; [by constructor|]. constructor; [done|].
      eapply Forall_impl; [exact Hall|]. intros z Hz. unfold le_key in *.
      by etrans.
    + constructor; [done|]. apply Forall_forall. intros z Hz.
      apply insert_sorted_elem in Hz as [->|Hz].
      * unfold le_key. destruct (total le (key y) (key x)); done.
      * by eapply Forall_forall in Hall.
Qed.

Lemma sorted_StronglySorted l : StronglySorted le_key (sorted le key l).
Proof.
  induction l; simpl; [constructor | by apply insert_sorted_StronglySorted].
Qed.

Lemma groupby_head x l :
  ∃ g gs, groupby key (x :: l) = (key x, g) :: gs.
Proof.
  simpl. destruct (groupby key l) as [|[k g] gs]; [by eauto|].
  case_decide; subst; eauto.
Qed.

Lemma filter_key_none k l :
  (∀ y, y ∈ l → key y ≠ k) → filter (key_is k) l = [].
Proof.
  induction l as [|y l IHl]; intros Hn; [reflexivity|].
  rewrite filter_cons_False; [|apply Hn; left].
  apply IHl. intros z Hz. apply Hn. by right.
Qed.

(** In a sorted list no later element shares the key of [x] once the
    next element has a different key. *)
Lemma sorted_key_fresh x y0 s :
  Forall (le_key x) (y0 :: s) → StronglySorted le_key (y0 :: s) →
  key x ≠ key y0 → ∀ y, y ∈ y0 :: s → key y ≠ key x.
Proof.
  intros Hall Hs Hne y Hy Ey.
  apply StronglySorted_inv in Hs as [_ Hy0].
  apply Forall_cons in Hall as [Hx0 _]. unfold le_key in *.
  apply elem_of_cons in Hy as [->|Hy]; [congruence|].
  eapply Forall_forall in Hy0; [|exact Hy]. rewrite Ey in Hy0.
  apply Hne. by apply (anti_symm le).
Qed.

Lemma groupby_sorted_spec s :
  StronglySorted le_key s →
  NoDup (groupby key s).*1 ∧
  ∀ k g, (k, g) ∈ groupby key s ↔ k ∈ key <$> s ∧ g = filter (key_is k) s.
Proof.
  induction 1 as [|x s Hs [IHnd IH] Hall].
  { simpl. split; [constructor|]. intros k g. rewrite !elem_of_nil. tauto. }
  destruct s as [|y0 s'].
  { simpl. split; [apply NoDup_singleton|]. intros k g.
    rewrite list_elem_of_singleton. split.
    - intros [= -> ->]. split; [left|].
      by rewrite filter_cons_True.
    - intros [Hk ->]. apply list_elem_of_singleton in Hk as ->.
      by rewrite filter_cons_True. }
  destruct (groupby_head y0 s') as (g0 & gs & Hg).
  set (s := y0 :: s') in *.
  assert (g0 = filter (key_is (key y0)) s) as Hg0.
  { apply (IH (key y0) g0). rewrite Hg. left. }
  change (groupby key (x :: s)) with
    (match groupby key s with
     | (k, g) :: gs =>
         if decide (key x = k) then (k, x :: g) :: gs
         else (key x, [x]) :: (k, g) :: gs
     | [] => [(key x, [x])]
     end).
  rewrite Hg in IHnd, IH |- *. simpl in IHnd.
  apply NoDup_cons in IHnd as [Hk0 IHnd].
  case_decide as Hx.
  - (* [x] joins the first group *)
    split; [simpl; by apply NoDup_cons|].
    intros k g. rewrite elem_of_cons. split.
    + intros [[= -> ->] | Hin].
      * split; [rewrite fmap_cons, <- Hx; left|].
        rewrite filter_cons_True by exact Hx. by rewrite Hg0.
      * assert ((k, g) ∈ (key y0, g0) :: gs) as Hin' by (by right).
        apply IH in Hin' as [Hk ->].
        assert (k ≠ key y0) as Hne.
        { intros ->. apply Hk0. apply list_elem_of_fmap. by exists (key y0, filter (key_is (key y0)) s). }
        split; [by right|]. rewrite filter_cons_False; [done|]. unfold key_is. congruence.
    + intros [Hk ->]. destruct (decide (k = key y0)) as [->|Hne].
      * left. rewrite filter_cons_True by exact Hx. by rewrite Hg0.
      * right. rewrite filter_cons_False by (unfold key_is; congruence).
        rewrite fmap_cons, elem_of_cons in Hk. destruct Hk as [->|Hk]; [done|].
        assert ((k, filter (key_is k) s) ∈ (key y0, g0) :: gs) as Hin
          by (by apply IH).
        apply elem_of_cons in Hin as [[= -> _]|Hin]; done.
  - (* [x] starts a group of its own *)
    pose proof (sorted_key_fresh x y0 s' Hall Hs Hx) as Hfresh.
    assert (∀ k, k ∈ key <$> s → k ≠ key x) as Hfresh'.
    { intros k Hk. apply list_elem_of_fmap in Hk as (y & -> & Hy). by apply Hfresh. }
    split.
    + simpl. apply NoDup_cons. split; [|by apply NoDup_cons].
      intros Hin. change (key x ∈ ((key y0, g0) :: gs).*1) in Hin.
      apply list_elem_of_fmap in Hin as ([k g] & Hk & Hin). simpl in Hk. subst k.
      apply IH in Hin as [Hin _]. by apply Hfresh' in Hin.
    + intros k g. rewrite elem_of_cons. split.
      * intros [[= -> ->] | Hin].
        -- split; [left|]. rewrite filter_cons_True by done.
           by rewrite (filter_key_none _ s).
        -- apply IH in Hin as [Hk ->]. split; [by right|].
           rewrite filter_cons_False; [done|].
           unfold key_is. intros E. by apply (Hfresh' k).
      * intros [Hk ->]. rewrite fmap_cons, elem_of_cons in Hk.
        destruct Hk as [->|Hk].
        -- left. rewrite filter_cons_True by done.
           by rewrite (filter_key_none _ s).
        -- right. rewrite filter_cons_False.
           ++ by apply IH.
           ++ unfold key_is. intros E. by apply (Hfresh' k).
Qed.

(** The groups of [_sort_and_group]: one per key of the input, holding
    the elements of that key in the order of the input. *)
Lemma _sort_and_group_spec l :
  NoDup (_sort_and_group le key l).*1 ∧
  ∀ k g, (k, g) ∈ _sort_and_group le key l ↔
         k ∈ key <$> l ∧ g = filter (key_is k) l.
Proof.
  unfold _sort_and_group.
  destruct (groupby_sorted_spec _ (sorted_StronglySorted l)) as [Hnd Hspec].
  split; [done|]. intros k g. rewrite Hspec, sorted_filter.
  rewrite !list_elem_of_fmap. by setoid_rewrite sorted_elem.
Qed.
End sort_and_group_facts.

Global Instance key_le_po : PartialOrder key_le.
Proof.
  split; [split|].
  - intros [x|]; simpl; done.
  - intros [x|] [y|] [z|]; simpl; try done. apply (transitivity (R:=String.le)).
  - intros [x|] [y|]; simpl; try done. intros H1 H2. f_equal.
    by apply (anti_symm String.le).
Qed.

Global Instance key_le_total : Total key_le.
Proof. intros [x|] [y|]; simpl; auto. apply (total String.le). Qed.

(** ** What the two flattening functions compute *)

Lemma foldl_union_groups {A B K : Type} `{Countable B}
    (G : K → list A → gset B) (gs : list (K * list A)) (init : gset B) x :
  x ∈ foldl (λ results '(k, g), results ∪ G k g) init gs ↔
  x ∈ init ∨ ∃ k g, (k, g) ∈ gs ∧ x ∈ G k g.
Proof.
  revert init. induction gs as [|[k g] gs IHgs]; intros init; simpl.
  - split; [auto|]. intros [?|(k & g & Hin & _)]; [done|]. by apply elem_of_nil in Hin.
  - rewrite IHgs, elem_of_union. split.
    + intros [[?|?]|(k' & g' & Hin & Hx)]; eauto.
      * right. exists k, g. split; [left|done].
      * right. exists k', g'. split; [by right|done].
    + intros [?|(k' & g' & Hin & Hx)]; [auto|].
      apply elem_of_cons in Hin as [[= -> ->]|Hin]; eauto 6.
Qed.

Lemma elem_of_class_group c l f :
  f ∈ class_group c l ↔ f ∈ l ∧ class_name f = c.
Proof. unfold class_group. rewrite list_elem_of_filter. tauto. Qed.

Lemma elem_of_module_group k l t :
  t ∈ module_group k l ↔ t ∈ l ∧ module_name t = k.
Proof. unfold module_group. rewrite list_elem_of_filter. tauto. Qed.

Lemma elem_of__flatten_test_filters l f :
  f ∈ _flatten_test_filters l ↔
  ∃ c, c ∈ class_name <$> l ∧
       f = mkTestFilter c (flatten_filter_group ∅ (class_group c l)).
Proof.
  unfold _flatten_test_filters.
  pose proof (foldl_union_groups
    (λ cls group, ({[ mkTestFilter cls (flatten_filter_group ∅ group) ]}
                   : gset TestFilter))) as Hfold.
  rewrite Hfold. clear Hfold.
  destruct (_sort_and_group_spec String.le class_name l) as [_ Hspec].
  split.
  - intros [Hf|(c & g & Hin & Hf)]; [set_solver|].
    apply Hspec in Hin as [Hc ->]. apply elem_of_singleton in Hf.
    by exists c.
  - intros (c & Hc & ->). right.
    exists c, (class_group c l). split; [by apply Hspec | by apply elem_of_singleton].
Qed.

(** The loop over a group: an empty method set wins, otherwise the method
    sets are united. *)
Lemma elem_of_flatten_filter_group acc g m :
  m ∈ flatten_filter_group acc g ↔
  (∀ f, f ∈ g → methods f ≠ ∅) ∧ (m ∈ acc ∨ ∃ f, f ∈ g ∧ m ∈ methods f).
Proof.
  revert acc. induction g as [|f g IHg]; intros acc; simpl.
  - split; [intros Hm; split; [intros f Hf; by apply elem_of_nil in Hf | auto]|].
    intros [_ [?|(f & Hf & _)]]; [done|]. by apply elem_of_nil in Hf.
  - case_decide as He.
    + split; [set_solver|]. intros [Hne _]. exfalso. apply (Hne f); [left|done].
    + rewrite IHg, elem_of_union. split.
      * intros [Hne Hm]. split.
        -- intros f' Hf'. apply elem_of_cons in Hf' as [->|Hf']; auto.
        -- destruct Hm as [[?|?]|(f' & Hf' & Hm)]; [auto|right..].
           ++ exists f. split; [left|done].
           ++ exists f'. split; [by right|done].
      * intros [Hne Hm]. split.
        -- intros f' Hf'. apply Hne. by right.
        -- destruct Hm as [?|(f' & Hf' & Hm)]; [auto|].
           apply elem_of_cons in Hf' as [->|Hf']; eauto.
Qed.

Lemma flatten_filter_group_whole acc g :
  (∃ f, f ∈ g ∧ methods f = ∅) → flatten_filter_group acc g = ∅.
Proof.
  intros (f & Hf & He). apply set_eq. intros m.
  rewrite elem_of_flatten_filter_group. split; [|set_solver].
  intros [Hne _]. by apply Hne in Hf.
Qed.

(** The result depends on the elements handed in, not on their order. *)
Lemma flatten_filter_group_ext l l' c :
  (∀ f, f ∈ l ↔ f ∈ l') →
  flatten_filter_group ∅ (class_group c l) =
  flatten_filter_group ∅ (class_group c l').
Proof.
  intros Hl. apply set_eq. intros m.
  rewrite !elem_of_flatten_filter_group.
  setoid_rewrite elem_of_class_group. by setoid_rewrite Hl.
Qed.

Lemma _flatten_test_filters_ext l l' :
  (∀ f, f ∈ l ↔ f ∈ l') → _flatten_test_filters l = _flatten_test_filters l'.
Proof.
  intros Hl. apply set_eq. intros f.
  rewrite !elem_of__flatten_test_filters.
  assert (∀ c, c ∈ class_name <$> l ↔ c ∈ class_name <$> l') as Hc.
  { intros c. rewrite !list_elem_of_fmap. by setoid_rewrite Hl. }
  split; intros (c & Hin & ->); exists c; (split; [by apply Hc|]);
    f_equal; [|symmetry]; by apply flatten_filter_group_ext.
Qed.

Lemma _flatten_test_filters_perm l l' :
  l ≡ₚ l' → _flatten_test_filters l = _flatten_test_filters l'.
Proof. intros Hp. apply _flatten_test_filters_ext. intros f. by rewrite Hp. Qed.

Lemma _flatten_test_filters_nil : _flatten_test_filters [] = ∅.
Proof. reflexivity. Qed.

(** A group that consists of one merged filter gives that filter back. *)
Lemma flatten_filter_group_merged l l' c :
  (∀ f, f ∈ l' ↔ f ∈ _flatten_test_filters l) →
  c ∈ class_name <$> l →
  flatten_filter_group ∅ (class_group c l') =
  flatten_filter_group ∅ (class_group c l).
Proof.
  intros Hl' Hc. set (M := flatten_filter_group ∅ (class_group c l)).
  assert (∀ f, f ∈ class_group c l' ↔ f = mkTestFilter c M) as Hgrp.
  { intros f. rewrite elem_of_class_group, Hl', elem_of__flatten_test_filters.
    split.
    - intros [(c' & _ & ->) Hcls]. simpl in Hcls. by subst c'.
    - intros ->. split; [by exists c | done]. }
  apply set_eq. intros m. rewrite elem_of_flatten_filter_group.
  setoid_rewrite Hgrp. split.
  - intros [_ [Hm|(f & -> & Hm)]]; [by apply not_elem_of_empty in Hm | done].
  - intros Hm. split.
    + intros f -> He. simpl in He. rewrite He in Hm.
      by apply not_elem_of_empty in Hm.
    + right. by exists (mkTestFilter c M).
Qed.

Lemma _flatten_test_filters_idem l l' :
  (∀ f, f ∈ l' ↔ f ∈ _flatten_test_filters l) →
  _flatten_test_filters l' = _flatten_test_filters l.
Proof.
  intros Hl'. apply set_eq. intros f.
  assert (∀ c, c ∈ class_name <$> l' ↔ c ∈ class_name <$> l) as Hc.
  { intros c. rewrite !list_elem_of_fmap. setoid_rewrite Hl'.
    setoid_rewrite elem_of__flatten_test_filters. split.
    - intros (f' & -> & c' & Hc' & ->). simpl.
      by apply list_elem_of_fmap in Hc'.
    - intros (f' & -> & Hf').
      eexists. split; [|exists (class_name f'); split; [|reflexivity]]; [done|].
      by apply list_elem_of_fmap_2. }
  rewrite !elem_of__flatten_test_filters.
  split; intros (c & Hin & ->); exists c.
  - apply Hc in Hin. split; [done|]. f_equal. by apply flatten_filter_group_merged.
  - split; [by apply Hc|]. f_equal. symmetry. by apply flatten_filter_group_merged.
Qed.

Lemma elem_of__flatten_test_infos l t :
  t ∈ _flatten_test_infos l ↔
  (module_name t = None ∧ t ∈ l) ∨
  (∃ m, Some m ∈ module_name <$> l ∧
        t = merged_info m (module_group (Some m) l)).
Proof.
  unfold _flatten_test_infos.
  pose proof (foldl_union_groups
    (λ (module : option string) (group : list TestInfo),
       match module with
       | None => (list_to_set group : gset TestInfo)
       | Some m => {[ merged_info m group ]}
       end)) as Hfold.
  unfold merged_info in Hfold.
  match goal with
  | |- t ∈ foldl ?f _ _ ↔ _ =>
      match type of Hfold with
      | ∀ gs init x, x ∈ foldl ?f' init gs ↔ _ =>
          assert (∀ gs init, foldl f init gs = foldl f' init gs) as Heq
      end
  end.
  { induction gs as [|[[m|] g] gs IHgs]; intros init; simpl; [done|..].
    - rewrite <- IHgs. by destruct (flatten_info_group None ∅ g).
    - by rewrite <- IHgs. }
  rewrite Heq, Hfold. clear Heq Hfold.
  destruct (_sort_and_group_spec key_le module_name l) as [_ Hspec].
  fold (merged_info).
  split.
  - intros [Hf|(k & g & Hin & Hf)]; [set_solver|].
    apply Hspec in Hin as [Hk ->]. destruct k as [m|].
    + right. exists m. split; [done|]. by apply elem_of_singleton in Hf.
    + left. apply elem_of_list_to_set, list_elem_of_filter in Hf. tauto.
  - intros [[Hn Ht]|(m & Hm & ->)]; right.
    + exists None, (module_group None l). split.
      * apply Hspec. split; [|done]. rewrite <- Hn. by apply list_elem_of_fmap_2.
      * apply elem_of_list_to_set, elem_of_module_group. done.
    + exists (Some m), (module_group (Some m) l). split; [by apply Hspec|].
      by apply elem_of_singleton.
Qed.

Lemma filter_singleton {A} (P : A → Prop) `{∀ x, Decision (P x)} (l : list A) a :
  NoDup l → a ∈ l → P a → (∀ x, x ∈ l → P x → x = a) → filter P l = [a].
Proof.
  induction 1 as [|x l Hx Hnd IHl]; intros Ha HPa Huniq.
  - by apply elem_of_nil in Ha.
  - destruct (decide (P x)) as [HPx|HPx].
    + assert (x = a) as -> by (apply Huniq; [left|done]).
      rewrite filter_cons_True by done. f_equal.
      clear IHl Ha. induction l as [|y l IHl]; [done|].
      apply not_elem_of_cons in Hx as [Hne Hx]. apply NoDup_cons in Hnd as [_ Hnd].
      rewrite filter_cons_False.
      * apply IHl; [done..|]. intros z Hz. apply Huniq.
        apply elem_of_cons in Hz as [->|Hz]; [left | do 2 right; done].
      * intros HPy. apply Hne. symmetry. apply Huniq; [right; left | done].
    + rewrite filter_cons_False by done.
      apply elem_of_cons in Ha as [->|Ha]; [done|].
      apply IHl; [done..|]. intros z Hz. apply Huniq. by right.
Qed.

Lemma module_name_merged_info m g : module_name (merged_info m g) = Some m.
Proof. unfold merged_info. by destruct (flatten_info_group None ∅ g). Qed.

Lemma integrated_name_merged_info m g : integrated_name (merged_info m g) = None.
Proof. unfold merged_info. by destruct (flatten_info_group None ∅ g). Qed.

Lemma filters_merged_info m g :
  filters (merged_info m g) =
  _flatten_test_filters (elements (flatten_info_group None ∅ g).2).
Proof. unfold merged_info. by destruct (flatten_info_group None ∅ g). Qed.

(** The loop over a module group: a descriptor without filters wins,
    otherwise the filter sets are united. *)
Lemma flatten_info_group_whole rc acc g :
  (∃ t, t ∈ g ∧ filters t = ∅) → (flatten_info_group rc acc g).2 = ∅.
Proof.
  revert rc acc. induction g as [|t g IHg]; intros rc acc (t' & Ht' & He).
  - by apply elem_of_nil in Ht'.
  - simpl. case_decide as Het; [done|].
    apply elem_of_cons in Ht' as [->|Ht']; [done|]. apply IHg. eauto.
Qed.

Lemma flatten_info_group_union rc acc g :
  (∀ t, t ∈ g → filters t ≠ ∅) →
  (flatten_info_group rc acc g).2 = acc ∪ ⋃ (filters <$> g).
Proof.
  revert rc acc. induction g as [|t g IHg]; intros rc acc Hne; simpl.
  - by rewrite (right_id_L ∅ (∪)).
  - case_decide as Het; [exfalso; apply (Hne t); [left|done]|].
    rewrite IHg; [|intros t' Ht'; apply Hne; by right].
    by rewrite (assoc_L (∪)).
Qed.

(** The config path of the merged descriptor is the one of a member. *)
Lemma flatten_info_group_rel_config rc acc g :
  g ≠ [] → ∃ t, t ∈ g ∧ (flatten_info_group rc acc g).1 = rel_config t.
Proof.
  revert rc acc. induction g as [|t g IHg]; intros rc acc Hne; [done|].
  simpl. case_decide.
  - exists t. split; [left|done].
  - destruct g as [|t' g]; [exists t; split; [left|done]|].
    destruct (IHg (rel_config t) (acc ∪ filters t)) as (t0 & Ht0 & Hrc); [done|].
    exists t0. split; [by right|done].
Qed.

Lemma merged_info_singleton m t :
  merged_info m [t] =
  mkTestInfo (rel_config t) (Some m) None
             (_flatten_test_filters (elements (filters t))).
Proof.
  unfold merged_info. simpl. case_decide as He.
  - by rewrite He.
  - by rewrite (left_id_L ∅ (∪)).
Qed.

Lemma merged_info_fixed m g :
  merged_info m [merged_info m g] = merged_info m g.
Proof.
  rewrite merged_info_singleton. unfold merged_info.
  destruct (flatten_info_group None ∅ g) as [rc fs]. simpl. f_equal.
  apply _flatten_test_filters_idem. intros f. by rewrite elem_of_elements.
Qed.

Lemma _flatten_test_infos_idem l l' :
  l' ≡ₚ elements (_flatten_test_infos l) →
  _flatten_test_infos l' = _flatten_test_infos l.
Proof.
  intros Hp.
  assert (NoDup l') as Hnd by (rewrite Hp; apply NoDup_elements).
  assert (∀ t, t ∈ l' ↔ t ∈ _flatten_test_infos l) as Hl'
    by (intros t; by rewrite Hp, elem_of_elements).
  assert (∀ m, Some m ∈ module_name <$> l →
               module_group (Some m) l' = [merged_info m (module_group (Some m) l)])
    as Hgrp.
  { intros m Hm. apply filter_singleton; [done|..].
    - apply Hl', elem_of__flatten_test_infos. right. by exists m.
    - apply module_name_merged_info.
    - intros t Ht Hmod. apply Hl', elem_of__flatten_test_infos in Ht.
      destruct Ht as [[Hn _]|(m' & _ & ->)]; [congruence|].
      rewrite module_name_merged_info in Hmod. congruence. }
  assert (∀ m, Some m ∈ module_name <$> l' ↔ Some m ∈ module_name <$> l) as Hmods.
  { intros m. rewrite !list_elem_of_fmap. split.
    - intros (t & Hmod & Ht). apply Hl', elem_of__flatten_test_infos in Ht.
      destruct Ht as [[Hn Ht]|(m' & Hm' & ->)]; [congruence|].
      rewrite module_name_merged_info in Hmod. injection Hmod as ->.
      by apply list_elem_of_fmap in Hm'.
    - intros Hm. exists (merged_info m (module_group (Some m) l)).
      split; [by rewrite module_name_merged_info|].
      apply Hl', elem_of__flatten_test_infos. right. exists m.
      split; [by apply list_elem_of_fmap|done]. }
  apply set_eq. intros t. rewrite (elem_of__flatten_test_infos l'). split.
  - intros [[Hn Ht]|(m & Hm & ->)]; [by apply Hl'|].
    apply Hmods in Hm. rewrite Hgrp, merged_info_fixed by done.
    apply elem_of__flatten_test_infos. right. by exists m.
  - intros Ht. pose proof Ht as Ht'. apply elem_of__flatten_test_infos in Ht.
    destruct Ht as [[Hn Ht]|(m & Hm & ->)].
    + left. split; [done|]. by apply Hl'.
    + right. exists m. split; [by apply Hmods|].
      by rewrite Hgrp, merged_info_fixed.
Qed.

(** ** The reference classifier *)

Lemma not_startswith p s : PyStr.startswith p s = false ↔ ¬ starts_with p s.
Proof. rewrite <- startswith_spec. by destruct (PyStr.startswith p s). Qed.

Lemma not_contains sub s : PyStr.contains sub s = false ↔ ¬ has_substring sub s.
Proof. rewrite <- contains_spec. by destruct (PyStr.contains sub s). Qed.

(** C1: the classifier is a function of the text alone and returns the
    candidate list of the first lexical rule that applies: a leading dot or
    two dots in a row give the file path only; otherwise a slash gives the
    file path, followed by the integration name unless the slash leads;
    otherwise a colon gives module and class, module and package when there
    is a dot, and the integration name; otherwise a dot gives file path,
    qualified class and package; any other text gives integration name,
    module and class. *)
Theorem classify_lexical_rules (ref : string) :
  let explicit_path := starts_with "." ref ∨ has_substring ".." ref in
  (explicit_path → _get_test_reference_types ref = [FILE_PATH]) ∧
  (¬ explicit_path → has_substring "/" ref →
     (starts_with "/" ref → _get_test_reference_types ref = [FILE_PATH]) ∧
     (¬ starts_with "/" ref →
        _get_test_reference_types ref = [FILE_PATH; INTEGRATION])) ∧
  (¬ explicit_path → ¬ has_substring "/" ref → has_substring ":" ref →
     (has_substring "." ref →
        _get_test_reference_types ref =
          [MODULE_CLASS; MODULE_PACKAGE; INTEGRATION]) ∧
     (¬ has_substring "." ref →
        _get_test_reference_types ref = [MODULE_CLASS; INTEGRATION])) ∧
  (¬ explicit_path → ¬ has_substring "/" ref → ¬ has_substring ":" ref →
     has_substring "." ref →
     _get_test_reference_types ref = [FILE_PATH; QUALIFIED_CLASS; PACKAGE]) ∧
  (¬ explicit_path → ¬ has_substring "/" ref → ¬ has_substring ":" ref →
     ¬ has_substring "." ref →
     _get_test_reference_types ref = [INTEGRATION; MODULE; CLASS]) ∧
  _get_test_reference_types "../foo" = [FILE_PATH] ∧
  _get_test_reference_types "a/b" = [FILE_PATH; INTEGRATION] ∧
  _get_test_reference_types "a:b.c" =
    [MODULE_CLASS; MODULE_PACKAGE; INTEGRATION].
Proof.
  intros explicit_path.
  assert (explicit_path ↔
          PyStr.startswith "." ref || PyStr.contains ".." ref = true) as ->.
  { unfold explicit_path. by rewrite orb_true_iff, startswith_spec, contains_spec. }
  rewrite <- (startswith_spec "/"), <- (contains_spec "/"),
    <- (contains_spec ":"), <- (contains_spec ".").
  unfold _get_test_reference_types.
  destruct (PyStr.startswith "." ref || PyStr.contains ".." ref);
    destruct (PyStr.contains "/" ref); destruct (PyStr.startswith "/" ref);
    destruct (PyStr.contains ":" ref); destruct (PyStr.contains "." ref);
    repeat split; intros; try reflexivity; try discriminate; exfalso; auto.
Qed.

(** The dotted rule applied to a class name with its package. *)
Lemma classify_lexical_rules_witness :
  _get_test_reference_types "android.jank.cts.ui.CtsDeviceJankUi" =
    [FILE_PATH; QUALIFIED_CLASS; PACKAGE].
Proof.
  apply (classify_lexical_rules "android.jank.cts.ui.CtsDeviceJankUi").
  - intros [H|H]; [apply startswith_spec in H | apply contains_spec in H];
      vm_compute in H; discriminate.
  - apply not_contains. reflexivity.
  - apply not_contains. reflexivity.
  - apply contains_spec. reflexivity.
Defined.

(** ** The filter merger *)

(** C2: flattening is idempotent at both levels.  Whatever the order in
    which the input set is iterated, and whatever the order in which the
    flattened set is iterated when it is flattened again, the second pass
    returns the set it was given. *)
Theorem flatten_idempotent :
  (∀ (filters filters' : list TestFilter),
     filters' ≡ₚ elements (_flatten_test_filters filters) →
     _flatten_test_filters filters' = _flatten_test_filters filters) ∧
  (∀ (test_infos test_infos' : list TestInfo),
     test_infos' ≡ₚ elements (_flatten_test_infos test_infos) →
     _flatten_test_infos test_infos' = _flatten_test_infos test_infos).
Proof.
  split.
  - intros l l' Hp. apply _flatten_test_filters_idem. intros f.
    by rewrite Hp, elem_of_elements.
  - apply _flatten_test_infos_idem.
Qed.

(** C3: the filters of one class are merged into one filter; it stands for
    the whole class as soon as one of them does, and otherwise its methods
    are the union of theirs. *)
Theorem flatten_test_filters_class_merge :
  (∀ (l : list TestFilter) (c : string),
     c ∈ class_name <$> l →
     ∃ merged,
       class_name merged = c ∧ merged ∈ _flatten_test_filters l ∧
       (∀ f, f ∈ _flatten_test_filters l → class_name f = c → f = merged) ∧
       ((∃ f, f ∈ l ∧ class_name f = c ∧ methods f = ∅) →
          methods merged = ∅) ∧
       ((∀ f, f ∈ l → class_name f = c → methods f ≠ ∅) →
          ∀ m, m ∈ methods merged ↔
               ∃ f, f ∈ l ∧ class_name f = c ∧ m ∈ methods f)) ∧
  _flatten_test_filters [mkTestFilter "A" ∅; mkTestFilter "A" {["m1"]}]
    = {[ mkTestFilter "A" ∅ ]} ∧
  _flatten_test_filters [mkTestFilter "A" {["m1"]}; mkTestFilter "A" ∅]
    = {[ mkTestFilter "A" ∅ ]} ∧
  _flatten_test_filters [mkTestFilter "A" {["m1"]}; mkTestFilter "A" {["m2"]}]
    = {[ mkTestFilter "A" {["m1"; "m2"]} ]}.
Proof.
  split; [|repeat split; apply (bool_decide_unpack _); vm_compute; exact I].
  intros l c Hc.
  exists (mkTestFilter c (flatten_filter_group ∅ (class_group c l))).
  split; [done|]. split; [apply elem_of__flatten_test_filters; by exists c|].
  split; [|split].
  - intros f Hf Hcls. apply elem_of__flatten_test_filters in Hf as (c' & _ & ->).
    simpl in Hcls. by subst c'.
  - intros (f & Hf & Hcls & He). simpl.
    apply flatten_filter_group_whole. exists f.
    by rewrite elem_of_class_group.
  - intros Hne m. simpl. rewrite elem_of_flatten_filter_group.
    setoid_rewrite elem_of_class_group. split.
    + intros [_ [Hm|(f & [Hf Hcls] & Hm)]]; [by apply not_elem_of_empty in Hm|].
      by exists f.
    + intros (f & Hf & Hcls & Hm). split.
      * intros f' [Hf' Hcls']. by apply Hne.
      * right. by exists f.
Qed.

(** C4: the descriptors of one module are merged into one descriptor; it
    has no filters as soon as one of them has none, and otherwise its
    filters are the flattened union of theirs.  Descriptors without a module
    name are handed on as they are. *)
Theorem flatten_test_infos_module_merge (l : list TestInfo) :
  (∀ m : string,
     Some m ∈ module_name <$> l →
     ∃ merged,
       module_name merged = Some m ∧ merged ∈ _flatten_test_infos l ∧
       (∀ t, t ∈ _flatten_test_infos l → module_name t = Some m → t = merged) ∧
       ((∃ t, t ∈ l ∧ module_name t = Some m ∧ filters t = ∅) →
          filters merged = ∅) ∧
       ((∀ t, t ∈ l → module_name t = Some m → filters t ≠ ∅) →
          ∀ union : list TestFilter,
            (∀ f, f ∈ union ↔
                  ∃ t, t ∈ l ∧ module_name t = Some m ∧ f ∈ filters t) →
            filters merged = _flatten_test_filters union)) ∧
  (∀ t, module_name t = None → t ∈ _flatten_test_infos l ↔ t ∈ l).
Proof.
  split.
  - intros m Hm. exists (merged_info m (module_group (Some m) l)).
    split; [apply module_name_merged_info|].
    split; [apply elem_of__flatten_test_infos; right; by exists m|].
    split; [|split].
    + intros t Ht Hmod. apply elem_of__flatten_test_infos in Ht.
      destruct Ht as [[Hn _]|(m' & _ & ->)]; [congruence|].
      rewrite module_name_merged_info in Hmod. congruence.
    + intros (t & Ht & Hmod & He). rewrite filters_merged_info.
      rewrite flatten_info_group_whole; [by rewrite elements_empty|].
      exists t. by rewrite elem_of_module_group.
    + intros Hne union Hu. rewrite filters_merged_info.
      rewrite flatten_info_group_union.
      2:{ intros t Ht. apply elem_of_module_group in Ht as [Ht Hmod]. by apply Hne. }
      apply _flatten_test_filters_ext. intros f.
      rewrite elem_of_elements, Hu, (left_id_L ∅ (∪)), elem_of_union_list.
      split.
      * intros (X & HX & Hf). apply list_elem_of_fmap in HX as (t & -> & Ht).
        apply elem_of_module_group in Ht as [Ht Hmod]. by exists t.
      * intros (t & Ht & Hmod & Hf). exists (filters t). split; [|done].
        apply list_elem_of_fmap_2. by apply elem_of_module_group.
  - intros t Hn. rewrite elem_of__flatten_test_infos. split.
    + intros [[_ Ht]|(m & _ & ->)]; [done|].
      rewrite module_name_merged_info in Hn. discriminate.
    + intros Ht. by left.
Qed.

(** Two descriptors of one module and one integration test, flattened
    twice. *)
Lemma flatten_idempotent_witness :
  let test_infos :=
    [ mkTestInfo (Some "a/AndroidTest.xml") (Some "M") None
        {[ mkTestFilter "A" {["m1"]} ]};
      mkTestInfo (Some "res/config/i.xml") None (Some "i") ∅;
      mkTestInfo (Some "a/AndroidTest.xml") (Some "M") None
        {[ mkTestFilter "A" {["m2"]}; mkTestFilter "B" ∅ ]} ] in
  elements (_flatten_test_infos test_infos)
    ≡ₚ elements (_flatten_test_infos test_infos) ∧
  _flatten_test_infos (elements (_flatten_test_infos test_infos))
    = _flatten_test_infos test_infos.
Proof.
  intros test_infos. split; [reflexivity|].
  apply (proj2 flatten_idempotent test_infos). reflexivity.
Defined.

(** Class [A] among the filters of two classes. *)
Lemma flatten_test_filters_class_merge_witness :
  let l := [ mkTestFilter "A" {["m1"]}; mkTestFilter "B" ∅;
             mkTestFilter "A" {["m2"]} ] in
  "A" ∈ class_name <$> l ∧
  ∃ merged,
    class_name merged = "A" ∧ merged ∈ _flatten_test_filters l ∧
    (∀ f, f ∈ _flatten_test_filters l → class_name f = "A" → f = merged) ∧
    ((∃ f, f ∈ l ∧ class_name f = "A" ∧ methods f = ∅) → methods merged = ∅) ∧
    ((∀ f, f ∈ l → class_name f = "A" → methods f ≠ ∅) →
       ∀ m, m ∈ methods merged ↔
            ∃ f, f ∈ l ∧ class_name f = "A" ∧ m ∈ methods f).
Proof.
  intros l. split; [left|].
  apply (proj1 flatten_test_filters_class_merge l "A"). left.
Defined.

(** Module [M] among the descriptors of a module and an integration test. *)
Lemma flatten_test_infos_module_merge_witness :
  let l :=
    [ mkTestInfo (Some "a/AndroidTest.xml") (Some "M") None
        {[ mkTestFilter "A" {["m1"]} ]};
      mkTestInfo (Some "res/config/i.xml") None (Some "i") ∅;
      mkTestInfo (Some "a/AndroidTest.xml") (Some "M") None ∅ ] in
  Some "M" ∈ module_name <$> l ∧
  ∃ merged,
    module_name merged = Some "M" ∧ merged ∈ _flatten_test_infos l ∧
    (∀ t, t ∈ _flatten_test_infos l → module_name t = Some "M" → t = merged) ∧
    ((∃ t, t ∈ l ∧ module_name t = Some "M" ∧ filters t = ∅) →
       filters merged = ∅) ∧
    ((∀ t, t ∈ l → module_name t = Some "M" → filters t ≠ ∅) →
       ∀ union : list TestFilter,
         (∀ f, f ∈ union ↔
               ∃ t, t ∈ l ∧ module_name t = Some "M" ∧ f ∈ filters t) →
         filters merged = _flatten_test_filters union).
Proof.
  intros l. split; [left|].
  apply (proj1 (flatten_test_infos_module_merge l) "M"). left.
Defined.

(** ** Splitting strings *)

Lemma split_cons_inv c s : ∃ h t, PyStr.split c s = h :: t.
Proof.
  destruct s as [|a s]; simpl; [by eauto|].
  case_decide; [by eauto|]. destruct (PyStr.split c s); eauto.
Qed.

Lemma length_split c s : length (PyStr.split c s) = S (PyStr.count c s).
Proof.
  induction s as [|a s IHs]; simpl; [done|].
  case_decide; simpl; [by rewrite IHs|].
  destruct (PyStr.split c s); simpl in *; done.
Qed.

Lemma split_no_sep c s : PyStr.count c s = 0%nat → PyStr.split c s = [s].
Proof.
  induction s as [|a s IHs]; simpl; [done|].
  case_decide; [done|]. intros Hc. by rewrite IHs.
Qed.

Lemma split_app c a b :
  PyStr.count c a = 0%nat →
  PyStr.split c (a +:+ String c b) = a :: PyStr.split c b.
Proof.
  induction a as [|x a IHa]; intros Hc.
  - rewrite append_empty_l. simpl. by rewrite decide_True.
  - rewrite append_String. simpl in *. case_decide; [done|].
    by rewrite IHa.
Qed.

Lemma count_app c a b :
  PyStr.count c (a +:+ b) = (PyStr.count c a + PyStr.count c b)%nat.
Proof.
  induction a as [|x a IHa]; [done|].
  rewrite append_String. simpl. rewrite IHa. lia.
Qed.

Lemma contains_count c s :
  PyStr.contains (String c EmptyString) s = true ↔ (0 < PyStr.count c s)%nat.
Proof.
  induction s as [|a s IHs]; simpl; [split; [done|lia]|].
  rewrite orb_true_iff, IHs. repeat case_decide; subst; simpl.
  - split; [lia|auto].
  - congruence.
  - congruence.
  - split; [intros [?|?]; [done|lia] | auto].
Qed.

Lemma truthy_app_r a b : PyStr.truthy b = true → PyStr.truthy (a +:+ b) = true.
Proof. destruct a; [done|]. by rewrite append_String. Qed.

Lemma truthy_path_join dir : PyStr.truthy (PyLib.path_join dir MODULE_CONFIG) = true.
Proof.
  unfold PyLib.path_join. simpl.
  destruct (bool_decide (dir = EmptyString) || PyStr.endswith "/" dir);
    by repeat apply truthy_app_r.
Qed.

(** ** Running the translator *)

Lemma bind_run {A B} (m : M A) (f : A → M B) st :
  (m ≫= f) st =
  match m st with
  | (Return a, st') => f a st'
  | (Raise e, st') => (Raise e, st')
  | (Diverge, st') => (Diverge, st')
  end.
Proof. reflexivity. Qed.

Lemma bind_ret {A B} (a : A) (f : A → M B) : (mret a ≫= f) = f a.
Proof. reflexivity. Qed.

Lemma bind_raise {A B} e (f : A → M B) : (raise e ≫= f) = raise e.
Proof. reflexivity. Qed.

(** More than one [#] is refused, and nothing outside the program is
    touched for it. *)
Lemma _split_methods_too_many user_input :
  (2 ≤ PyStr.count "#" user_input)%nat →
  _split_methods user_input = raise TooManyMethodsError.
Proof.
  intros Hc. unfold _split_methods.
  pose proof (length_split "#" user_input) as Hl.
  destruct (PyStr.split "#" user_input) as [|a [|b [|? ?]]]; simpl in Hl; try lia.
  reflexivity.
Qed.

Lemma _split_methods_two ref ms :
  PyStr.count "#" ref = 0%nat → PyStr.count "#" ms = 0%nat →
  _split_methods (ref +:+ String "#" ms) =
    mret (ref, list_to_set (PyStr.split "," ms)).
Proof.
  intros Hr Hm. unfold _split_methods.
  by rewrite split_app, (split_no_sep _ ms).
Qed.

(** A name that is more than two parts between colons cannot be unpacked
    into two. *)
Lemma _find_test_by_module_and_class_colons w self module_class :
  (2 ≤ PyStr.count ":" module_class)%nat →
  _find_test_by_module_and_class w self module_class = raise ValueError.
Proof.
  intros Hc. unfold _find_test_by_module_and_class.
  pose proof (length_split ":" module_class) as Hl.
  destruct (PyStr.split ":" module_class) as [|a [|b [|? ?]]]; simpl in Hl; try lia.
  reflexivity.
Qed.

Lemma _find_test_by_integration_name_colons w self name :
  (2 ≤ PyStr.count ":" name)%nat →
  _find_test_by_integration_name w self name = raise ValueError.
Proof.
  intros Hc. unfold _find_test_by_integration_name, integration_name_and_filters.
  assert (PyStr.contains ":" name = true) as -> by (apply contains_count; lia).
  pose proof (length_split ":" name) as Hl.
  destruct (PyStr.split ":" name) as [|a [|b [|? ?]]]; simpl in Hl; try lia.
  reflexivity.
Qed.

(** The lookup in the module index touches nothing outside the program. *)
Lemma _find_test_by_module_name_run self name st :
  _find_test_by_module_name self name st =
  match dict_get (module_info self) name with
  | Some info =>
      if installed_truthy info then
        match info_path info with
        | None => (Raise KeyError, st)
        | Some [] => (Raise IndexError, st)
        | Some (dir :: _) =>
            (Return (Some (mkTestInfo (Some (PyLib.path_join dir MODULE_CONFIG))
                                      (Some name) None ∅)), st)
        end
      else (Return None, st)
  | None => (Return None, st)
  end.
Proof.
  unfold _find_test_by_module_name.
  destruct (dict_get (module_info self) name) as [info|]; [|done].
  destruct (installed_truthy info); [|done].
  by destruct (info_path info) as [[|dir ?]|].
Qed.

Lemma try_except_run {A} (m : M A) e (handler : M A) st :
  try_except m e handler st =
  match m st with
  | (Raise e', st') => if decide (e' = e) then handler st' else (Raise e', st')
  | r => r
  end.
Proof. reflexivity. Qed.

(** One round of the loop of [_get_test_info]. *)
Lemma _get_test_info_step w self test_name ref_type reference_types st :
  _get_test_info w self test_name (ref_type :: reference_types) st =
  match
    match ref_type_to_func_map w self ref_type with
    | Some func => func test_name st
    | None => (Raise KeyError, st)
    end
  with
  | (Return (Some found), st') => (Return (Some found), st')
  | (Return None, st') => _get_test_info w self test_name reference_types st'
  | (Raise e, st') =>
      if decide (e = KeyError)
      then _get_test_info w self test_name reference_types st'
      else (Raise e, st')
  | (Diverge, st') => (Diverge, st')
  end.
Proof.
  simpl. rewrite bind_run, try_except_run.
  destruct (ref_type_to_func_map w self ref_type) as [func|]; simpl.
  - rewrite bind_ret.
    destruct (func test_name st) as [[[found|]|e|] st']; simpl; try done.
    by case_decide.
  - done.
Qed.

Global Arguments _get_test_info : simpl never.

Lemma translate_test_run w self test st :
  translate_test w self test st =
  match _get_test_info w self test (_get_test_reference_types test) st with
  | (Return (Some found), st') => (Return found, st')
  | (Return None, st') => (Raise NoTestFoundError, st')
  | (Raise e, st') => (Raise e, st')
  | (Diverge, st') => (Diverge, st')
  end.
Proof.
  unfold translate_test. rewrite bind_run.
  by destruct (_get_test_info w self test (_get_test_reference_types test) st)
    as [[[found|]|e|] st'].
Qed.

Lemma module_class_first ref :
  head (_get_test_reference_types ref) = Some MODULE_CLASS →
  _get_test_reference_types ref = [MODULE_CLASS; MODULE_PACKAGE; INTEGRATION] ∨
  _get_test_reference_types ref = [MODULE_CLASS; INTEGRATION].
Proof.
  unfold _get_test_reference_types.
  repeat match goal with |- context [if ?b then _ else _] => destruct b end;
    simpl; intros; try discriminate; auto.
Qed.

Lemma file_path_first ref :
  head (_get_test_reference_types ref) = Some FILE_PATH →
  ∃ rest, _get_test_reference_types ref = FILE_PATH :: rest.
Proof.
  destruct (_get_test_reference_types ref) as [|ty rest]; simpl; [done|].
  intros [= ->]. eauto.
Qed.

(** ** Identifiers with more than one colon *)

(** C10, as the code has it: with two colons or more both strategies end
    with [ValueError] instead of an answer, and so does the translation of
    an identifier for which the module and class strategy is tried first,
    that is, one without a leading dot, two dots in a row or a slash. *)
Theorem two_colons_value_error w self name st :
  (2 ≤ PyStr.count ":" name)%nat →
  _find_test_by_module_and_class w self name st = (Raise ValueError, st) ∧
  _find_test_by_integration_name w self name st = (Raise ValueError, st) ∧
  (¬ starts_with "." name → ¬ has_substring ".." name →
   ¬ has_substring "/" name →
   translate_test w self name st = (Raise ValueError, st)).
Proof.
  intros Hc. split; [|split].
  - by rewrite _find_test_by_module_and_class_colons.
  - by rewrite _find_test_by_integration_name_colons.
  - intros Hdot Hdots Hslash.
    apply not_startswith in Hdot. apply not_contains in Hdots, Hslash.
    assert (PyStr.contains ":" name = true) as Hcolon
      by (apply contains_count; lia).
    assert (∃ rest, _get_test_reference_types name = MODULE_CLASS :: rest)
      as [rest Hty].
    { unfold _get_test_reference_types. rewrite Hdot, Hdots, Hslash, Hcolon.
      simpl. destruct (PyStr.contains "." name); eauto. }
    rewrite translate_test_run, Hty, _get_test_info_step. simpl.
    by rewrite _find_test_by_module_and_class_colons.
Qed.

Lemma two_colons_value_error_witness :
  (2 ≤ PyStr.count ":" "a:b:c")%nat ∧
  translate_test empty_world example_translator "a:b:c" initial_state
    = (Raise ValueError, initial_state).
Proof.
  assert (2 ≤ PyStr.count ":" "a:b:c")%nat as Hc by (vm_compute; lia).
  split; [exact Hc|].
  apply (two_colons_value_error empty_world example_translator "a:b:c"
           initial_state Hc).
  - apply not_startswith. reflexivity.
  - apply not_contains. reflexivity.
  - apply not_contains. reflexivity.
Defined.

(** A path with two colons is looked up as a file path only; when it does
    not exist the translation ends with [NoTestFoundError], and neither
    strategy that splits at the colon is reached. *)
Lemma two_colons_path_counterexample :
  (2 ≤ PyStr.count ":" "./a:b:c")%nat ∧
  translate_test empty_world example_translator "./a:b:c" initial_state
    = (Raise NoTestFoundError,
       mkState [ev_realpath "./a:b:c"; ev_exists "./a:b:c"] []).
Proof. split; [vm_compute; lia | reflexivity]. Qed.

(** ** Probing the integration directories *)

Lemma os_check_output_run w cmd out st :
  check_output w cmd = Some out →
  os_check_output w cmd st
    = (Return out, mkState (trace st ++ [ev_check_output cmd]) (stdin st)).
Proof. intros H. unfold os_check_output. rewrite bind_run. simpl. by rewrite H. Qed.

Lemma integration_dirs_loop_quiet w self dirs name filters st :
  no_integration_config w self dirs name →
  integration_dirs_loop w self dirs name filters st
    = (Return None,
       mkState (trace st ++ integration_probes self dirs name) (stdin st)).
Proof.
  revert st. induction dirs as [|d dirs IHdirs]; intros st Hq.
  - simpl. unfold integration_probes. simpl. rewrite app_nil_r. by destruct st.
  - simpl. rewrite bind_run, (os_check_output_run _ _ EmptyString);
      [|apply Hq; left].
    rewrite bind_run. simpl. rewrite IHdirs; [|intros d' Hd'; apply Hq; by right].
    simpl. unfold integration_probes. simpl. by rewrite <- app_assoc.
Qed.

Lemma _find_test_by_integration_name_quiet w self name st :
  PyStr.contains ":" name = false →
  no_integration_config w self (integration_dirs self) name →
  _find_test_by_integration_name w self name st
    = (Return None,
       mkState (trace st ++ integration_probes self (integration_dirs self) name)
               (stdin st)).
Proof.
  intros Hc Hq. unfold _find_test_by_integration_name, integration_name_and_filters.
  rewrite Hc, bind_ret. by apply integration_dirs_loop_quiet.
Qed.

Lemma bare_reference_types name :
  _get_test_reference_types name = [INTEGRATION; MODULE; CLASS] →
  PyStr.contains ":" name = false.
Proof.
  unfold _get_test_reference_types.
  repeat match goal with |- context [if ?b then _ else _] => destruct b eqn:? end;
    intros; try discriminate; done.
Qed.

(** ** Identifiers with more than one [#] *)

(** C5, as the code has it: the functions that split off the methods fail
    with [TooManyMethodsError] and touch nothing outside the program.  The
    translation fails with it before any such call when the file path is
    the first candidate, and when module and class is the first candidate
    of an identifier with one colon and the [#]s behind it.  For a bare
    identifier the integration directories are searched and the module
    index is consulted first, and the error follows when both find
    nothing. *)
Theorem too_many_methods_error w self test st :
  (2 ≤ PyStr.count "#" test)%nat →
  _split_methods test st = (Raise TooManyMethodsError, st) ∧
  (head (_get_test_reference_types test) = Some FILE_PATH →
   translate_test w self test st = (Raise TooManyMethodsError, st)) ∧
  (∀ name class_name,
     head (_get_test_reference_types test) = Some MODULE_CLASS →
     PyStr.split ":" test = [name; class_name] →
     (2 ≤ PyStr.count "#" class_name)%nat →
     (∀ info, dict_get (module_info self) name = Some info →
              info_path info ≠ Some []) →
     translate_test w self test st = (Raise TooManyMethodsError, st)) ∧
  (_get_test_reference_types test = [INTEGRATION; MODULE; CLASS] →
   no_integration_config w self (integration_dirs self) test →
   (∀ info, dict_get (module_info self) test = Some info →
            installed_truthy info = false) →
   translate_test w self test st
     = (Raise TooManyMethodsError,
        mkState (trace st ++ integration_probes self (integration_dirs self) test)
                (stdin st))).
Proof.
  intros Hc. split; [by rewrite _split_methods_too_many|]. split; [|split].
  - intros Hfp. apply file_path_first in Hfp as [rest Hty].
    rewrite translate_test_run, Hty, _get_test_info_step. simpl.
    unfold _find_test_by_path. by rewrite _split_methods_too_many.
  - intros name cls Hmc Hsplit Hcls Hpath.
    assert (PyStr.contains ":" test = true) as Hcolon.
    { apply contains_count. pose proof (length_split ":" test) as Hl.
      rewrite Hsplit in Hl. simpl in Hl. lia. }
    assert (_find_test_by_integration_name w self test st
              = (Raise TooManyMethodsError, st)) as Hint.
    { unfold _find_test_by_integration_name, integration_name_and_filters.
      by rewrite Hcolon, Hsplit, _split_methods_too_many. }
    assert (_find_test_by_module_and_class w self test st
              = (Raise TooManyMethodsError, st) ∨
            _find_test_by_module_and_class w self test st = (Return None, st) ∨
            _find_test_by_module_and_class w self test st = (Raise KeyError, st))
      as Hmod.
    { unfold _find_test_by_module_and_class. rewrite Hsplit, bind_run.
      rewrite _find_test_by_module_name_run.
      destruct (dict_get (module_info self) name) as [info|] eqn:Hget; [|auto].
      destruct (installed_truthy info); [|auto].
      specialize (Hpath info eq_refl).
      destruct (info_path info) as [[|dir ?]|]; [done| |auto].
      left. unfold _find_test_by_class_name.
      by rewrite _split_methods_too_many. }
    rewrite translate_test_run.
    destruct (module_class_first _ Hmc) as [-> | ->];
      rewrite _get_test_info_step; simpl;
      destruct Hmod as [-> | [-> | ->]]; simpl; try done;
      rewrite ?_get_test_info_step; simpl;
      rewrite ?_get_test_info_step; simpl; by rewrite Hint.
  - intros Hty Hq Hmod.
    rewrite translate_test_run, Hty, _get_test_info_step. simpl.
    rewrite _find_test_by_integration_name_quiet;
      [|by apply bare_reference_types|done].
    rewrite _get_test_info_step. simpl.
    rewrite _find_test_by_module_name_run.
    assert (_get_test_info w self test [CLASS]
              (mkState (trace st ++ integration_probes self (integration_dirs self) test)
                       (stdin st))
            = (Raise TooManyMethodsError,
               mkState (trace st ++ integration_probes self (integration_dirs self) test)
                       (stdin st))) as Hcls.
    { rewrite _get_test_info_step. simpl. unfold _find_test_by_class_name.
      by rewrite _split_methods_too_many. }
    destruct (dict_get (module_info self) test) as [info|] eqn:Hget.
    + rewrite (Hmod info eq_refl). by rewrite Hcls.
    + by rewrite Hcls.
Qed.

(** A file path with two [#]: refused before anything is looked up. *)
Lemma too_many_methods_error_witness :
  (2 ≤ PyStr.count "#" "a/B.java#m1#m2")%nat ∧
  head (_get_test_reference_types "a/B.java#m1#m2") = Some FILE_PATH ∧
  translate_test empty_world example_translator "a/B.java#m1#m2" initial_state
    = (Raise TooManyMethodsError, initial_state).
Proof.
  assert (2 ≤ PyStr.count "#" "a/B.java#m1#m2")%nat as Hc by (vm_compute; lia).
  split; [exact Hc|]. split; [reflexivity|].
  apply (too_many_methods_error empty_world example_translator
           "a/B.java#m1#m2" initial_state Hc).
  reflexivity.
Defined.

(** A bare identifier with two [#]: the integration directory is searched
    by a subprocess before the error is raised. *)
Lemma too_many_methods_io_counterexample :
  (2 ≤ PyStr.count "#" "A#m1#m2")%nat ∧
  translate_test empty_world example_translator "A#m1#m2" initial_state
    = (Raise TooManyMethodsError,
       mkState [ev_check_output
                  (FIND_CMD_INTEGRATION "/src/tools/tradefederation/core"
                                        "A#m1#m2")] []).
Proof. split; [vm_compute; lia | reflexivity]. Qed.

(** ** Bare module names *)

Lemma starts_with_has_substring p s : starts_with p s → has_substring p s.
Proof. intros [t ->]. by exists EmptyString, t. Qed.

Lemma has_two_dots_has_dot s : has_substring ".." s → has_substring "." s.
Proof. intros (a & b & ->). by exists a, (String "." b). Qed.

Lemma bare_identifier_types name :
  ¬ has_substring "/" name → ¬ has_substring ":" name →
  ¬ has_substring "." name →
  _get_test_reference_types name = [INTEGRATION; MODULE; CLASS].
Proof.
  intros Hslash Hcolon Hdot.
  assert (PyStr.startswith "." name = false) as Hs.
  { apply not_startswith. intros H. by apply Hdot, starts_with_has_substring. }
  assert (PyStr.contains ".." name = false) as Hdd.
  { apply not_contains. intros H. by apply Hdot, has_two_dots_has_dot. }
  apply not_contains in Hslash, Hcolon, Hdot.
  unfold _get_test_reference_types. by rewrite Hs, Hdd, Hslash, Hcolon, Hdot.
Qed.

(** C6, as the code has it: a bare name of an installed module is tried as
    an integration name first, with one find per integration directory.
    When these find nothing the module strategy answers from the index
    alone: the descriptor carries the module name, no filters and the
    module directory joined with AndroidTest.xml, and the finds of the
    integration strategy are the only calls made. *)
Theorem bare_module_name_resolution w self name info dir dirs st :
  ¬ has_substring "/" name → ¬ has_substring ":" name →
  ¬ has_substring "." name →
  dict_get (module_info self) name = Some info →
  (∃ artifact artifacts, info_installed info = Some (artifact :: artifacts)) →
  info_path info = Some (dir :: dirs) →
  no_integration_config w self (integration_dirs self) name →
  let found :=
    mkTestInfo (Some (PyLib.path_join dir MODULE_CONFIG)) (Some name) None ∅ in
  _find_test_by_module_name self name st = (Return (Some found), st) ∧
  translate_test w self name st
    = (Return found,
       mkState (trace st ++ integration_probes self (integration_dirs self) name)
               (stdin st)) ∧
  (integration_dirs self = [] →
   translate_test w self name st = (Return found, st)).
Proof.
  intros Hslash Hcolon Hdot Hget (artifact & artifacts & Hinst) Hpath Hq found.
  assert (installed_truthy info = true) as Htruthy
    by (unfold installed_truthy; by rewrite Hinst).
  assert (∀ st', _find_test_by_module_name self name st'
                 = (Return (Some found), st')) as Hmod.
  { intros st'. by rewrite _find_test_by_module_name_run, Hget, Htruthy, Hpath. }
  assert (translate_test w self name st
    = (Return found,
       mkState (trace st ++ integration_probes self (integration_dirs self) name)
               (stdin st))) as Hrun.
  { rewrite translate_test_run, bare_identifier_types by done.
    rewrite _get_test_info_step. simpl.
    rewrite _find_test_by_integration_name_quiet; [|by apply not_contains|done].
    rewrite _get_test_info_step. simpl. by rewrite Hmod. }
  split; [apply Hmod|]. split; [exact Hrun|].
  intros Hnil. rewrite Hrun, Hnil. unfold integration_probes. simpl.
  rewrite app_nil_r. by destruct st.
Qed.

(** Module [Foo] of the example tree, with nothing of that name in the
    integration directory. *)
Lemma bare_module_name_resolution_witness :
  translate_test empty_world example_translator "Foo" initial_state
    = (Return (mkTestInfo (Some "pkg/foo/AndroidTest.xml") (Some "Foo") None ∅),
       mkState [ev_check_output
                  (FIND_CMD_INTEGRATION "/src/tools/tradefederation/core" "Foo")]
               []).
Proof.
  apply (bare_module_name_resolution empty_world example_translator "Foo"
           (mkModuleInfoEntry (Some ["pkg/foo"]) (Some ["out/Foo.apk"]))
           "pkg/foo" [] initial_state).
  - apply not_contains. reflexivity.
  - apply not_contains. reflexivity.
  - apply not_contains. reflexivity.
  - reflexivity.
  - by exists "out/Foo.apk", [].
  - reflexivity.
  - intros d Hd. reflexivity.
Defined.

(** Module [Foo] is installed, and an integration config is named [Foo]
    too: the find in the integration directory is run and its config is
    the test that is found, without a module name. *)
Lemma bare_module_name_counterexample :
  dict_get (module_info example_translator) "Foo"
    = Some (mkModuleInfoEntry (Some ["pkg/foo"]) (Some ["out/Foo.apk"])) ∧
  translate_test integration_world example_translator "Foo" initial_state
    = (Return (mkTestInfo
                 (Some "tools/tradefederation/core/res/config/Foo.xml")
                 None (Some "Foo") ∅),
       mkState [ev_check_output
                  (FIND_CMD_INTEGRATION "/src/tools/tradefederation/core" "Foo")]
               []).
Proof. split; reflexivity. Qed.

(** ** Reading back a printed number *)

Lemma is_nat_pretty_N_char r :
  (r < 10)%N → Ascii.is_nat (pretty_N_char r) = Some (N.to_nat r).
Proof.
  intros Hr.
  assert (r = 0 ∨ r = 1 ∨ r = 2 ∨ r = 3 ∨ r = 4 ∨ r = 5 ∨ r = 6 ∨ r = 7
          ∨ r = 8 ∨ r = 9)%N as H by lia.
  repeat (destruct H as [->|H]; [reflexivity|]). by subst.
Qed.

Lemma digits_value_pretty_N_go x s :
  PyLib.digits_value 0 (pretty_N_go x s) = PyLib.digits_value x s.
Proof.
  revert s. induction (N.lt_wf_0 x) as [x _ IH]; intros s.
  destruct (decide (x = 0)%N) as [->|Hx]; [by rewrite pretty_N_go_0|].
  rewrite pretty_N_go_step by lia.
  rewrite IH by (apply N.div_lt; lia).
  simpl. rewrite is_nat_pretty_N_char by (apply N.mod_lt; lia).
  f_equal. rewrite N2Nat.id. pose proof (N.div_mod x 10). lia.
Qed.

Lemma is_nat_not_space a d : Ascii.is_nat a = Some d → Ascii.is_space a = false.
Proof.
  destruct a as [[] [] [] [] [] [] [] []]; simpl; intros; done.
Qed.

Lemma rstrip_space_digits acc s v :
  PyLib.digits_value acc s = Some v → PyLib.rstrip_space s = s.
Proof.
  revert acc. induction s as [|a s IHs]; intros acc; simpl; [done|].
  destruct (Ascii.is_nat a) as [d|] eqn:Hd; [|done]. intros Hv.
  rewrite (IHs _ Hv). destruct s; [|done].
  by rewrite (is_nat_not_space _ _ Hd).
Qed.

Lemma int_digits s v :
  s ≠ EmptyString → PyLib.digits_value 0 s = Some v →
  PyLib.int s = Some (Z.of_N v).
Proof.
  intros Hne Hv. unfold PyLib.int.
  assert (PyLib.lstrip_space s = s) as ->.
  { destruct s as [|a s]; [done|]. simpl in *.
    destruct (Ascii.is_nat a) as [d|] eqn:Hd; [|done].
    by rewrite (is_nat_not_space _ _ Hd). }
  rewrite (rstrip_space_digits _ _ _ Hv).
  destruct s as [|a s]; [done|].
  destruct a as [[] [] [] [] [] [] [] []];
    try (simpl in Hv; discriminate Hv);
    simpl in Hv |- *; by rewrite Hv.
Qed.

Lemma int_pretty (n : nat) : PyLib.int (pretty n) = Some (Z.of_nat n).
Proof.
  unfold pretty, pretty_nat, pretty, pretty_N.
  case_decide as Hn.
  - replace n with 0%nat by lia. reflexivity.
  - assert (PyLib.digits_value 0 (pretty_N_go (N.of_nat n) EmptyString)
            = Some (N.of_nat n)) as Hv by (by rewrite digits_value_pretty_N_go).
    rewrite (int_digits _ (N.of_nat n)); [by rewrite nat_N_Z| |exact Hv].
    intros He. rewrite He in Hv. simpl in Hv. congruence.
Qed.

Lemma index_of_nat {A} (l : list A) (i : nat) :
  PyLib.index l (Z.of_nat i) = l !! i.
Proof. unfold PyLib.index. rewrite decide_True by lia. by rewrite Nat2Z.id. Qed.

Lemma enumerate_lookup {A} (l : list A) n i x :
  l !! i = Some x → PyLib.enumerate n l !! i = Some ((n + i)%nat, x).
Proof.
  revert n i. induction l as [|y l IHl]; intros n [|i]; simpl; try done.
  - intros [= ->]. by rewrite Nat.add_0_r.
  - intros H. rewrite (IHl (S n) i H). do 2 f_equal. lia.
Qed.

(** ** More than one class file *)

Lemma raw_input_run prompt st :
  raw_input prompt st =
  (match stdin st with
   | line :: _ => Return line
   | [] => Raise EOFError
   end,
   mkState (trace st ++ [ev_raw_input prompt]) (tail (stdin st))).
Proof. unfold raw_input. by destruct (stdin st). Qed.

Lemma _extract_test_path_ambiguous output st :
  (1 < length (candidates output))%nat →
  _extract_test_path output st =
  (match stdin st with
   | [] => Raise EOFError
   | answer :: _ =>
       match PyLib.int answer with
       | None => Raise ValueError
       | Some i =>
           match PyLib.index (candidates output) i with
           | Some test => Return (Some test)
           | None => Raise IndexError
           end
       end
   end,
   mkState (trace st ++ [ev_print (ambiguity_message (candidates output));
                         ev_raw_input selection_prompt])
           (tail (stdin st))).
Proof.
  intros Hlen. unfold _extract_test_path.
  destruct output as [|a output]; [simpl in Hlen; lia|].
  change (PyStr.truthy (String a output)) with true. cbn [negb].
  fold (candidates (String a output)).
  rewrite decide_True by done.
  fold (numbered_list (candidates (String a output))).
  fold (ambiguity_message (candidates (String a output))).
  fold selection_prompt.
  rewrite !bind_run. unfold py_print, log. cbv beta iota.
  rewrite bind_run, raw_input_run.
  cbn [trace stdin]. rewrite <- app_assoc. cbn [app].
  destruct (stdin st) as [|answer rest]; [done|].
  cbn [tail]. unfold or_raise.
  destruct (PyLib.int answer) as [i|]; [|done].
  unfold mret, M_ret. cbv beta iota.
  by destruct (PyLib.index (candidates (String a output)) i).
Qed.

(** C7: when the find lists more than one file, none is taken by default.
    The candidates are printed, numbered in the order of the find output,
    and a line is read from the terminal; which candidate is returned is
    decided by that line alone.  Without a line nothing is returned, and
    the printed number of a candidate is the answer that selects it. *)
Theorem ambiguous_match_needs_decision output st :
  (1 < length (candidates output))%nat →
  let tests := candidates output in
  let asked :=
    trace st ++ [ev_print (ambiguity_message tests);
                 ev_raw_input selection_prompt] in
  (stdin st = [] →
   _extract_test_path output st = (Raise EOFError, mkState asked [])) ∧
  (∀ answer rest,
     stdin st = answer :: rest →
     _extract_test_path output st =
     (match PyLib.int answer with
      | None => Raise ValueError
      | Some i =>
          match PyLib.index tests i with
          | Some test => Return (Some test)
          | None => Raise IndexError
          end
      end, mkState asked rest)) ∧
  (∀ (i : nat) test,
     tests !! i = Some test →
     numbered_list tests !! i = Some (pretty i +:+ ": " +:+ test) ∧
     ∀ rest,
       stdin st = pretty i :: rest →
       _extract_test_path output st = (Return (Some test), mkState asked rest)).
Proof.
  intros Hlen tests asked.
  pose proof (_extract_test_path_ambiguous output st Hlen) as Hrun.
  fold tests in Hrun. fold asked in Hrun.
  split; [|split].
  - intros Hin. by rewrite Hrun, Hin.
  - intros answer rest Hin. by rewrite Hrun, Hin.
  - intros i test Hi. split.
    + unfold numbered_list. rewrite list_lookup_fmap.
      by rewrite (enumerate_lookup _ _ _ _ Hi).
    + intros rest Hin. rewrite Hrun, Hin, int_pretty, index_of_nat, Hi. done.
Qed.

(** Two files named [X.java], and the answer 1. *)
Lemma ambiguous_match_needs_decision_witness :
  let output := "/a/X.java" +:+ NL +:+ "/b/X.java" +:+ NL in
  (1 < length (candidates output))%nat ∧
  _extract_test_path output (mkState [] ["1"]) =
    (Return (Some "/b/X.java"),
     mkState [ev_print (ambiguity_message ["/a/X.java"; "/b/X.java"]);
              ev_raw_input selection_prompt] []).
Proof.
  intros output.
  assert (1 < length (candidates output))%nat as Hlen by (vm_compute; lia).
  split; [exact Hlen|].
  apply (proj1 (proj2 (ambiguous_match_needs_decision output
                         (mkState [] ["1"]) Hlen)) "1" []).
  reflexivity.
Defined.

(** The candidates are not put in an order of their own and the choice is
    not left to the caller.  Two find outputs that list the same two files
    number them differently, so that the answer 0 selects a different file;
    and the function itself reads the answer from the terminal: it hands
    back one path, never the list, and without an answer it ends with
    [EOFError]. *)
Lemma ambiguous_match_counterexample :
  let listed := "/b/X.java" +:+ NL +:+ "/a/X.java" +:+ NL in
  let resorted := "/a/X.java" +:+ NL +:+ "/b/X.java" +:+ NL in
  let asked tests :=
    [ev_print (ambiguity_message tests); ev_raw_input selection_prompt] in
  candidates listed ≡ₚ candidates resorted ∧
  numbered_list (candidates listed) = ["0: /b/X.java"; "1: /a/X.java"] ∧
  numbered_list (candidates resorted) = ["0: /a/X.java"; "1: /b/X.java"] ∧
  _extract_test_path listed (mkState [] ["0"]) =
    (Return (Some "/b/X.java"), mkState (asked ["/b/X.java"; "/a/X.java"]) []) ∧
  _extract_test_path resorted (mkState [] ["0"]) =
    (Return (Some "/a/X.java"), mkState (asked ["/a/X.java"; "/b/X.java"]) []) ∧
  _extract_test_path listed (mkState [] []) =
    (Raise EOFError, mkState (asked ["/b/X.java"; "/a/X.java"]) []).
Proof.
  intros listed resorted asked.
  split; [apply Permutation_swap|].
  repeat split; reflexivity.
Qed.

(** ** The integration directories, one after the other *)

Lemma _extract_test_path_single output test st :
  PyStr.truthy output = true → candidates output = [test] →
  _extract_test_path output st = (Return (Some test), st).
Proof.
  intros Ht Hc. unfold _extract_test_path. rewrite Ht. cbn [negb].
  fold (candidates output). rewrite Hc. reflexivity.
Qed.

(** Directories whose find prints nothing are passed over; the first one
    whose find yields a file decides the answer. *)
Lemma integration_dirs_loop_first w self quiet_dirs d later_dirs name filters
    out test_file st st2 :
  no_integration_config w self quiet_dirs name →
  check_output w (FIND_CMD_INTEGRATION (PyLib.path_join (root_dir self) d) name)
    = Some out →
  _extract_test_path out
    (mkState (trace st ++ integration_probes self (quiet_dirs ++ [d]) name)
             (stdin st))
    = (Return (Some test_file), st2) →
  PyStr.truthy test_file = true →
  integration_dirs_loop w self (quiet_dirs ++ d :: later_dirs) name filters st =
  (Return
     match INT_NAME_RE_match test_file with
     | Some int_name =>
         if decide (int_name = name)
         then Some (mkTestInfo (Some (relpath w test_file (root_dir self)))
                               None (Some name) filters)
         else None
     | None => None
     end, st2).
Proof.
  revert st. induction quiet_dirs as [|q quiet_dirs IH]; intros st Hq Hout Hex Ht.
  - simpl. rewrite bind_run, (os_check_output_run _ _ out) by done.
    rewrite bind_run. unfold integration_probes in Hex. simpl in Hex.
    rewrite Hex. simpl. rewrite Ht.
    destruct (INT_NAME_RE_match test_file) as [int_name|]; [|done].
    by repeat case_decide.
  - simpl. rewrite bind_run, (os_check_output_run _ _ EmptyString);
      [|apply Hq; left].
    rewrite bind_run. simpl.
    apply IH; [intros d' Hd'; apply Hq; by right|done| |done].
    simpl. unfold integration_probes in *. simpl in Hex.
    by rewrite <- app_assoc.
Qed.

(** C9: the integration directories are searched one after the other, in
    the order of the list.  The first directory whose find yields a file
    decides: the config is taken when the name read off its path is the
    name asked for, and otherwise nothing is found; the directories after
    it are not searched. *)
Theorem integration_first_root_decides w self name quiet_dirs d later_dirs
    out test_file st st2 :
  ¬ has_substring ":" name →
  integration_dirs self = quiet_dirs ++ d :: later_dirs →
  no_integration_config w self quiet_dirs name →
  check_output w (FIND_CMD_INTEGRATION (PyLib.path_join (root_dir self) d) name)
    = Some out →
  _extract_test_path out
    (mkState (trace st ++ integration_probes self (quiet_dirs ++ [d]) name)
             (stdin st))
    = (Return (Some test_file), st2) →
  PyStr.truthy test_file = true →
  (∀ int_name,
     INT_NAME_RE_match test_file = Some int_name → int_name ≠ name →
     _find_test_by_integration_name w self name st = (Return None, st2)) ∧
  (INT_NAME_RE_match test_file = None →
   _find_test_by_integration_name w self name st = (Return None, st2)) ∧
  (INT_NAME_RE_match test_file = Some name →
   _find_test_by_integration_name w self name st =
   (Return (Some (mkTestInfo (Some (relpath w test_file (root_dir self)))
                             None (Some name) ∅)), st2)) ∧
  (candidates out = [test_file] →
   trace st2 = trace st ++ integration_probes self (quiet_dirs ++ [d]) name).
Proof.
  intros Hcolon Hdirs Hq Hout Hex Ht. apply not_contains in Hcolon.
  assert (_find_test_by_integration_name w self name st
          = integration_dirs_loop w self (quiet_dirs ++ d :: later_dirs) name ∅ st)
    as ->.
  { unfold _find_test_by_integration_name, integration_name_and_filters.
    by rewrite Hcolon, bind_ret, Hdirs. }
  rewrite (integration_dirs_loop_first _ _ _ _ _ _ _ out test_file _ st2)
    by done.
  repeat split.
  - intros int_name -> Hne. by rewrite decide_False.
  - by intros ->.
  - intros ->. by rewrite decide_True.
  - intros Hc. assert (PyStr.truthy out = true) as Hout_truthy.
    { destruct out; [|done]. vm_compute in Hex. discriminate Hex. }
    rewrite (_extract_test_path_single out test_file) in Hex by done.
    by injection Hex as <-.
Qed.

(** Two integration directories that both hold [Foo.xml]: the config of
    the first one is the answer and the second one is not searched. *)
Lemma integration_first_root_decides_witness :
  _find_test_by_integration_name integration_world two_roots_translator "Foo"
    initial_state =
  (Return (Some (mkTestInfo
                   (Some "tools/tradefederation/core/res/config/Foo.xml")
                   None (Some "Foo") ∅)),
   mkState [ev_check_output
              (FIND_CMD_INTEGRATION "/src/tools/tradefederation/core" "Foo")]
           []).
Proof.
  apply (integration_first_root_decides integration_world two_roots_translator
           "Foo" [] "tools/tradefederation/core" ["vendor/tradefed"]
           ("/src/tools/tradefederation/core/res/config/Foo.xml" +:+ NL)
           "/src/tools/tradefederation/core/res/config/Foo.xml"
           initial_state).
  - apply not_contains. reflexivity.
  - reflexivity.
  - intros d' Hd'. by apply elem_of_nil in Hd'.
  - reflexivity.
  - reflexivity.
  - reflexivity.
  - reflexivity.
Defined.

(** A name that only matches the end of a config path is not taken for the
    name of that config. *)
Example integration_name_mismatch :
  _find_test_by_integration_name integration_world two_roots_translator
    "config/Foo" initial_state =
  (Return None,
   mkState [ev_check_output
              (FIND_CMD_INTEGRATION "/src/tools/tradefederation/core"
                                    "config/Foo")] []).
Proof. reflexivity. Qed.

(** ** From an identifier to the serialized test *)

Lemma elem_of_to_set_of_tf_strings f s :
  s ∈ to_set_of_tf_strings f ↔
  (methods f = ∅ ∧ s = class_name f) ∨
  (∃ m, m ∈ methods f ∧ s = class_name f +:+ "#" +:+ m).
Proof.
  unfold to_set_of_tf_strings. case_decide as He.
  - rewrite elem_of_singleton. split; [auto|].
    intros [[_ ->]|(m & Hm & _)]; [done|]. rewrite He in Hm.
    by apply not_elem_of_empty in Hm.
  - rewrite elem_of_map. split.
    + intros (m & -> & Hm). right. by exists m.
    + intros [[Hn _]|(m & Hm & ->)]; [done|]. by exists m.
Qed.

Lemma elem_of_foldl_tf_strings (l : list TestFilter) (acc : gset string) s :
  s ∈ foldl (λ acc f, acc ∪ to_set_of_tf_strings f) acc l ↔
  s ∈ acc ∨ ∃ f, f ∈ l ∧ s ∈ to_set_of_tf_strings f.
Proof.
  revert acc. induction l as [|f l IHl]; intros acc; simpl.
  - split; [auto|]. intros [?|(f & Hf & _)]; [done|]. by apply elem_of_nil in Hf.
  - rewrite IHl, elem_of_union. split.
    + intros [[?|?]|(f' & Hf' & Hs)]; [auto|right..].
      * exists f. split; [left|done].
      * exists f'. split; [by right|done].
    + intros [?|(f' & Hf' & Hs)]; [auto|].
      apply elem_of_cons in Hf' as [->|Hf']; eauto.
Qed.

Lemma elem_of_tf_filters t s :
  s ∈ tf_filters (to_tf_dict t) ↔
  ∃ f, f ∈ filters t ∧ s ∈ to_set_of_tf_strings f.
Proof.
  unfold to_tf_dict. simpl. rewrite elem_of_elements, elem_of_foldl_tf_strings.
  setoid_rewrite elem_of_elements. split; [|auto].
  intros [Hs|?]; [|done]. by apply not_elem_of_empty in Hs.
Qed.

Lemma NoDup_tf_filters t : NoDup (tf_filters (to_tf_dict t)).
Proof. unfold to_tf_dict. simpl. apply NoDup_elements. Qed.

Lemma _flatten_test_filters_singleton f :
  methods f ≠ ∅ → _flatten_test_filters [f] = {[ f ]}.
Proof.
  intros Hne. unfold _flatten_test_filters, _sort_and_group. simpl.
  rewrite decide_False by done. rewrite !(left_id_L ∅ (∪)). by destruct f.
Qed.

Lemma _flatten_test_infos_singleton t m f :
  module_name t = Some m → integrated_name t = None →
  filters t = {[ f ]} → methods f ≠ ∅ →
  _flatten_test_infos [t] = {[ t ]}.
Proof.
  intros Hm Hi Hf Hne. unfold _flatten_test_infos, _sort_and_group. simpl.
  rewrite Hm. simpl. rewrite Hf.
  rewrite decide_False by (apply non_empty_singleton_L).
  simpl. rewrite !(left_id_L ∅ (∪)), elements_singleton.
  rewrite _flatten_test_filters_singleton by done.
  destruct t. simpl in *. by subst.
Qed.

Lemma os_read_lines_run w path lines st :
  file_lines w path = Some lines →
  os_read_lines w path st
    = (Return lines, mkState (trace st ++ [ev_open path]) (stdin st)).
Proof. intros H. unfold os_read_lines. rewrite bind_run. simpl. by rewrite H. Qed.

Lemma _get_fully_qualified_class_name_run w test_path lines package st :
  file_lines w test_path = Some lines →
  head (omap PACKAGE_RE_match lines) = Some package →
  _get_fully_qualified_class_name w test_path st =
  (Return (package +:+ "." +:+
           PyLib.splitext_root (PyLib.path_split test_path).2),
   mkState (trace st ++ [ev_open test_path]) (stdin st)).
Proof.
  intros Hl Hp. unfold _get_fully_qualified_class_name.
  rewrite bind_run, (os_read_lines_run _ _ lines) by done. by rewrite Hp.
Qed.

Lemma _find_class_file_run w class_name search_dir out test_path st :
  PyStr.contains "." class_name = false →
  check_output w (FIND_CMD_CLASS search_dir class_name) = Some out →
  candidates out = [test_path] → PyStr.truthy out = true →
  _find_class_file w class_name search_dir st =
  (Return (Some test_path),
   mkState (trace st ++ [ev_check_output (FIND_CMD_CLASS search_dir class_name)])
           (stdin st)).
Proof.
  intros Hdot Hout Hc Ht. unfold _find_class_file. rewrite Hdot.
  rewrite bind_run, (os_check_output_run _ _ out) by done.
  by apply _extract_test_path_single.
Qed.

(** The class strategy with the module and its config already known, for a
    class that the find lists once. *)
Lemma _find_test_by_class_name_in_module w self cls ms name rc out test_path
    lines package st :
  let search_dir := PyLib.path_join (root_dir self) (PyLib.dirname rc) in
  PyStr.count "#" cls = 0%nat → PyStr.count "#" ms = 0%nat →
  PyStr.contains "." cls = false →
  PyStr.truthy name = true → PyStr.truthy rc = true →
  check_output w (FIND_CMD_CLASS search_dir cls) = Some out →
  candidates out = [test_path] → PyStr.truthy test_path = true →
  file_lines w test_path = Some lines →
  head (omap PACKAGE_RE_match lines) = Some package →
  _find_test_by_class_name w self (cls +:+ String "#" ms) (Some name) (Some rc) st =
  (Return (Some (mkTestInfo (Some rc) (Some name) None
      {[ mkTestFilter
           (package +:+ "." +:+ PyLib.splitext_root (PyLib.path_split test_path).2)
           (list_to_set (PyStr.split "," ms)) ]})),
   mkState (trace st ++ [ev_check_output (FIND_CMD_CLASS search_dir cls);
                         ev_open test_path])
           (stdin st)).
Proof.
  intros search_dir Hcls Hms Hdot Hname Hrc Hout Hcand Htp Hlines Hpkg.
  assert (PyStr.truthy out = true) as Hout_truthy.
  { destruct out; [|done]. vm_compute in Hcand. injection Hcand as <-. done. }
  unfold _find_test_by_class_name.
  rewrite _split_methods_two, bind_ret by done. cbv beta iota.
  rewrite Hrc. fold search_dir.
  rewrite bind_run, (_find_class_file_run _ _ _ out test_path) by done.
  unfold opt_truthy. rewrite Htp, Hname, Hrc. cbn [negb default].
  rewrite bind_run,
    (_get_fully_qualified_class_name_run _ _ lines package) by done.
  rewrite !bind_ret. unfold mret, M_ret. cbn [trace stdin].
  by rewrite <- app_assoc.
Qed.

(** C8: a filter is written as its class name when it has no methods and
    as one [Class#method] string per method otherwise, and the filters of a
    test info are written as the strings of all its filters, each once.
    For an installed module and a class that the find in the module
    directory lists once, [Module:Class#m1,m2] is translated into the one
    test whose dict names the module and lists the two strings made of the
    fully qualified class name and a method. *)
Theorem module_class_round_trip :
  (∀ f s,
     s ∈ to_set_of_tf_strings f ↔
     (methods f = ∅ ∧ s = class_name f) ∨
     (∃ m, m ∈ methods f ∧ s = class_name f +:+ "#" +:+ m)) ∧
  (∀ t,
     NoDup (tf_filters (to_tf_dict t)) ∧
     ∀ s, s ∈ tf_filters (to_tf_dict t) ↔
          ∃ f, f ∈ filters t ∧ s ∈ to_set_of_tf_strings f) ∧
  (∀ w self name cls m1 m2 info dir dirs out test_path lines package st,
     let ident := name +:+ ":" +:+ cls +:+ "#" +:+ m1 +:+ "," +:+ m2 in
     let rc := PyLib.path_join dir MODULE_CONFIG in
     let search_dir := PyLib.path_join (root_dir self) (PyLib.dirname rc) in
     let full_class_name :=
       package +:+ "." +:+ PyLib.splitext_root (PyLib.path_split test_path).2 in
     ¬ starts_with "." ident → ¬ has_substring ".." ident →
     ¬ has_substring "/" ident →
     name ≠ EmptyString → PyStr.count ":" name = 0%nat →
     PyStr.count ":" cls = 0%nat ∧ PyStr.count "#" cls = 0%nat ∧
       ¬ has_substring "." cls →
     PyStr.count ":" m1 = 0%nat ∧ PyStr.count "#" m1 = 0%nat ∧
       PyStr.count "," m1 = 0%nat →
     PyStr.count ":" m2 = 0%nat ∧ PyStr.count "#" m2 = 0%nat ∧
       PyStr.count "," m2 = 0%nat →
     dict_get (module_info self) name = Some info →
     installed_truthy info = true → info_path info = Some (dir :: dirs) →
     check_output w (FIND_CMD_CLASS search_dir cls) = Some out →
     candidates out = [test_path] → test_path ≠ EmptyString →
     file_lines w test_path = Some lines →
     head (omap PACKAGE_RE_match lines) = Some package →
     ∃ merged,
       translate_test_infos w self [ident] st =
         (Return {[ merged ]},
          mkState (trace st ++ [ev_check_output (FIND_CMD_CLASS search_dir cls);
                                ev_open test_path])
                  (stdin st)) ∧
       tf_test (to_tf_dict merged) = Some name ∧
       NoDup (tf_filters (to_tf_dict merged)) ∧
       ∀ s, s ∈ tf_filters (to_tf_dict merged) ↔
            s = full_class_name +:+ "#" +:+ m1 ∨
            s = full_class_name +:+ "#" +:+ m2).
Proof.
  split; [apply elem_of_to_set_of_tf_strings|].
  split; [intros t; split; [apply NoDup_tf_filters | apply elem_of_tf_filters]|].
  intros w self name cls m1 m2 info dir dirs out test_path lines package st
    ident rc search_dir full_class_name Hdot Hdots Hslash Hname Hname_colon
    (Hcls_colon & Hcls_hash & Hcls_dot) (Hm1_colon & Hm1_hash & Hm1_comma)
    (Hm2_colon & Hm2_hash & Hm2_comma) Hget Hinst Hpath Hout Hcand Htp
    Hlines Hpkg.
  set (ms := m1 +:+ "," +:+ m2).
  assert (ident = name +:+ String ":" (cls +:+ String "#" ms)) as Hident by done.
  assert (PyStr.count "#" ms = 0%nat) as Hms_hash.
  { unfold ms. change ("," +:+ m2) with (String "," m2).
    rewrite count_app. simpl. lia. }
  assert (PyStr.count ":" (cls +:+ String "#" ms) = 0%nat) as Hrest_colon.
  { unfold ms. change ("," +:+ m2) with (String "," m2).
    rewrite count_app. simpl. rewrite count_app. simpl. lia. }
  assert (PyStr.split "," ms = [m1; m2]) as Hsplit_ms.
  { unfold ms. change ("," +:+ m2) with (String "," m2).
    by rewrite split_app, (split_no_sep _ m2). }
  set (found := mkTestInfo (Some rc) (Some name) None
                  {[ mkTestFilter full_class_name (list_to_set [m1; m2]) ]}).
  set (st' := mkState (trace st ++ [ev_check_output (FIND_CMD_CLASS search_dir cls);
                                    ev_open test_path]) (stdin st)).
  assert (_find_test_by_module_and_class w self ident st = (Return (Some found), st'))
    as Hmc.
  { unfold _find_test_by_module_and_class.
    rewrite Hident, split_app, (split_no_sep _ _ Hrest_colon) by done.
    rewrite bind_run, _find_test_by_module_name_run, Hget, Hinst, Hpath.
    cbn [module_name rel_config]. fold rc.
    rewrite (_find_test_by_class_name_in_module _ _ _ _ _ _ out test_path
               lines package); try done.
    - by rewrite Hsplit_ms.
    - by apply not_contains.
    - by destruct name.
    - apply truthy_path_join.
    - by destruct test_path. }
  assert (translate_test w self ident st = (Return found, st')) as Htr.
  { apply not_startswith in Hdot. apply not_contains in Hdots, Hslash.
    assert (PyStr.contains ":" ident = true) as Hcolon.
    { apply contains_count. rewrite Hident, count_app. simpl. lia. }
    assert (∃ rest, _get_test_reference_types ident = MODULE_CLASS :: rest)
      as [rest Hty].
    { unfold _get_test_reference_types. rewrite Hdot, Hdots, Hslash, Hcolon.
      simpl. destruct (PyStr.contains "." ident); eauto. }
    rewrite translate_test_run, Hty, _get_test_info_step. simpl.
    by rewrite Hmc. }
  assert (list_to_set [m1; m2] ≠ (∅ : gset string)) as Hne.
  { simpl. intros He. assert (m1 ∈ (∅ : gset string)) as Hin
      by (rewrite <- He; set_solver).
    by apply not_elem_of_empty in Hin. }
  exists found. split; [|split; [|split]].
  - unfold translate_test_infos. simpl. rewrite !bind_run, Htr. simpl.
    rewrite (left_id_L ∅ (∪)), elements_singleton.
    by rewrite (_flatten_test_infos_singleton found name
                  (mkTestFilter full_class_name (list_to_set [m1; m2]))).
  - reflexivity.
  - apply NoDup_tf_filters.
  - intros s. rewrite elem_of_tf_filters. unfold found. simpl. split.
    + intros (f & Hf & Hs). apply elem_of_singleton in Hf as ->.
      apply elem_of_to_set_of_tf_strings in Hs as [[He _]|(m & Hm & ->)];
        [done|]. simpl in Hm |- *.
      rewrite (right_id_L ∅ (∪)), elem_of_union, !elem_of_singleton in Hm.
      destruct Hm as [-> | ->]; auto.
    + intros Hs. eexists. split; [by apply elem_of_singleton|].
      apply elem_of_to_set_of_tf_strings. right. simpl.
      destruct Hs as [-> | ->]; [exists m1 | exists m2]; set_solver.
Qed.

(** Class [FooTest] of module [Foo] with two methods. *)
Lemma module_class_round_trip_witness :
  ∃ merged,
    translate_test_infos class_world example_translator ["Foo:FooTest#m1,m2"]
      initial_state =
      (Return {[ merged ]},
       mkState [ev_check_output (FIND_CMD_CLASS "/src/pkg/foo" "FooTest");
                ev_open "/src/pkg/foo/src/com/example/FooTest.java"] []) ∧
    tf_test (to_tf_dict merged) = Some "Foo" ∧
    NoDup (tf_filters (to_tf_dict merged)) ∧
    ∀ s, s ∈ tf_filters (to_tf_dict merged) ↔
         s = "com.example.FooTest#m1" ∨ s = "com.example.FooTest#m2".
Proof.
  apply (proj2 (proj2 module_class_round_trip) class_world example_translator
           "Foo" "FooTest" "m1" "m2"
           (mkModuleInfoEntry (Some ["pkg/foo"]) (Some ["out/Foo.apk"]))
           "pkg/foo" []
           ("/src/pkg/foo/src/com/example/FooTest.java" +:+ NL)
           "/src/pkg/foo/src/com/example/FooTest.java"
           ["// a test" +:+ NL; "package com.example;" +:+ NL;
            "public class FooTest {}" +:+ NL]
           "com.example" initial_state).
  - apply not_startswith. reflexivity.
  - apply not_contains. reflexivity.
  - apply not_contains. reflexivity.
  - discriminate.
  - reflexivity.
  - split; [reflexivity|]. split; [reflexivity|]. apply not_contains. reflexivity.
  - repeat split.
  - repeat split.
  - reflexivity.
  - reflexivity.
  - reflexivity.
  - reflexivity.
  - reflexivity.
  - discriminate.
  - reflexivity.
  - reflexivity.
Defined.

(** ** The walk up to the module directory needs no more fuel *)

Lemma length_append_string a b :
  String.length (a +:+ b) = (String.length a + String.length b)%nat.
Proof.
  induction a as [|x a IHa]; [done|]. rewrite append_String. simpl. by rewrite IHa.
Qed.

Lemma append_empty_r s : s +:+ EmptyString = s.
Proof.
  induction s as [|a s IHs]; [done|]. by rewrite append_String, IHs.
Qed.

Lemma head_tail_slash p :
  PyLib.head_to_slash p +:+ PyLib.tail_after_slash p = p.
Proof.
  induction p as [|a p IHp]; simpl; [done|].
  destruct (PyStr.contains "/" p).
  - by rewrite append_String, IHp.
  - case_decide; [by subst|done].
Qed.

Lemma head_to_slash_last p :
  PyLib.head_to_slash p ≠ EmptyString →
  PyLib.last_char (PyLib.head_to_slash p) = Some "/"%char.
Proof.
  induction p as [|a p IHp]; simpl; [done|].
  destruct (PyStr.contains "/" p) eqn:Hc.
  - intros _. assert (PyLib.head_to_slash p ≠ EmptyString) as Hne.
    { destruct p as [|b p]; [done|]. simpl in *.
      destruct (PyStr.contains "/" p); [done|].
      rewrite orb_false_r in Hc. by destruct (decide ("/"%char = b)); subst;
        [rewrite decide_True|]. }
    specialize (IHp Hne). simpl.
    by destruct (PyLib.head_to_slash p).
  - case_decide; [by subst|done].
Qed.

Lemma length_rstrip_last c s :
  PyLib.last_char s = Some c →
  (String.length (PyStr.rstrip c s) < String.length s)%nat.
Proof.
  induction s as [|a s IHs]; [done|]. intros Hl.
  destruct s as [|b s].
  - simpl in *. injection Hl as ->. rewrite decide_True by done. simpl. lia.
  - specialize (IHs Hl). change (PyStr.rstrip c (String a (String b s))) with
      (match PyStr.rstrip c (String b s) with
       | EmptyString =>
           if decide (a = c) then EmptyString else String a EmptyString
       | r => String a r
       end).
    destruct (PyStr.rstrip c (String b s)) as [|x r] eqn:Hr.
    + case_decide; simpl; lia.
    + simpl in *. lia.
Qed.

(** [dirname] shortens a path or leaves it as it is. *)
Lemma dirname_length p :
  PyLib.dirname p = p ∨
  (String.length (PyLib.dirname p) < String.length p)%nat.
Proof.
  unfold PyLib.dirname, PyLib.path_split. simpl.
  pose proof (head_tail_slash p) as Hp.
  pose proof (f_equal String.length Hp) as Hlen.
  rewrite length_append_string in Hlen.
  destruct (PyStr.truthy (PyLib.head_to_slash p)
            && negb (PyLib.all_slashes (PyLib.head_to_slash p))) eqn:Hb.
  - right. apply andb_true_iff in Hb as [Ht _].
    assert (PyLib.head_to_slash p ≠ EmptyString) as Hne
      by (by destruct (PyLib.head_to_slash p)).
    pose proof (length_rstrip_last _ _ (head_to_slash_last p Hne)). lia.
  - destruct (PyLib.tail_after_slash p) as [|b t] eqn:Ht.
    + left. by rewrite append_empty_r in Hp.
    + right. simpl in Hlen. lia.
Qed.

(** One round of the loop of [_find_parent_module_dir]. *)
Lemma find_parent_module_dir_loop_step w self fuel current_dir st :
  find_parent_module_dir_loop w self fuel current_dir st =
  if decide (current_dir = root_dir self) then (Raise TestWithNoModuleError, st)
  else
    let config := PyLib.path_join current_dir MODULE_CONFIG in
    let st' := mkState (trace st ++ [ev_isfile config]) (stdin st) in
    if isfile w config then (Return (relpath w current_dir (root_dir self)), st')
    else match fuel with
         | O => (Diverge, st')
         | S fuel' =>
             find_parent_module_dir_loop w self fuel' (PyLib.dirname current_dir) st'
         end.
Proof.
  destruct fuel; cbn [find_parent_module_dir_loop]; case_decide; try reflexivity;
    rewrite bind_run; unfold os_isfile; rewrite bind_run;
    unfold log, mret, M_ret; cbv beta iota zeta;
    by destruct (isfile w (PyLib.path_join current_dir MODULE_CONFIG)).
Qed.

(** On a directory that [dirname] leaves as it is, that is not the root
    and holds no module config, the loop never ends, whatever the fuel. *)
Lemma find_parent_module_dir_loop_stuck w self fuel current_dir st :
  PyLib.dirname current_dir = current_dir →
  current_dir ≠ root_dir self →
  isfile w (PyLib.path_join current_dir MODULE_CONFIG) = false →
  (find_parent_module_dir_loop w self fuel current_dir st).1 = Diverge.
Proof.
  intros Hfix Hroot Hfile. revert st.
  induction fuel as [|fuel IH]; intros st;
    rewrite find_parent_module_dir_loop_step, decide_False by done;
    cbv zeta; rewrite Hfile; [done|].
  rewrite Hfix. apply IH.
Qed.

(** With as much fuel as the start directory has characters the loop has
    all the fuel it can use: more fuel does not change how it ends. *)
Lemma find_parent_module_dir_loop_fuel w self fuel fuel' current_dir st :
  (String.length current_dir ≤ fuel)%nat → (fuel ≤ fuel')%nat →
  (find_parent_module_dir_loop w self fuel' current_dir st).1 =
  (find_parent_module_dir_loop w self fuel current_dir st).1.
Proof.
  revert fuel' current_dir st.
  induction fuel as [|fuel IH]; intros fuel' current_dir st Hlen Hfuel;
    rewrite (find_parent_module_dir_loop_step _ _ fuel'),
      (find_parent_module_dir_loop_step _ _ _ current_dir);
    case_decide as Hroot; try reflexivity; cbv zeta;
    destruct (isfile w (PyLib.path_join current_dir MODULE_CONFIG)) eqn:Hfile;
    try reflexivity.
  - assert (current_dir = EmptyString) as ->
      by (destruct current_dir; simpl in *; [done|lia]).
    destruct fuel' as [|fuel']; [done|].
    by rewrite find_parent_module_dir_loop_stuck.
  - destruct fuel' as [|fuel']; [lia|].
    destruct (dirname_length current_dir) as [Hfix|Hshort].
    + rewrite Hfix. by rewrite !find_parent_module_dir_loop_stuck.
    + apply IH; lia.
Qed.

(** * Further properties of the code *)

(** ** Grouping *)

(** X1: [_sort_and_group] yields one group per key of the input, no key
    twice, and the group of a key holds the elements with that key in the
    order of the input; shown for the two keys the translator groups by,
    the class name of a filter and the module name of a test info. *)
Theorem sort_and_group_partitions :
  (∀ filters : list TestFilter,
     let groups := _sort_and_group String.le class_name filters in
     NoDup groups.*1 ∧
     ∀ c g, (c, g) ∈ groups ↔
            c ∈ class_name <$> filters ∧ g = class_group c filters) ∧
  (∀ test_infos : list TestInfo,
     let groups := _sort_and_group key_le module_name test_infos in
     NoDup groups.*1 ∧
     ∀ k g, (k, g) ∈ groups ↔
            k ∈ module_name <$> test_infos ∧ g = module_group k test_infos).
Proof.
  split.
  - intros filters. exact (_sort_and_group_spec String.le class_name filters).
  - intros test_infos.
    exact (_sort_and_group_spec key_le module_name test_infos).
Qed.

(** ** The order in which a set is iterated *)

(** X2: the flattened filters depend on which filters are handed in, not
    on their order or on repetitions. *)
Theorem flatten_test_filters_order_free (l l' : list TestFilter) :
  (∀ f, f ∈ l ↔ f ∈ l') →
  _flatten_test_filters l = _flatten_test_filters l'.
Proof. apply _flatten_test_filters_ext. Qed.

Lemma flatten_test_filters_order_free_witness :
  let a := mkTestFilter "A" {["m1"]} in
  let b := mkTestFilter "B" ∅ in
  (∀ f, f ∈ [a; b] ↔ f ∈ [b; a; b]) ∧
  _flatten_test_filters [a; b] = _flatten_test_filters [b; a; b].
Proof.
  intros a b.
  assert (∀ f, f ∈ [a; b] ↔ f ∈ [b; a; b]) as H.
  { intros f. rewrite !elem_of_cons, !elem_of_nil. tauto. }
  split; [exact H|]. apply (flatten_test_filters_order_free _ _ H).
Defined.

Lemma flatten_info_group_filters_perm rc rc' g g' :
  g ≡ₚ g' →
  (flatten_info_group rc ∅ g).2 = (flatten_info_group rc' ∅ g').2.
Proof.
  intros Hp.
  destruct (decide (Exists (λ t, filters t = ∅) g)) as [He|He].
  - apply Exists_exists in He as (t & Ht & He).
    rewrite (flatten_info_group_whole rc ∅ g) by (by exists t).
    rewrite (flatten_info_group_whole rc' ∅ g'); [done|].
    exists t. by rewrite <- Hp.
  - rewrite <- Forall_Exists_neg, Forall_forall in He.
    rewrite (flatten_info_group_union rc ∅ g) by done.
    rewrite (flatten_info_group_union rc' ∅ g');
      [|intros t Ht; apply He; by rewrite Hp].
    f_equal. apply set_eq. intros f. rewrite !elem_of_union_list.
    by setoid_rewrite Hp.
Qed.

Lemma flatten_info_group_common_config rc acc g c :
  g ≠ [] → (∀ t, t ∈ g → rel_config t = c) →
  (flatten_info_group rc acc g).1 = c.
Proof.
  intros Hne Hc.
  destruct (flatten_info_group_rel_config rc acc g Hne) as (t & Ht & ->).
  by apply Hc.
Qed.

(** X3: when the test infos of one module all name the same config, as
    the code expects them to, the flattened test infos do not depend on the
    order in which the set is iterated.  Nothing is asked of the test infos
    without a module name, the integration tests. *)
Theorem flatten_test_infos_order_free (l l' : list TestInfo) :
  l ≡ₚ l' →
  (∀ m t1 t2, t1 ∈ l → t2 ∈ l →
              module_name t1 = Some m → module_name t2 = Some m →
              rel_config t1 = rel_config t2) →
  _flatten_test_infos l = _flatten_test_infos l'.
Proof.
  intros Hp Hcfg.
  assert (∀ m, Some m ∈ module_name <$> l →
            merged_info m (module_group (Some m) l)
            = merged_info m (module_group (Some m) l')) as Hmerged.
  { intros m Hm. apply list_elem_of_fmap in Hm as (t0 & Hm0 & Ht0).
    assert (module_group (Some m) l ≡ₚ module_group (Some m) l') as Hg
      by (unfold module_group; by rewrite Hp).
    assert (t0 ∈ module_group (Some m) l) as Hin
      by (by apply elem_of_module_group).
    assert (module_group (Some m) l ≠ []) as Hne
      by (intros E; rewrite E in Hin; by apply elem_of_nil in Hin).
    assert (module_group (Some m) l' ≠ []) as Hne'.
    { intros E. rewrite E in Hg. by apply Permutation_nil_r in Hg. }
    unfold merged_info.
    pose proof (flatten_info_group_filters_perm None None _ _ Hg) as Hfs.
    pose proof (flatten_info_group_common_config None ∅
                  (module_group (Some m) l) (rel_config t0) Hne) as Hrc.
    pose proof (flatten_info_group_common_config None ∅
                  (module_group (Some m) l') (rel_config t0) Hne') as Hrc'.
    destruct (flatten_info_group None ∅ (module_group (Some m) l)) as [rc fs].
    destruct (flatten_info_group None ∅ (module_group (Some m) l')) as [rc' fs'].
    simpl in *. subst fs'. rewrite Hrc, Hrc'; [done|..].
    - intros t Ht. rewrite <- Hg in Ht.
      apply elem_of_module_group in Ht as [Ht Hmod]. by apply (Hcfg m).
    - intros t Ht. apply elem_of_module_group in Ht as [Ht Hmod].
      by apply (Hcfg m). }
  apply set_eq. intros t. rewrite !elem_of__flatten_test_infos.
  assert (∀ m, Some m ∈ module_name <$> l ↔ Some m ∈ module_name <$> l') as Hmods
    by (intros m; by rewrite Hp).
  split.
  - intros [[Hn Ht]|(m & Hm & ->)]; [left; by rewrite <- Hp|].
    right. exists m. split; [by apply Hmods|by apply Hmerged].
  - intros [[Hn Ht]|(m & Hm & ->)]; [left; by rewrite Hp|].
    apply Hmods in Hm. right. exists m. split; [done|]. symmetry. by apply Hmerged.
Qed.

(** Two test infos of one module, and two integration tests with configs
    of their own. *)
Lemma flatten_test_infos_order_free_witness :
  let t1 := mkTestInfo (Some "a/AndroidTest.xml") (Some "M") None
              {[ mkTestFilter "A" {["m1"]} ]} in
  let t2 := mkTestInfo (Some "a/AndroidTest.xml") (Some "M") None
              {[ mkTestFilter "B" ∅ ]} in
  let i1 := mkTestInfo (Some "tf/res/config/one.xml") None (Some "one") ∅ in
  let i2 := mkTestInfo (Some "tf/res/config/two.xml") None (Some "two") ∅ in
  _flatten_test_infos [t1; t2; i1; i2] = _flatten_test_infos [t2; t1; i1; i2].
Proof.
  intros t1 t2 i1 i2. apply flatten_test_infos_order_free.
  - apply Permutation_swap.
  - intros m x y Hx Hy Hmx Hmy.
    repeat (apply elem_of_cons in Hx as [->|Hx]);
      try (by apply elem_of_nil in Hx); try discriminate Hmx;
      repeat (apply elem_of_cons in Hy as [->|Hy]);
      try (by apply elem_of_nil in Hy); try discriminate Hmy; reflexivity.
Defined.

(** ** Splitting off the methods *)

Lemma join_split c s : PyStr.join (String c EmptyString) (PyStr.split c s) = s.
Proof.
  induction s as [|a s IHs]; [done|]. simpl.
  destruct (split_cons_inv c s) as (h & t & Hs). rewrite Hs in IHs |- *.
  case_decide as Hac.
  - subst a. change (PyStr.join (String c EmptyString) (EmptyString :: h :: t))
      with (EmptyString +:+ String c EmptyString
            +:+ PyStr.join (String c EmptyString) (h :: t)).
    by rewrite IHs.
  - destruct t as [|h' t]; simpl in *; [by rewrite IHs|].
    by rewrite append_String, IHs.
Qed.

Lemma split_pieces c s : Forall (λ p, PyStr.count c p = 0%nat) (PyStr.split c s).
Proof.
  induction s as [|a s IHs]; simpl; [by repeat constructor|].
  case_decide as Hac; [by constructor|].
  destruct (PyStr.split c s) as [|h t]; [by repeat constructor; simpl; rewrite decide_False|].
  apply Forall_cons in IHs as [Hh Ht]. constructor; [|done].
  simpl. by rewrite decide_False.
Qed.

Lemma split_two c s :
  PyStr.count c s = 1%nat →
  ∃ a b, PyStr.split c s = [a; b] ∧ s = a +:+ String c b ∧
         PyStr.count c a = 0%nat ∧ PyStr.count c b = 0%nat.
Proof.
  intros Hc. pose proof (length_split c s) as Hl. rewrite Hc in Hl.
  pose proof (join_split c s) as Hj. pose proof (split_pieces c s) as Hp.
  destruct (PyStr.split c s) as [|a [|b [|? ?]]]; simpl in Hl; try lia.
  exists a, b. apply Forall_cons in Hp as [Ha Hp].
  apply Forall_cons in Hp as [Hb _]. by rewrite <- Hj.
Qed.

(** X4: [_split_methods] looks at the number of [#] only and touches
    nothing outside the program.  Without a [#] the whole input is the
    reference and there are no methods; with one [#] the input is cut there
    and the methods are the commas' pieces of what follows, a set that is
    never empty (so a trailing [#] names one method, the empty one); with
    more the input is refused. *)
Theorem split_methods_cases (user_input : string) (st : State) :
  (PyStr.count "#" user_input = 0%nat →
   _split_methods user_input st = (Return (user_input, ∅), st)) ∧
  (PyStr.count "#" user_input = 1%nat →
   ∃ ref ms,
     user_input = ref +:+ "#" +:+ ms ∧
     _split_methods user_input st
       = (Return (ref, list_to_set (PyStr.split "," ms)), st) ∧
     (list_to_set (PyStr.split "," ms) : gset string) ≠ ∅ ∧
     (ms = EmptyString →
      (list_to_set (PyStr.split "," ms) : gset string) = {[ EmptyString ]})) ∧
  ((2 ≤ PyStr.count "#" user_input)%nat →
   _split_methods user_input st = (Raise TooManyMethodsError, st)).
Proof.
  split; [|split].
  - intros Hc. unfold _split_methods. by rewrite split_no_sep.
  - intros Hc. destruct (split_two _ _ Hc) as (ref & ms & Hs & -> & Href & Hms).
    exists ref, ms. split; [done|]. split; [|split].
    + unfold _split_methods. by rewrite Hs.
    + destruct (split_cons_inv "," ms) as (h & t & ->). simpl.
      intros He. assert (h ∈ (∅ : gset string)) as Hin
        by (rewrite <- He; apply elem_of_union_l; by apply elem_of_singleton).
      by apply not_elem_of_empty in Hin.
    + intros ->. simpl. by rewrite (right_id_L ∅ (∪)).
  - intros Hc. by rewrite _split_methods_too_many.
Qed.

(** A class with a trailing [#]. *)
Lemma split_methods_cases_witness :
  ∃ ref ms,
    "FooTest#" = ref +:+ "#" +:+ ms ∧
    _split_methods "FooTest#" initial_state
      = (Return (ref, list_to_set (PyStr.split "," ms)), initial_state) ∧
    (list_to_set (PyStr.split "," ms) : gset string) ≠ ∅ ∧
    (ms = EmptyString →
     (list_to_set (PyStr.split "," ms) : gset string) = {[ EmptyString ]}).
Proof.
  apply (proj1 (proj2 (split_methods_cases "FooTest#" initial_state))).
  reflexivity.
Defined.

(** ** Reference types without a function *)

(** X5: the reference types that have no function are passed over: the
    answer for a list of reference types is the answer for the list without
    them. *)
Theorem get_test_info_skips_unsupported w self test_name reference_types st :
  _get_test_info w self test_name reference_types st =
  _get_test_info w self test_name (filter supported reference_types) st.
Proof.
  revert st. induction reference_types as [|ty types IH]; intros st; [done|].
  destruct (decide (supported ty)) as [Hs|Hs].
  - rewrite filter_cons_True by done. rewrite !_get_test_info_step.
    destruct (ref_type_to_func_map w self ty) as [func|].
    + destruct (func test_name st) as [[[found|]|e|] st']; try done.
      by case_decide.
    + by rewrite decide_True.
  - rewrite filter_cons_False by done. rewrite _get_test_info_step.
    assert (ref_type_to_func_map w self ty = None) as ->.
    { destruct ty; try done; exfalso; apply Hs; by repeat split. }
    by rewrite decide_True.
Qed.

(** X6: an installed module whose entry in the index has no [path] makes
    the module lookup raise [KeyError]; [_get_test_info] takes that for a
    reference type without a function and goes on with the next one. *)
Theorem module_without_path_is_passed_over w self name info reference_types st :
  dict_get (module_info self) name = Some info →
  installed_truthy info = true → info_path info = None →
  _find_test_by_module_name self name st = (Raise KeyError, st) ∧
  _get_test_info w self name (MODULE :: reference_types) st
    = _get_test_info w self name reference_types st.
Proof.
  intros Hget Hinst Hpath.
  assert (_find_test_by_module_name self name st = (Raise KeyError, st)) as Hmod
    by (by rewrite _find_test_by_module_name_run, Hget, Hinst, Hpath).
  split; [done|]. rewrite _get_test_info_step. simpl. by rewrite Hmod.
Qed.

Lemma module_without_path_is_passed_over_witness :
  let self :=
    mkCLITranslator "/src"
      [("Bar", mkModuleInfoEntry None (Some ["out/Bar.apk"]))] [] in
  _find_test_by_module_name self "Bar" initial_state
    = (Raise KeyError, initial_state) ∧
  _get_test_info empty_world self "Bar" [MODULE] initial_state
    = _get_test_info empty_world self "Bar" [] initial_state.
Proof.
  intros self.
  apply (module_without_path_is_passed_over empty_world self "Bar"
           (mkModuleInfoEntry None (Some ["out/Bar.apk"])) [] initial_state);
    reflexivity.
Defined.

(** ** The output of a find command *)

(** X7: what [_extract_test_path] does without asking.  Empty output is
    no test.  Output with one line is that line, and neither the terminal
    nor anything else is touched.  Output that is not empty never gives
    [None]: output of newlines only gives the empty string. *)
Theorem extract_test_path_unambiguous (output : string) (st : State) :
  (output = EmptyString → _extract_test_path output st = (Return None, st)) ∧
  (∀ test, output ≠ EmptyString → candidates output = [test] →
           _extract_test_path output st = (Return (Some test), st)) ∧
  (∀ r st', output ≠ EmptyString →
            _extract_test_path output st = (Return r, st') → r ≠ None) ∧
  (output = NL → _extract_test_path output st = (Return (Some EmptyString), st)).
Proof.
  split; [by intros ->|]. split; [|split].
  - intros test Hne Hc. apply _extract_test_path_single; [by destruct output|done].
  - intros r st' Hne. unfold _extract_test_path.
    assert (PyStr.truthy output = true) as -> by (by destruct output).
    cbn [negb]. rewrite bind_run.
    destruct (_ st) as [[i| |] st1]; [|done..].
    rewrite bind_run. unfold or_raise.
    destruct (PyLib.index _ i); [|done]. by intros [= <- _].
  - by intros ->.
Qed.

Lemma extract_test_path_unambiguous_witness :
  _extract_test_path ("/src/a/Foo.java" +:+ NL) initial_state
    = (Return (Some "/src/a/Foo.java"), initial_state).
Proof.
  apply (proj1 (proj2 (extract_test_path_unambiguous
                         ("/src/a/Foo.java" +:+ NL) initial_state)));
    [discriminate|reflexivity].
Defined.

(** ** Directories inside directories *)

Lemma commonprefix_eq a b :
  PyLib.commonprefix a b = b ↔ PyStr.startswith b a = true.
Proof.
  revert a. induction b as [|y b IHb]; intros [|x a]; simpl; try done.
  destruct (decide (x = y)) as [->|Hxy].
  - rewrite decide_True by done. rewrite <- IHb.
    split; [by intros [= ->]|by intros ->].
  - rewrite decide_False by done. split; [by intros [= H]|done].
Qed.

Lemma os_realpath_run w path st :
  os_realpath w path st
    = (Return (realpath w path),
       mkState (trace st ++ [ev_realpath path]) (stdin st)).
Proof. reflexivity. Qed.

Lemma os_isdir_run w path st :
  os_isdir w path st
    = (Return (isdir w path), mkState (trace st ++ [ev_isdir path]) (stdin st)).
Proof. reflexivity. Qed.

Lemma os_isfile_run w path st :
  os_isfile w path st
    = (Return (isfile w path), mkState (trace st ++ [ev_isfile path]) (stdin st)).
Proof. reflexivity. Qed.

Lemma os_exists_run w path st :
  os_exists w path st
    = (Return (path_exists w path),
       mkState (trace st ++ [ev_exists path]) (stdin st)).
Proof. reflexivity. Qed.

(** One call to the world at the head of a computation. *)
Ltac os_step :=
  rewrite bind_run;
  first [ rewrite os_realpath_run | rewrite os_isdir_run
        | rewrite os_isfile_run | rewrite os_exists_run ];
  cbv beta iota.

Lemma _is_equal_or_sub_dir_run w sub_dir parent_dir st :
  _is_equal_or_sub_dir w sub_dir parent_dir st =
  (Return (inside_dir w sub_dir parent_dir),
   mkState (trace st ++ is_equal_or_sub_dir_calls w sub_dir parent_dir)
           (stdin st)).
Proof.
  unfold _is_equal_or_sub_dir, is_equal_or_sub_dir_calls, inside_dir.
  do 3 os_step. cbn [trace stdin].
  destruct (isdir w (realpath w sub_dir)); cbn [negb andb].
  - os_step. cbn [trace stdin].
    destruct (isdir w (realpath w parent_dir)); cbn [negb andb];
      unfold mret, M_ret; rewrite <- !app_assoc; cbn [app]; [|done].
    f_equal. f_equal.
    destruct (PyStr.startswith _ _) eqn:Hs.
    + apply bool_decide_eq_true. by apply commonprefix_eq.
    + apply bool_decide_eq_false. rewrite commonprefix_eq. by rewrite Hs.
  - unfold mret, M_ret. by rewrite <- !app_assoc.
Qed.

(** X8: [_is_equal_or_sub_dir] always answers, after resolving both
    paths and asking whether they are directories, and says yes exactly
    when both resolved paths are directories and the text of the resolved
    parent is how the text of the resolved sub directory starts. *)
Theorem is_equal_or_sub_dir_spec w sub_dir parent_dir st :
  ∃ answer,
    _is_equal_or_sub_dir w sub_dir parent_dir st
      = (Return answer,
         mkState (trace st ++ is_equal_or_sub_dir_calls w sub_dir parent_dir)
                 (stdin st)) ∧
    (answer = true ↔
     isdir w (realpath w sub_dir) = true ∧
     isdir w (realpath w parent_dir) = true ∧
     starts_with (realpath w parent_dir) (realpath w sub_dir)).
Proof.
  eexists. split; [apply _is_equal_or_sub_dir_run|].
  unfold inside_dir. rewrite !andb_true_iff, startswith_spec. tauto.
Qed.

(** ** The walk up to the module directory *)

Lemma ancestor_S k dir : ancestor (S k) dir = ancestor k (PyLib.dirname dir).
Proof. unfold ancestor. apply Nat.iter_succ_r. Qed.

Lemma ancestor_fixed k dir : PyLib.dirname dir = dir → ancestor k dir = dir.
Proof.
  intros Hfix. induction k as [|k IHk]; [done|]. by rewrite ancestor_S, Hfix.
Qed.

(** After as many steps as the start has characters the walk stands still. *)
Lemma ancestor_stuck n k dir :
  (String.length dir ≤ n)%nat → (n ≤ k)%nat → ancestor k dir = ancestor n dir.
Proof.
  revert k dir. induction n as [|n IHn]; intros k dir Hlen Hk.
  - assert (dir = EmptyString) as -> by (destruct dir; simpl in *; [done|lia]).
    by rewrite ancestor_fixed.
  - destruct k as [|k]; [lia|]. rewrite !ancestor_S.
    destruct (dirname_length dir) as [Hfix|Hshort].
    + rewrite Hfix. by rewrite !ancestor_fixed.
    + apply IHn; lia.
Qed.

Lemma walk_clear_S w self k dir :
  dir ≠ root_dir self →
  isfile w (PyLib.path_join dir MODULE_CONFIG) = false →
  walk_clear w self k (PyLib.dirname dir) → walk_clear w self (S k) dir.
Proof.
  intros Hroot Hfile Hclear [|j] Hj; [done|].
  rewrite ancestor_S. apply Hclear. lia.
Qed.

(** How the loop ends, whatever the fuel. *)
Lemma find_parent_module_dir_loop_ends w self fuel current_dir st :
  match (find_parent_module_dir_loop w self fuel current_dir st).1 with
  | Return r =>
      ∃ k, walk_clear w self k current_dir ∧
           ancestor k current_dir ≠ root_dir self ∧
           isfile w (PyLib.path_join (ancestor k current_dir) MODULE_CONFIG)
             = true ∧
           r = relpath w (ancestor k current_dir) (root_dir self)
  | Raise e =>
      e = TestWithNoModuleError ∧
      ∃ k, walk_clear w self k current_dir ∧
           ancestor k current_dir = root_dir self
  | Diverge => walk_clear w self (S fuel) current_dir
  end.
Proof.
  revert current_dir st. induction fuel as [|fuel IH]; intros dir st;
    rewrite find_parent_module_dir_loop_step;
    (case_decide as Hroot;
       [simpl; split; [done|]; exists 0%nat; split; [intros j Hj; lia|done]|]);
    cbv zeta;
    (destruct (isfile w (PyLib.path_join dir MODULE_CONFIG)) eqn:Hfile;
       [simpl; exists 0%nat; split; [intros j Hj; lia|done]|]).
  - simpl. intros j Hj. assert (j = 0)%nat as -> by lia. done.
  - specialize (IH (PyLib.dirname dir)
                  (mkState (trace st ++ [ev_isfile (PyLib.path_join dir MODULE_CONFIG)])
                           (stdin st))).
    destruct (find_parent_module_dir_loop _ _ _ _ _) as [[r|e|] st']; simpl in *.
    + destruct IH as (k & Hclear & Hk & Hf & ->). exists (S k).
      rewrite ancestor_S. split; [by apply walk_clear_S|done].
    + destruct IH as (-> & k & Hclear & Hk). split; [done|]. exists (S k).
      rewrite ancestor_S. split; [by apply walk_clear_S|done].
    + by apply walk_clear_S.
Qed.

(** X9: [_find_parent_module_dir] refuses a start that is not inside the
    root with [ValueError].  Otherwise it walks up from the start, one
    [dirname] at a time: it answers with the first directory on the way
    that holds a module config, relative to the root, when that comes
    before the root; it raises [TestWithNoModuleError] when the root comes
    first; and it goes on forever only when the way up never meets the root
    or a module config. *)
Theorem find_parent_module_dir_nearest w self start_dir st :
  match (_find_parent_module_dir w self start_dir st).1 with
  | Return r =>
      inside_dir w start_dir (root_dir self) = true ∧
      ∃ k, walk_clear w self k start_dir ∧
           ancestor k start_dir ≠ root_dir self ∧
           isfile w (PyLib.path_join (ancestor k start_dir) MODULE_CONFIG)
             = true ∧
           r = relpath w (ancestor k start_dir) (root_dir self)
  | Raise e =>
      (e = ValueError ∧ inside_dir w start_dir (root_dir self) = false) ∨
      (e = TestWithNoModuleError ∧
       inside_dir w start_dir (root_dir self) = true ∧
       ∃ k, walk_clear w self k start_dir ∧
            ancestor k start_dir = root_dir self)
  | Diverge =>
      inside_dir w start_dir (root_dir self) = true ∧
      ∀ k, walk_clear w self k start_dir
  end.
Proof.
  unfold _find_parent_module_dir. rewrite bind_run, _is_equal_or_sub_dir_run.
  destruct (inside_dir w start_dir (root_dir self)) eqn:Hin; cbn [negb];
    [|simpl; by left].
  pose proof (find_parent_module_dir_loop_ends w self (String.length start_dir)
                start_dir
                (mkState (trace st ++ is_equal_or_sub_dir_calls w start_dir
                                        (root_dir self)) (stdin st))) as Hends.
  destruct (find_parent_module_dir_loop _ _ _ _ _) as [[r|e|] st']; simpl in *.
  - done.
  - right. by destruct Hends as (-> & Hk).
  - split; [done|]. intros k j Hj.
    destruct (decide (j ≤ String.length start_dir)%nat) as [Hle|Hgt].
    + apply Hends. lia.
    + rewrite (ancestor_stuck (String.length start_dir)) by lia.
      apply Hends. lia.
Qed.

(** The source directory of module [Foo]: its module directory is one
    level up. *)
Example find_parent_module_dir_example :
  (_find_parent_module_dir module_world example_translator "/src/pkg/foo/src"
     initial_state).1 = Return "pkg/foo".
Proof. reflexivity. Qed.

(** ** From a module directory to its name *)

Lemma get_module_name_loop_cases items rel_module_path st :
  match get_module_name_loop items rel_module_path st with
  | (Return name, st') =>
      st' = st ∧
      ∃ info dirs, (name, info) ∈ items ∧
                   info_path info = Some (rel_module_path :: dirs) ∧
                   installed_truthy info = true
  | (Raise e, st') =>
      st' = st ∧
      ((e = UnregisteredModuleError ∧
        ∀ name info dirs, (name, info) ∈ items →
          info_path info = Some (rel_module_path :: dirs) →
          installed_truthy info = false) ∨
       (e = IndexError ∧
        ∃ name info, (name, info) ∈ items ∧
          (info_path info = None ∨ info_path info = Some [])))
  | (Diverge, _) => False
  end.
Proof.
  induction items as [|[name info] items IH]; simpl.
  - split; [done|]. left. split; [done|]. intros ? ? ? Hin. by apply elem_of_nil in Hin.
  - rewrite bind_run. unfold or_raise.
    destruct (info_path info) as [[|dir dirs]|] eqn:Hpath; simpl.
    + split; [done|]. right. split; [done|]. exists name, info. split; [left|auto].
    + destruct (bool_decide (rel_module_path = dir) && installed_truthy info) eqn:Hb.
      * apply andb_true_iff in Hb as [Hd Hi]. apply bool_decide_eq_true in Hd as ->.
        simpl. split; [done|]. exists info, dirs. split; [left|done].
      * destruct (get_module_name_loop items rel_module_path st)
          as [[name'|e|] st']; [| |done].
        -- destruct IH as (-> & info' & dirs' & Hin & Hp & Hi). split; [done|].
           exists info', dirs'. split; [by right|done].
        -- destruct IH as (-> & [[-> Hnone]|[-> (n & i & Hin & Hp)]]);
             (split; [done|]); [left|right]; (split; [done|]).
           ++ intros n i ds Hin Hp. apply elem_of_cons in Hin as [[= -> ->]|Hin];
                [|by eapply Hnone].
              rewrite Hpath in Hp. injection Hp as -> ->.
              by rewrite bool_decide_eq_true_2 in Hb.
           ++ exists n, i. split; [by right|done].
    + split; [done|]. right. split; [done|]. exists name, info. split; [left|auto].
Qed.

(** X10: [_get_module_name] reads the index only.  A name it returns is
    that of an installed module whose first path is the directory asked
    for.  [UnregisteredModuleError] means that there is no such module, and
    the only other way to end is the [IndexError] of an entry without a
    path. *)
Theorem get_module_name_cases self rel_module_path st :
  match _get_module_name self rel_module_path st with
  | (Return name, st') =>
      st' = st ∧
      ∃ info dirs, (name, info) ∈ module_info self ∧
                   info_path info = Some (rel_module_path :: dirs) ∧
                   installed_truthy info = true
  | (Raise e, st') =>
      st' = st ∧
      ((e = UnregisteredModuleError ∧
        ∀ name info dirs, (name, info) ∈ module_info self →
          info_path info = Some (rel_module_path :: dirs) →
          installed_truthy info = false) ∨
       (e = IndexError ∧
        ∃ name info, (name, info) ∈ module_info self ∧
          (info_path info = None ∨ info_path info = Some [])))
  | (Diverge, _) => False
  end.
Proof. apply get_module_name_loop_cases. Qed.

Lemma dict_get_elem {V} (d : list (string * V)) k v :
  NoDup d.*1 → (k, v) ∈ d → dict_get d k = Some v.
Proof.
  induction d as [|[k' v'] d IHd]; intros Hnd Hin; [by apply elem_of_nil in Hin|].
  simpl in *. apply NoDup_cons in Hnd as [Hk' Hnd].
  apply elem_of_cons in Hin as [[= -> ->]|Hin]; [by rewrite decide_True|].
  rewrite decide_False; [by apply IHd|].
  intros ->. apply Hk'. apply list_elem_of_fmap. by exists (k, v).
Qed.

(** X11: directory and name go together.  In an index in which no name
    occurs twice, the name that [_get_module_name] gives for a directory is
    one that [_find_test_by_module_name] finds, with the module config of
    that very directory. *)
Theorem module_name_round_trip self rel_module_path name st :
  NoDup (module_info self).*1 →
  _get_module_name self rel_module_path st = (Return name, st) →
  _find_test_by_module_name self name st =
  (Return (Some (mkTestInfo
                   (Some (PyLib.path_join rel_module_path MODULE_CONFIG))
                   (Some name) None ∅)), st).
Proof.
  intros Hnd Hname.
  pose proof (get_module_name_loop_cases (module_info self) rel_module_path st)
    as Hcases.
  unfold _get_module_name in Hname. rewrite Hname in Hcases.
  destruct Hcases as (_ & info & dirs & Hin & Hpath & Hinst).
  rewrite _find_test_by_module_name_run, (dict_get_elem _ _ _ Hnd Hin).
  by rewrite Hinst, Hpath.
Qed.

Lemma module_name_round_trip_witness :
  _find_test_by_module_name example_translator "Foo" initial_state =
  (Return (Some (mkTestInfo (Some (PyLib.path_join "pkg/foo" MODULE_CONFIG))
                            (Some "Foo") None ∅)), initial_state).
Proof.
  apply (module_name_round_trip example_translator "pkg/foo" "Foo" initial_state).
  - simpl. apply NoDup_singleton.
  - reflexivity.
Defined.

(** ** Paths *)

Lemma find_int_dir_result w self dirs dir_path st :
  ∃ st',
    find_int_dir w self dirs dir_path st =
    (Return (PyLib.path_join (root_dir self) <$>
             head (filter (λ d, inside_dir w dir_path
                                  (PyLib.path_join (root_dir self) d) = true)
                          dirs)), st').
Proof.
  revert st. induction dirs as [|d dirs IH]; intros st; simpl; [by eauto|].
  rewrite bind_run, _is_equal_or_sub_dir_run.
  destruct (inside_dir w dir_path (PyLib.path_join (root_dir self) d)) eqn:Hin.
  - rewrite filter_cons_True by done. simpl. eauto.
  - rewrite filter_cons_False by (by rewrite Hin). apply IH.
Qed.

Lemma truthy_path_join_root root d :
  root ≠ EmptyString → PyStr.truthy (PyLib.path_join root d) = true.
Proof.
  intros Hroot. unfold PyLib.path_join.
  destruct (PyStr.startswith "/" d) eqn:Hs; [by destruct d|].
  destruct (bool_decide (root = EmptyString) || PyStr.endswith "/" root);
    by destruct root.
Qed.

(** X12: a path that does not exist is no test.  After the methods are
    split off, the path is resolved and looked for, and nothing else is
    touched. *)
Theorem find_test_by_path_missing w self path ref methods st :
  _split_methods path st = (Return (ref, methods), st) →
  path_exists w (realpath w ref) = false →
  _find_test_by_path w self path st =
  (Return None,
   mkState (trace st ++ [ev_realpath ref; ev_exists (realpath w ref)])
           (stdin st)).
Proof.
  intros Hsplit Hex. unfold _find_test_by_path.
  rewrite bind_run, Hsplit. cbv beta iota. do 2 os_step.
  rewrite Hex. cbn [negb trace stdin]. unfold mret, M_ret.
  by rewrite <- app_assoc.
Qed.

Lemma find_test_by_path_missing_witness :
  _find_test_by_path empty_world example_translator "no/such/FooTest.java#m1"
    initial_state =
  (Return None,
   mkState [ev_realpath "no/such/FooTest.java";
            ev_exists "no/such/FooTest.java"] []).
Proof.
  apply (find_test_by_path_missing empty_world example_translator
           "no/such/FooTest.java#m1" "no/such/FooTest.java" {["m1"]}
           initial_state); reflexivity.
Defined.

(** X13: a path inside an integration directory.  A directory there is
    refused; a file there is the integration test whose name is read off
    its path relative to the root, and nothing is found when no name can be
    read off.  Methods given with the path are dropped: the test info has
    no filters. *)
Theorem find_test_by_path_in_integration_dir w self path ref methods int_dir st :
  root_dir self ≠ EmptyString →
  _split_methods path st = (Return (ref, methods), st) →
  path_exists w (realpath w ref) = true →
  let real := realpath w ref in
  let rel_config := relpath w real (root_dir self) in
  (isfile w real = false → int_dir_of w self real = Some int_dir →
   (_find_test_by_path w self path st).1 = Return None) ∧
  (isfile w real = true →
   int_dir_of w self (PyLib.path_split real).1 = Some int_dir →
   (PyLib.path_split real).2 ≠ EmptyString →
   (_find_test_by_path w self path st).1 =
   Return (match INT_NAME_RE_match rel_config with
           | Some int_name =>
               Some (mkTestInfo (Some rel_config) None (Some int_name) ∅)
           | None => None
           end)).
Proof.
  intros Hroot Hsplit Hex real rel_config.
  assert (∀ dir_path, int_dir_of w self dir_path = Some int_dir →
            PyStr.truthy int_dir = true) as Htruthy.
  { unfold int_dir_of. intros dir_path Hd.
    destruct (head _) as [d|]; [|done]. injection Hd as <-.
    by apply truthy_path_join_root. }
  split.
  - intros Hfile Hint. unfold _find_test_by_path.
    rewrite bind_run, Hsplit. cbv beta iota. do 2 os_step.
    rewrite Hex. cbn [negb]. os_step. fold real. rewrite Hfile.
    cbv beta iota. rewrite bind_run.
    match goal with
    | |- context [find_int_dir w self ?ds ?dp ?s] =>
        destruct (find_int_dir_result w self ds dp s) as [st' ->]
    end.
    fold (int_dir_of w self real). rewrite Hint. simpl.
    by rewrite (Htruthy real Hint).
  - intros Hfile Hint Hname. unfold _find_test_by_path.
    rewrite bind_run, Hsplit. cbv beta iota. do 2 os_step.
    rewrite Hex. cbn [negb]. os_step. fold real. rewrite Hfile.
    cbv beta iota. rewrite bind_run.
    match goal with
    | |- context [find_int_dir w self ?ds ?dp ?s] =>
        destruct (find_int_dir_result w self ds dp s) as [st' ->]
    end.
    fold (int_dir_of w self (PyLib.path_split real).1). rewrite Hint. simpl.
    rewrite (Htruthy _ Hint).
    change (PyLib.path_split real).2 with (PyLib.tail_after_slash real) in Hname.
    assert (PyStr.truthy (PyLib.tail_after_slash real) = true) as ->
      by (by destruct (PyLib.tail_after_slash real)).
    simpl. fold rel_config.
    by destruct (INT_NAME_RE_match rel_config).
Qed.

(** The config file [Foo.xml] of the example tree, given with a method. *)
Lemma find_test_by_path_in_integration_dir_witness :
  (_find_test_by_path config_world example_translator
     "/src/tools/tradefederation/core/res/config/Foo.xml#m1" initial_state).1 =
  Return (Some (mkTestInfo
                  (Some "tools/tradefederation/core/res/config/Foo.xml")
                  None (Some "Foo") ∅)).
Proof.
  apply (proj2 (find_test_by_path_in_integration_dir config_world
                  example_translator
                  "/src/tools/tradefederation/core/res/config/Foo.xml#m1"
                  "/src/tools/tradefederation/core/res/config/Foo.xml"
                  {["m1"]} "/src/tools/tradefederation/core" initial_state
                  ltac:(discriminate) eq_refl eq_refl));
    [reflexivity|reflexivity|discriminate].
Defined.

(** ** Class names *)

Lemma _find_class_file_cmd w class_name search_dir st :
  _find_class_file w class_name search_dir st =
  (os_check_output w (class_find_cmd search_dir class_name)
   ≫= _extract_test_path) st.
Proof.
  unfold _find_class_file, class_find_cmd.
  by destruct (PyStr.contains "." class_name).
Qed.

(** X14: a class that no file is found for is no test.  Without a module
    to look in, the whole tree below the root is searched by one find,
    by file name for a plain class name and by path for a dotted one, and
    when it prints nothing, nothing else is touched. *)
Theorem find_test_by_class_name_no_match w self class_name ref methods st :
  _split_methods class_name st = (Return (ref, methods), st) →
  check_output w (class_find_cmd (root_dir self) ref) = Some EmptyString →
  _find_test_by_class_name w self class_name None None st =
  (Return None,
   mkState (trace st ++ [ev_check_output (class_find_cmd (root_dir self) ref)])
           (stdin st)).
Proof.
  intros Hsplit Hout. unfold _find_test_by_class_name.
  rewrite bind_run, Hsplit. cbv beta iota.
  rewrite bind_run, _find_class_file_cmd, bind_run.
  by rewrite (os_check_output_run _ _ EmptyString).
Qed.

Lemma find_test_by_class_name_no_match_witness :
  _find_test_by_class_name empty_world example_translator
    "com.example.FooTest#m1" None None initial_state =
  (Return None,
   mkState [ev_check_output
              (FIND_CMD_QUALIFIED_CLASS "/src" "com/example/FooTest")] []).
Proof.
  apply (find_test_by_class_name_no_match empty_world example_translator
           "com.example.FooTest#m1" "com.example.FooTest" {["m1"]}
           initial_state); reflexivity.
Defined.

(** X15: a class file without a package line.  When the find lists one
    file and no line of it declares a package, the class strategy ends
    with [MissingPackageNameError] right after reading the file; the module
    of the file is not looked for. *)
Theorem find_test_by_class_name_no_package w self class_name ref methods out
    test_path lines module rel_config st :
  _split_methods class_name st = (Return (ref, methods), st) →
  let search_dir :=
    if opt_truthy rel_config
    then PyLib.path_join (root_dir self) (PyLib.dirname (default EmptyString rel_config))
    else root_dir self in
  check_output w (class_find_cmd search_dir ref) = Some out →
  candidates out = [test_path] → test_path ≠ EmptyString →
  file_lines w test_path = Some lines →
  Forall (λ line, PACKAGE_RE_match line = None) lines →
  _find_test_by_class_name w self class_name module rel_config st =
  (Raise MissingPackageNameError,
   mkState (trace st ++ [ev_check_output (class_find_cmd search_dir ref);
                         ev_open test_path])
           (stdin st)).
Proof.
  intros Hsplit search_dir Hout Hcand Hne Hlines Hnone.
  assert (PyStr.truthy out = true) as Hout_truthy.
  { destruct out; [|done]. vm_compute in Hcand. by injection Hcand as <-. }
  assert (omap PACKAGE_RE_match lines = []) as Hno.
  { clear Hlines. induction lines as [|l lines IH]; [done|].
    apply Forall_cons in Hnone as [Hl Hrest]. simpl. rewrite Hl. by apply IH. }
  unfold _find_test_by_class_name.
  rewrite bind_run, Hsplit. cbv beta iota.
  assert (match rel_config with
          | Some rc =>
              if PyStr.truthy rc
              then PyLib.path_join (root_dir self) (PyLib.dirname rc)
              else root_dir self
          | None => root_dir self
          end = search_dir) as ->.
  { unfold search_dir. by destruct rel_config as [[|]|]. }
  rewrite bind_run, _find_class_file_cmd, bind_run.
  rewrite (os_check_output_run _ _ out) by done.
  rewrite (_extract_test_path_single out test_path) by done.
  unfold opt_truthy.
  assert (PyStr.truthy test_path = true) as -> by (by destruct test_path).
  cbn [negb default]. rewrite bind_run.
  unfold _get_fully_qualified_class_name.
  rewrite bind_run, (os_read_lines_run _ _ lines) by done.
  rewrite Hno. simpl. by rewrite <- app_assoc.
Qed.

Lemma find_test_by_class_name_no_package_witness :
  _find_test_by_class_name no_package_world example_translator "FooTest"
    None None initial_state =
  (Raise MissingPackageNameError,
   mkState [ev_check_output (FIND_CMD_CLASS "/src" "FooTest");
            ev_open "/src/pkg/foo/FooTest.java"] []).
Proof.
  apply (find_test_by_class_name_no_package no_package_world example_translator
           "FooTest" "FooTest" ∅ ("/src/pkg/foo/FooTest.java" +:+ NL)
           "/src/pkg/foo/FooTest.java"
           ["import org.junit.Test;" +:+ NL; "public class FooTest {}" +:+ NL]
           None None initial_state);
    try reflexivity; [discriminate|].
  repeat constructor.
Defined.

(** ** A class behind an integration name *)

(** X16: an integration name with a class behind a colon.  A plain class
    name is looked for first, by one find below the root, and when that
    prints nothing the answer is no test before any integration directory
    is searched.  A dotted class name is taken as it is: no file is looked
    for, the integration directories are searched for the name in front of
    the colon, and the test info that is found carries the class with its
    methods as its only filter. *)
Theorem find_test_by_integration_name_with_class w self name class_part cls
    methods st :
  PyStr.count ":" name = 0%nat → PyStr.count ":" class_part = 0%nat →
  _split_methods class_part st = (Return (cls, methods), st) →
  (PyStr.contains "." cls = false →
   check_output w (FIND_CMD_CLASS (root_dir self) cls) = Some EmptyString →
   _find_test_by_integration_name w self (name +:+ ":" +:+ class_part) st =
   (Return None,
    mkState (trace st ++ [ev_check_output (FIND_CMD_CLASS (root_dir self) cls)])
            (stdin st))) ∧
  (PyStr.contains "." cls = true →
   _find_test_by_integration_name w self (name +:+ ":" +:+ class_part) st =
   integration_dirs_loop w self (integration_dirs self) name
     {[ mkTestFilter cls methods ]} st) ∧
  (PyStr.contains "." cls = true →
   ∀ quiet_dirs d later_dirs test_file,
     integration_dirs self = quiet_dirs ++ d :: later_dirs →
     no_integration_config w self quiet_dirs name →
     check_output w (FIND_CMD_INTEGRATION (PyLib.path_join (root_dir self) d) name)
       = Some (test_file +:+ NL) →
     candidates (test_file +:+ NL) = [test_file] → test_file ≠ EmptyString →
     INT_NAME_RE_match test_file = Some name →
     _find_test_by_integration_name w self (name +:+ ":" +:+ class_part) st =
     (Return (Some (mkTestInfo (Some (relpath w test_file (root_dir self)))
                               None (Some name) {[ mkTestFilter cls methods ]})),
      mkState (trace st ++ integration_probes self (quiet_dirs ++ [d]) name)
              (stdin st))).
Proof.
  intros Hname Hcp Hsplit.
  assert (PyStr.contains ":" (name +:+ ":" +:+ class_part) = true) as Hcolon.
  { apply contains_count. change (":" +:+ class_part) with (String ":" class_part).
    rewrite count_app. simpl. lia. }
  assert (PyStr.split ":" (name +:+ ":" +:+ class_part) = [name; class_part])
    as Hparts.
  { change (":" +:+ class_part) with (String ":" class_part).
    by rewrite split_app, (split_no_sep _ class_part). }
  assert (PyStr.contains "." cls = true →
          _find_test_by_integration_name w self (name +:+ ":" +:+ class_part) st =
          integration_dirs_loop w self (integration_dirs self) name
            {[ mkTestFilter cls methods ]} st) as Hdotted.
  { intros Hdot. unfold _find_test_by_integration_name, integration_name_and_filters.
    rewrite Hcolon, Hparts, !bind_run, Hsplit. cbv beta iota. by rewrite Hdot. }
  split; [|split; [done|]].
  - intros Hdot Hout.
    unfold _find_test_by_integration_name, integration_name_and_filters.
    rewrite Hcolon, Hparts, !bind_run, Hsplit. cbv beta iota. rewrite Hdot.
    cbn [negb]. rewrite bind_run, _find_class_file_cmd, bind_run.
    unfold class_find_cmd. rewrite Hdot.
    by rewrite (os_check_output_run _ _ EmptyString).
  - intros Hdot quiet_dirs d later_dirs test_file Hdirs Hq Hout Hcand Hne Hre.
    rewrite Hdotted, Hdirs by done.
    rewrite (integration_dirs_loop_first _ _ _ _ _ _ _ (test_file +:+ NL)
               test_file _
               (mkState (trace st ++ integration_probes self (quiet_dirs ++ [d]) name)
                        (stdin st))); try done.
    + rewrite Hre. by rewrite decide_True.
    + apply _extract_test_path_single; [|done].
      destruct test_file; [done|]. by rewrite append_String.
    + by destruct test_file.
Qed.

(** A dotted class behind the integration name [Foo]. *)
Lemma find_test_by_integration_name_with_class_witness :
  _find_test_by_integration_name integration_world two_roots_translator
    "Foo:com.example.FooTest#m1" initial_state =
  (Return (Some (mkTestInfo
                   (Some "tools/tradefederation/core/res/config/Foo.xml")
                   None (Some "Foo")
                   {[ mkTestFilter "com.example.FooTest" {["m1"]} ]})),
   mkState [ev_check_output
              (FIND_CMD_INTEGRATION "/src/tools/tradefederation/core" "Foo")]
           []).
Proof.
  apply (proj2 (proj2 (find_test_by_integration_name_with_class
           integration_world two_roots_translator "Foo"
           "com.example.FooTest#m1" "com.example.FooTest" {["m1"]}
           initial_state eq_refl eq_refl eq_refl)) eq_refl
           [] "tools/tradefederation/core" ["vendor/tradefed"]
           "/src/tools/tradefederation/core/res/config/Foo.xml").
  - reflexivity.
  - intros d' Hd'. by apply elem_of_nil in Hd'.
  - reflexivity.
  - reflexivity.
  - discriminate.
  - reflexivity.
Defined.

(** ** Module and class *)

(** X17: the module and class strategy needs one colon.  Without a colon
    it ends with [ValueError]; with one colon and a module in front of it
    that is not in the index, or has nothing installed, it finds no test
    and touches nothing, whatever stands behind the colon. *)
Theorem find_test_by_module_and_class_edges w self module_class st :
  (PyStr.count ":" module_class = 0%nat →
   _find_test_by_module_and_class w self module_class st = (Raise ValueError, st)) ∧
  (∀ name class_name,
     PyStr.split ":" module_class = [name; class_name] →
     (∀ info, dict_get (module_info self) name = Some info →
              installed_truthy info = false) →
     _find_test_by_module_and_class w self module_class st = (Return None, st)).
Proof.
  split.
  - intros Hc. unfold _find_test_by_module_and_class. by rewrite split_no_sep.
  - intros name cls Hs Hmod. unfold _find_test_by_module_and_class.
    rewrite Hs, bind_run, _find_test_by_module_name_run.
    destruct (dict_get (module_info self) name) as [info|] eqn:Hget; [|done].
    by rewrite (Hmod info eq_refl).
Qed.

Lemma find_test_by_module_and_class_edges_witness :
  _find_test_by_module_and_class empty_world example_translator
    "NoSuchModule:FooTest#m1#m2" initial_state = (Return None, initial_state).
Proof.
  apply (proj2 (find_test_by_module_and_class_edges empty_world
                  example_translator "NoSuchModule:FooTest#m1#m2" initial_state)
           "NoSuchModule" "FooTest#m1#m2"); [reflexivity|].
  intros info Hget. vm_compute in Hget. discriminate Hget.
Defined.

(** ** Build targets named by a test config *)

Lemma get_targets_loop_spec self option_tags target_to_add targets st :
  Forall (λ tag, is_Some (attr_name tag) ∧ is_Some (attr_value tag)) option_tags →
  opt_truthy target_to_add
    && dict_has (module_info self) (default EmptyString target_to_add) = false →
  ∃ result,
    get_targets_loop self option_tags target_to_add targets st
      = (Return result, st) ∧
    ∀ t, t ∈ result ↔
         t ∈ targets ∨ ∃ tag, tag ∈ option_tags ∧ names_target self tag t.
Proof.
  revert target_to_add targets.
  induction option_tags as [|tag tags IH]; intros carried targets Hall Hdead.
  - exists targets. split; [done|]. intros t. split; [auto|].
    intros [?|(tag & Hin & _)]; [done|]. by apply elem_of_nil in Hin.
  - apply Forall_cons in Hall as [[[name Hn] [value Hv]] Hall].
    simpl. rewrite Hn, Hv. simpl. rewrite !bind_ret.
    destruct (target_of_option (strip_blanks name) (strip_blanks value))
      as [target|] eqn:Htarget.
    + destruct (opt_truthy (Some target)
                && dict_has (module_info self) (default EmptyString (Some target)))
        eqn:Hlive.
      * destruct (IH None (targets ∪ {[ target ]}) Hall eq_refl)
          as (result & Hrun & Hres).
        exists result. split; [exact Hrun|]. intros t. rewrite Hres.
        apply andb_true_iff in Hlive as [Htruthy Hhas].
        apply bool_decide_eq_true in Hhas. simpl in *.
        rewrite elem_of_union, elem_of_singleton. split.
        -- intros [[?| ->]|(tag' & Hin & Hnames)]; [auto|right..].
           ++ exists tag. split; [left|]. exists name, value.
              repeat split; try done. by destruct target.
           ++ exists tag'. split; [by right|done].
        -- intros [?|(tag' & Hin & Hnames)]; [auto|].
           apply elem_of_cons in Hin as [->|Hin]; [|eauto].
           left. right. destruct Hnames as (n' & v' & Hn' & Hv' & Ht & _).
           congruence.
      * destruct (IH (Some target) targets Hall Hlive) as (result & Hrun & Hres).
        exists result. split; [exact Hrun|]. intros t. rewrite Hres.
        split; (intros [?|(tag' & Hin & Hnames)]; [auto|]).
        -- right. exists tag'. split; [by right|done].
        -- apply elem_of_cons in Hin as [->|Hin]; [|eauto].
           destruct Hnames as (n' & v' & Hn' & Hv' & Ht & Hne & Hhas).
           assert (t = target) as -> by congruence.
           apply andb_false_iff in Hlive as [Hl|Hl].
           ++ by destruct target.
           ++ simpl in Hl. unfold dict_has in Hl.
              by rewrite bool_decide_eq_true_2 in Hl.
    + rewrite Hdead.
      destruct (IH carried targets Hall Hdead) as (result & Hrun & Hres).
      exists result. split; [exact Hrun|]. intros t. rewrite Hres.
      split; (intros [?|(tag' & Hin & Hnames)]; [auto|]).
      * right. exists tag'. split; [by right|done].
      * apply elem_of_cons in Hin as [->|Hin]; [|eauto].
        destruct Hnames as (n' & v' & Hn' & Hv' & Ht & _). congruence.
Qed.

(** X18: the build targets read off the option tags of a config are the
    targets that some tag names (an apk file name without its ending, the
    value of test-module-name, or perf-setup.sh) and that the module index
    knows; a target the index does not know is never among them, and a tag
    that names none adds none, although the loop keeps the last unknown
    target in hand. *)
Theorem get_targets_from_xml_spec self option_tags st :
  Forall (λ tag, is_Some (attr_name tag) ∧ is_Some (attr_value tag)) option_tags →
  ∃ targets,
    _get_targets_from_xml self option_tags st = (Return targets, st) ∧
    (∀ t, t ∈ targets ↔ ∃ tag, tag ∈ option_tags ∧ names_target self tag t) ∧
    (∀ t, t ∈ targets → is_Some (dict_get (module_info self) t)).
Proof.
  intros Hall.
  destruct (get_targets_loop_spec self option_tags None ∅ st Hall eq_refl)
    as (targets & Hrun & Hres).
  exists targets. split; [exact Hrun|].
  assert (∀ t, t ∈ targets ↔ ∃ tag, tag ∈ option_tags ∧ names_target self tag t)
    as Hspec.
  { intros t. rewrite Hres. split; [|auto].
    intros [Hin|?]; [by apply not_elem_of_empty in Hin|done]. }
  split; [exact Hspec|]. intros t Ht. apply Hspec in Ht as (tag & _ & Hnames).
  by destruct Hnames as (? & ? & _ & _ & _ & _ & ?).
Qed.

(** The apk of module [Foo], an apk the index does not know, and a tag
    that names nothing. *)
Lemma get_targets_from_xml_spec_witness :
  let option_tags :=
    [ mk_option_tag (Some "test-file-name") (Some "Unknown.apk");
      mk_option_tag (Some "package") (Some "com.example");
      mk_option_tag (Some "test-file-name") (Some " Foo.APK ") ] in
  ∃ targets,
    _get_targets_from_xml example_translator option_tags initial_state
      = (Return targets, initial_state) ∧
    (∀ t, t ∈ targets ↔
          ∃ tag, tag ∈ option_tags ∧ names_target example_translator tag t) ∧
    (∀ t, t ∈ targets → is_Some (dict_get (module_info example_translator) t)).
Proof.
  intros option_tags.
  apply (get_targets_from_xml_spec example_translator option_tags initial_state).
  repeat constructor; by eexists.
Defined.

Example get_targets_from_xml_example :
  _get_targets_from_xml example_translator
    [ mk_option_tag (Some "test-file-name") (Some "Unknown.apk");
      mk_option_tag (Some "package") (Some "com.example");
      mk_option_tag (Some "test-file-name") (Some " Foo.APK ") ]
    initial_state
  = (Return {[ "Foo" ]}, initial_state).
Proof.
  unfold _get_targets_from_xml. simpl. f_equal.
Qed.

(** ** The module info cache *)

Lemma add_paths_lookup mod_info paths
    (path_to_module_info : gmap string (list (gmap string ModuleInfo.value))) p :
  default [] (ModuleInfo.add_paths mod_info paths path_to_module_info !! p) =
  default [] (path_to_module_info !! p)
  ++ ((λ _, mod_info) <$> filter (λ q, q = p) paths).
Proof.
  revert path_to_module_info.
  induction paths as [|path paths IH]; intros p2m; simpl.
  - by rewrite app_nil_r.
  - rewrite IH. destruct (decide (path = p)) as [->|Hne].
    + rewrite filter_cons_True by done. simpl.
      destruct (p2m !! p) as [mods|] eqn:Hp; rewrite lookup_insert_eq; simpl;
        by rewrite <- ?app_assoc.
    + rewrite filter_cons_False by done.
      by destruct (p2m !! path); rewrite lookup_insert_ne.
Qed.

Lemma get_path_to_module_info_loop_lookup items
    (path_to_module_info : gmap string (list (gmap string ModuleInfo.value))) p :
  default []
    ((ModuleInfo.get_path_to_module_info_loop items path_to_module_info).2 !! p) =
  default [] (path_to_module_info !! p) ++ ModuleInfo.mods_at p items.
Proof.
  revert path_to_module_info.
  induction items as [|[mod_name mod_info] items IH]; intros p2m; simpl.
  - by rewrite app_nil_r.
  - specialize (IH (ModuleInfo.add_paths (ModuleInfo.named mod_name mod_info)
                      (ModuleInfo.items_of (ModuleInfo.get_path mod_info)) p2m)).
    destruct (ModuleInfo.get_path_to_module_info_loop items _) as [rest result].
    simpl in *. rewrite IH, add_paths_lookup.
    unfold ModuleInfo.mods_at. by rewrite <- app_assoc.
Qed.

Lemma get_path_to_module_info_loop_names items
    (path_to_module_info : gmap string (list (gmap string ModuleInfo.value))) n :
  dict_get (ModuleInfo.get_path_to_module_info_loop items path_to_module_info).1 n
  = ModuleInfo.named n <$> dict_get items n.
Proof.
  revert path_to_module_info.
  induction items as [|[mod_name mod_info] items IH]; intros p2m; simpl; [done|].
  specialize (IH (ModuleInfo.add_paths (ModuleInfo.named mod_name mod_info)
                    (ModuleInfo.items_of (ModuleInfo.get_path mod_info)) p2m)).
  destruct (ModuleInfo.get_path_to_module_info_loop items _) as [rest result].
  simpl in *. case_decide; [by subst|done].
Qed.

Lemma named_lookup_other n (i : gmap string ModuleInfo.value) k :
  k ≠ ModuleInfo._MODULE_NAME → ModuleInfo.named n i !! k = i !! k.
Proof.
  intros Hk. unfold ModuleInfo.named.
  destruct (ModuleInfo.items_of (ModuleInfo.get_path i)); [done|].
  by rewrite lookup_insert_ne.
Qed.

Lemma named_lookup_name n (i : gmap string ModuleInfo.value) p :
  p ∈ ModuleInfo.items_of (ModuleInfo.get_path i) →
  ModuleInfo.named n i !! ModuleInfo._MODULE_NAME = Some (ModuleInfo.VStr n).
Proof.
  intros Hp. unfold ModuleInfo.named.
  destruct (ModuleInfo.items_of (ModuleInfo.get_path i));
    [by apply elem_of_nil in Hp|].
  by rewrite lookup_insert_eq.
Qed.

Lemma get_path_named n (i : gmap string ModuleInfo.value) :
  ModuleInfo.get_path (ModuleInfo.named n i) = ModuleInfo.get_path i.
Proof. unfold ModuleInfo.get_path. by rewrite named_lookup_other. Qed.

Lemma elem_of_mods_at p items m :
  m ∈ ModuleInfo.mods_at p items ↔
  ∃ n i, (n, i) ∈ items ∧ p ∈ ModuleInfo.items_of (ModuleInfo.get_path i) ∧
         m = ModuleInfo.named n i.
Proof.
  unfold ModuleInfo.mods_at. rewrite list_elem_of_bind. split.
  - intros ([n i] & Hm & Hin). apply list_elem_of_fmap in Hm as (q & -> & Hq).
    apply list_elem_of_filter in Hq as [-> Hq]. by exists n, i.
  - intros (n & i & Hin & Hp & ->). exists (n, i). split; [|done].
    apply list_elem_of_fmap. exists p. split; [done|].
    by apply list_elem_of_filter.
Qed.

Lemma first_installed_sound mods v :
  ModuleInfo.first_installed mods = Some v →
  ∃ m, m ∈ mods ∧ ModuleInfo.truthy (m !! "installed") = true ∧
       m !! ModuleInfo._MODULE_NAME = Some v.
Proof.
  induction mods as [|m mods IH]; simpl; [done|].
  destruct (ModuleInfo.truthy (m !! "installed")) eqn:Hi.
  - intros Hv. exists m. split; [left|done].
  - intros Hv. destruct (IH Hv) as (m' & Hin & H'). exists m'. split; [by right|done].
Qed.

Lemma first_installed_complete mods :
  (∀ m, m ∈ mods → is_Some (m !! ModuleInfo._MODULE_NAME)) →
  (∃ m, m ∈ mods ∧ ModuleInfo.truthy (m !! "installed") = true) →
  is_Some (ModuleInfo.first_installed mods).
Proof.
  induction mods as [|m mods IH]; intros Hnames (m' & Hin & Hi);
    [by apply elem_of_nil in Hin|].
  simpl. destruct (ModuleInfo.truthy (m !! "installed")) eqn:Hm.
  - apply Hnames. left.
  - apply IH; [intros m'' Hm''; apply Hnames; by right|].
    apply elem_of_cons in Hin as [->|Hin]; [congruence|eauto].
Qed.

Lemma get_module_name_mods_at loaded p :
  ModuleInfo.get_module_name (ModuleInfo.init loaded) p
  = ModuleInfo.first_installed (ModuleInfo.mods_at p loaded).
Proof.
  unfold ModuleInfo.get_module_name, ModuleInfo.init,
    ModuleInfo._get_path_to_module_info.
  pose proof (get_path_to_module_info_loop_lookup loaded ∅ p) as Hl.
  destruct (ModuleInfo.get_path_to_module_info_loop loaded ∅) as [n2m p2m].
  simpl in *. by rewrite Hl, lookup_empty.
Qed.

(** X19: [ModuleInfo.get_module_name] after the cache is set up.  The
    name it gives for a path is the name of a module of the loaded file
    that lists the path and has something installed; and it gives a name
    whenever there is such a module, also when modules without anything
    installed list the path first. *)
Theorem module_info_get_module_name loaded rel_module_path :
  (∀ v, ModuleInfo.get_module_name (ModuleInfo.init loaded) rel_module_path
        = Some v →
        ∃ n i, (n, i) ∈ loaded ∧
               rel_module_path ∈ ModuleInfo.items_of (ModuleInfo.get_path i) ∧
               ModuleInfo.truthy (i !! "installed") = true ∧
               v = ModuleInfo.VStr n) ∧
  ((∃ n i, (n, i) ∈ loaded ∧
           rel_module_path ∈ ModuleInfo.items_of (ModuleInfo.get_path i) ∧
           ModuleInfo.truthy (i !! "installed") = true) →
   is_Some (ModuleInfo.get_module_name (ModuleInfo.init loaded) rel_module_path)).
Proof.
  rewrite get_module_name_mods_at. split.
  - intros v Hv. apply first_installed_sound in Hv as (m & Hm & Hi & Hn).
    apply elem_of_mods_at in Hm as (n & i & Hin & Hp & ->).
    exists n, i. rewrite named_lookup_other in Hi by done.
    rewrite (named_lookup_name _ _ _ Hp) in Hn. by injection Hn as <-.
  - intros (n & i & Hin & Hp & Hi). apply first_installed_complete.
    + intros m Hm. apply elem_of_mods_at in Hm as (n' & i' & _ & Hp' & ->).
      by rewrite (named_lookup_name _ _ _ Hp').
    + exists (ModuleInfo.named n i). split.
      * apply elem_of_mods_at. by exists n, i.
      * by rewrite named_lookup_other.
Qed.

(** Two modules in one directory, the first with nothing installed. *)
Lemma module_info_get_module_name_witness :
  let loaded :=
    [ ("FooLib", {[ "path" := ModuleInfo.VList ["pkg/foo"] ]});
      ("Foo", {[ "path" := ModuleInfo.VList ["pkg/foo"];
                 "installed" := ModuleInfo.VList ["out/Foo.apk"] ]}) ] in
  is_Some (ModuleInfo.get_module_name (ModuleInfo.init loaded) "pkg/foo").
Proof.
  intros loaded.
  apply (proj2 (module_info_get_module_name loaded "pkg/foo")).
  exists "Foo", {[ "path" := ModuleInfo.VList ["pkg/foo"];
                   "installed" := ModuleInfo.VList ["out/Foo.apk"] ]}.
  split; [right; left|]. split; [|reflexivity].
  vm_compute. left.
Defined.

(** X20: what setting up the cache does to the loaded dict.  The names
    stay the same; the dict of a module that lists a path now holds the
    name of the module, and the dict of a module without a path is as it
    was loaded. *)
Theorem module_info_init_names loaded mod_name :
  ModuleInfo.get_module_info (ModuleInfo.init loaded) mod_name
    = ModuleInfo.named mod_name <$> dict_get loaded mod_name ∧
  ModuleInfo.is_module (ModuleInfo.init loaded) mod_name = dict_has loaded mod_name ∧
  (∀ i, dict_get loaded mod_name = Some i →
        (ModuleInfo.items_of (ModuleInfo.get_path i) = [] →
         ModuleInfo.get_module_info (ModuleInfo.init loaded) mod_name = Some i) ∧
        (ModuleInfo.items_of (ModuleInfo.get_path i) ≠ [] →
         ∃ i', ModuleInfo.get_module_info (ModuleInfo.init loaded) mod_name
                 = Some i' ∧
               i' !! ModuleInfo._MODULE_NAME = Some (ModuleInfo.VStr mod_name) ∧
               ∀ k, k ≠ ModuleInfo._MODULE_NAME → i' !! k = i !! k)).
Proof.
  assert (ModuleInfo.get_module_info (ModuleInfo.init loaded) mod_name
          = ModuleInfo.named mod_name <$> dict_get loaded mod_name) as Hinfo.
  { unfold ModuleInfo.get_module_info, ModuleInfo.init,
      ModuleInfo._get_path_to_module_info.
    pose proof (get_path_to_module_info_loop_names loaded ∅ mod_name) as Hn.
    by destruct (ModuleInfo.get_path_to_module_info_loop loaded ∅). }
  split; [exact Hinfo|]. split.
  - unfold ModuleInfo.is_module, dict_has.
    change (dict_get (ModuleInfo.name_to_module_info (ModuleInfo.init loaded)) mod_name)
      with (ModuleInfo.get_module_info (ModuleInfo.init loaded) mod_name).
    rewrite Hinfo. by destruct (dict_get loaded mod_name).
  - intros i Hi. rewrite Hinfo, Hi. simpl. split.
    + intros He. unfold ModuleInfo.named. by rewrite He.
    + intros Hne. eexists. split; [done|].
      destruct (ModuleInfo.items_of (ModuleInfo.get_path i)) as [|p ps] eqn:Hp;
        [done|]. split.
      * apply (named_lookup_name _ _ p). rewrite Hp. left.
      * intros k Hk. by apply named_lookup_other.
Qed.

(** X21: path and name go together.  When no name occurs twice in the
    loaded file, a name that [get_module_name] gives for a path is the name
    of a module whose paths, as [get_paths] gives them, hold that path. *)
Theorem module_info_round_trip loaded rel_module_path name :
  NoDup loaded.*1 →
  ModuleInfo.get_module_name (ModuleInfo.init loaded) rel_module_path
    = Some (ModuleInfo.VStr name) →
  rel_module_path ∈
    ModuleInfo.items_of (ModuleInfo.get_paths (ModuleInfo.init loaded) name).
Proof.
  intros Hnd Hname. rewrite get_module_name_mods_at in Hname.
  apply first_installed_sound in Hname as (m & Hm & _ & Hn).
  apply elem_of_mods_at in Hm as (n & i & Hin & Hp & ->).
  rewrite (named_lookup_name _ _ _ Hp) in Hn. injection Hn as ->.
  unfold ModuleInfo.get_paths.
  change (dict_get (ModuleInfo.name_to_module_info (ModuleInfo.init loaded)) name)
    with (ModuleInfo.get_module_info (ModuleInfo.init loaded) name).
  unfold ModuleInfo.get_module_info, ModuleInfo.init,
    ModuleInfo._get_path_to_module_info.
  pose proof (get_path_to_module_info_loop_names loaded ∅ name) as Hnames.
  destruct (ModuleInfo.get_path_to_module_info_loop loaded ∅) as [n2m p2m].
  simpl in *. rewrite Hnames, (dict_get_elem _ _ _ Hnd Hin). simpl.
  rewrite decide_False.
  - by rewrite get_path_named.
  - intros He. pose proof (named_lookup_name name i _ Hp) as Hl.
    rewrite He in Hl. by rewrite lookup_empty in Hl.
Qed.

Lemma module_info_round_trip_witness :
  let loaded :=
    [ ("Foo", ({[ "path" := ModuleInfo.VList ["pkg/foo"];
                  "installed" := ModuleInfo.VList ["out/Foo.apk"] ]}
               : gmap string ModuleInfo.value)) ] in
  "pkg/foo" ∈
    ModuleInfo.items_of (ModuleInfo.get_paths (ModuleInfo.init loaded) "Foo").
Proof.
  intros loaded. apply (module_info_round_trip loaded "pkg/foo" "Foo").
  - simpl. apply NoDup_singleton.
  - vm_compute. reflexivity.
Defined.

Lemma module_info_init_names_witness :
  let i : gmap string ModuleInfo.value :=
    {[ "path" := ModuleInfo.VList ["pkg/foo"] ]} in
  let loaded := [ ("Foo", i) ] in
  ∃ i', ModuleInfo.get_module_info (ModuleInfo.init loaded) "Foo" = Some i' ∧
        i' !! ModuleInfo._MODULE_NAME = Some (ModuleInfo.VStr "Foo") ∧
        ∀ k, k ≠ ModuleInfo._MODULE_NAME → i' !! k = i !! k.
Proof.
  intros i loaded.
  apply (proj2 (proj2 (proj2 (module_info_init_names loaded "Foo")) i eq_refl)).
  vm_compute. discriminate.
Defined.

(** ** The package line of a class file *)

Lemma lstrip_space_blanks indent s :
  PyLib.lstrip_space indent = EmptyString →
  PyLib.lstrip_space (indent +:+ s) = PyLib.lstrip_space s.
Proof.
  induction indent as [|a indent IH]; intros Hb.
  - by rewrite append_empty_l.
  - rewrite append_String. simpl in *.
    destruct (Ascii.is_space a); [by apply IH|discriminate].
Qed.

Lemma before_first_semicolon p rest :
  PyStr.contains ";" p = false →
  PyLib.before_first ";" (p +:+ ";" +:+ rest) = Some p.
Proof.
  induction p as [|a p IH]; intros Hc.
  - by rewrite append_empty_l.
  - rewrite append_String. simpl in *.
    apply orb_false_iff in Hc as [Ha Hc].
    destruct (decide (a = ";"%char)) as [->|Hne].
    + by destruct p.
    + by rewrite IH.
Qed.

Lemma PACKAGE_RE_match_line indent package rest :
  PyLib.lstrip_space indent = EmptyString →
  PyStr.truthy package = true →
  PyLib.lstrip_space package = package →
  PyStr.contains ";" package = false →
  PACKAGE_RE_match (indent +:+ "package " +:+ package +:+ ";" +:+ rest)
  = Some package.
Proof.
  intros Hindent Ht Hl Hc. unfold PACKAGE_RE_match.
  rewrite lstrip_space_blanks by done.
  change (PyLib.lstrip_space ("package " +:+ package +:+ ";" +:+ rest))
    with ("package " +:+ package +:+ ";" +:+ rest).
  change (strip_prefix_ci "package" ("package " +:+ package +:+ ";" +:+ rest))
    with (Some (String " " (package +:+ ";" +:+ rest))).
  simpl. rewrite before_first_semicolon by done. simpl.
  change (PyLib.lstrip_space package) with (PyLib.lstrip_space package).
  rewrite Hl, decide_False, Ht; [done|].
  intros He. apply (f_equal String.length) in He. simpl in He. lia.
Qed.

(** X22: the fully qualified name of a class.  The first line of the class
    file that has the word package in front decides: what stands between
    the blanks after the word and the first semicolon is the package, blanks
    in front of the semicolon included, and the class is the name of the
    file without its extension.  The file is opened once and nothing else is
    looked at. *)
Theorem fully_qualified_class_name_of_package_line w test_path pre indent
    package rest post st :
  file_lines w test_path
    = Some (pre ++ (indent +:+ "package " +:+ package +:+ ";" +:+ rest) :: post) →
  Forall (λ line, PACKAGE_RE_match line = None) pre →
  PyLib.lstrip_space indent = EmptyString →
  PyStr.truthy package = true →
  PyLib.lstrip_space package = package →
  PyStr.contains ";" package = false →
  _get_fully_qualified_class_name w test_path st =
  (Return (package +:+ "." +:+
           PyLib.splitext_root (PyLib.path_split test_path).2),
   mkState (trace st ++ [ev_open test_path]) (stdin st)).
Proof.
  intros Hlines Hpre Hindent Ht Hl Hc.
  apply (_get_fully_qualified_class_name_run _ _ _ _ _ Hlines).
  clear Hlines. induction pre as [|l pre IH]; simpl.
  - by rewrite PACKAGE_RE_match_line.
  - apply Forall_cons in Hpre as [Hnone Hpre]. rewrite Hnone. by apply IH.
Qed.

(** A class file with a comment line first and a blank in front of the
    semicolon of its package line. *)
Lemma fully_qualified_class_name_of_package_line_witness :
  let w := mkWorld (λ _, Some EmptyString)
             (λ _, Some ["// header"; "package com.example ;"])
             (λ p, p) (λ _, false) (λ _, false) (λ _, false) (λ p _, p) in
  _get_fully_qualified_class_name w "/src/pkg/FooTest.java" initial_state =
  (Return "com.example .FooTest",
   mkState (trace initial_state ++ [ev_open "/src/pkg/FooTest.java"])
           (stdin initial_state)).
Proof.
  intros w.
  apply (fully_qualified_class_name_of_package_line w "/src/pkg/FooTest.java"
           ["// header"] EmptyString "com.example " EmptyString []
           initial_state); try reflexivity.
  repeat constructor.
Defined.
